(** * devops-toolkit: the compliance rule-evaluation engine

    A shallow embedding of the Go packages [pkg/compliance] (result model,
    policy catalog, the three checkers, the result filter) and
    [cmd/compliance] (report builder, JUnit renderer), followed by the
    properties of the engine stated over that embedding.

    Conventions of the embedding:
    - a Go [string] is a [string]; a named string type ([CheckStatus]) is
      an alias of [string], so every value the field can hold is covered;
    - a Go [int] counter is a [Z] (the counters below are bounded by the
      length of a slice, so no wrap-around can occur);
    - a Go [float64] is a primitive binary64 [float];
    - a slice is a [list] (a nil slice and an empty slice are both [[]]);
    - a Go [map] is a [gmap], and an association list where it is nested in
      a decoded YAML value; reading an absent key gives the zero value;
    - a [(value, error)] return is a pair whose second component is an
      [option error], [None] standing for the nil error;
    - a pointer the code dereferences is an [option], [None] standing for
      nil; a run-time panic (an index out of range, a nil dereference) is
      the result [None] of the function it aborts;
    - the order in which [range] visits a Go map is an argument of the
      function that ranges over it;
    - the external providers (cluster API, container runtime, file system,
      YAML parser) are explicit arguments: records of query answers;
    - of the standard library, what the code calls is embedded as far as
      it is used; the case tables of [unicode] and the matcher of [regexp]
      are parameters. *)

From Stdlib Require Import ZArith String Ascii List Lia Floats DecimalString.
From stdpp Require Import base list strings gmap.

Import ListNotations.
#[local] Set Warnings "-register-all".
Local Open Scope string_scope.
Local Open Scope list_scope.

(** ** Go's [unicode] package

    The case tables of the package are not modelled.  What
    [strings.Map(unicode.ToUpper, s)] and [strings.Map(unicode.ToLower, s)]
    make of a text that is not ASCII is a parameter of the embedding, and
    every property below holds whatever it is. *)
Class Unicode := mkUnicode {
  MapToUpper : string -> string;
  MapToLower : string -> string
}.

(** ** Go's [strings] package, as far as the checkers use it *)

Module strings.

Definition HasPrefix (s p : string) : bool := String.prefix p s.

Definition HasSuffix (s suffix : string) : bool :=
  let n := String.length s in
  let m := String.length suffix in
  (m <=? n)%nat && String.eqb (String.substring (n - m) m s) suffix.

Fixpoint Contains (s substr : string) : bool :=
  match s with
  | EmptyString => String.eqb substr EmptyString
  | String _ s' => String.prefix substr s || Contains s' substr
  end.

(** No byte of the text is 128 or more. *)
Fixpoint isASCII (s : string) : bool :=
  match s with
  | EmptyString => true
  | String c s' => (nat_of_ascii c <? 128)%nat && isASCII s'
  end.

Definition upper (c : ascii) : ascii :=
  let n := nat_of_ascii c in
  if (97 <=? n)%nat && (n <=? 122)%nat then ascii_of_nat (n - 32) else c.

Definition lower (c : ascii) : ascii :=
  let n := nat_of_ascii c in
  if (65 <=? n)%nat && (n <=? 90)%nat then ascii_of_nat (n + 32) else c.

Fixpoint mapBytes (f : ascii -> ascii) (s : string) : string :=
  match s with
  | EmptyString => EmptyString
  | String c s' => String (f c) (mapBytes f s')
  end.

(** [ToUpper] and [ToLower] map an ASCII text byte by byte, and hand any
    other text to [strings.Map] with a case table. *)
Definition ToUpper {unicode : Unicode} (s : string) : string :=
  if isASCII s then mapBytes upper s else MapToUpper s.

Definition ToLower {unicode : Unicode} (s : string) : string :=
  if isASCII s then mapBytes lower s else MapToLower s.

(** White space, as [unicode.IsSpace] has it.  In ASCII: tab, line feed,
    vertical tab, form feed, carriage return and space. *)
Definition isSpace (c : ascii) : bool :=
  let n := nat_of_ascii c in
  ((9 <=? n)%nat && (n <=? 13)%nat) || (n =? 32)%nat.

(** Outside ASCII, by the bytes of the UTF-8 encoding: U+0085 and U+00A0
    take two bytes; U+1680, U+2000 to U+200A, U+2028, U+2029, U+202F,
    U+205F and U+3000 take three. *)
Definition isSpace2 (c1 c2 : ascii) : bool :=
  (nat_of_ascii c1 =? 194)%nat
  && ((nat_of_ascii c2 =? 133)%nat || (nat_of_ascii c2 =? 160)%nat).

Definition isSpace3 (c1 c2 c3 : ascii) : bool :=
  let n1 := nat_of_ascii c1 in
  let n2 := nat_of_ascii c2 in
  let n3 := nat_of_ascii c3 in
  ((n1 =? 225) && (n2 =? 154) && (n3 =? 128))%nat
  || ((n1 =? 226) && (n2 =? 128)
      && (((128 <=? n3) && (n3 <=? 138)) || (n3 =? 168) || (n3 =? 169)
          || (n3 =? 175)))%nat
  || ((n1 =? 226) && (n2 =? 129) && (n3 =? 159))%nat
  || ((n1 =? 227) && (n2 =? 128) && (n3 =? 128))%nat.

(** A text that is the encoding of one white space character. *)
Definition isSpaceRune (s : string) : bool :=
  match s with
  | String c EmptyString => isSpace c
  | String c1 (String c2 EmptyString) => isSpace2 c1 c2
  | String c1 (String c2 (String c3 EmptyString)) => isSpace3 c1 c2 c3
  | _ => false
  end.

(** The text after its leading white space.  A byte that starts no
    white space character, be it part of another character or of no valid
    encoding, ends the run. *)
Fixpoint trimLeft (s : string) : string :=
  match s with
  | EmptyString => EmptyString
  | String c1 s1 =>
      if isSpace c1 then trimLeft s1
      else
        match s1 with
        | EmptyString => s
        | String c2 s2 =>
            if isSpace2 c1 c2 then trimLeft s2
            else
              match s2 with
              | EmptyString => s
              | String c3 s3 => if isSpace3 c1 c2 c3 then trimLeft s3 else s
              end
        end
  end.

(** The text before its trailing white space: a character is dropped
    when all that follows it is dropped and it is white space. *)
Fixpoint trimRight (s : string) : string :=
  match s with
  | EmptyString => EmptyString
  | String c s' =>
      let t := String c (trimRight s') in
      if isSpaceRune t then EmptyString else t
  end.

Definition TrimSpace (s : string) : string := trimRight (trimLeft s).

(** [strings.Split(s, sep)] for the one-byte separator [sep]. *)
Fixpoint Split (s : string) (sep : ascii) : list string :=
  match s with
  | EmptyString => [EmptyString]
  | String c s' =>
      if Ascii.eqb c sep then EmptyString :: Split s' sep
      else
        match Split s' sep with
        | line :: rest => String c line :: rest
        | [] => [String c EmptyString]
        end
  end.

End strings.

(** ** Go's [path/filepath] package (Unix), as far as the file checker uses it *)

Module filepath.

Definition hasSeparator (s : string) : bool := strings.Contains s "/".

(** The suffix from the last dot of the last path element on. *)
Fixpoint Ext (path : string) : string :=
  match path with
  | EmptyString => EmptyString
  | String c rest =>
      let e := Ext rest in
      if negb (String.eqb e EmptyString) then e
      else if hasSeparator rest then EmptyString
      else if Ascii.eqb c "." then path
      else EmptyString
  end.

Fixpoint stripTrailingSeparators (path : string) : string :=
  match path with
  | EmptyString => EmptyString
  | String c rest =>
      let t := stripTrailingSeparators rest in
      if Ascii.eqb c "/" && String.eqb t EmptyString then EmptyString
      else String c t
  end.

Fixpoint lastElement (path : string) : string :=
  match path with
  | EmptyString => EmptyString
  | String c rest =>
      if hasSeparator rest then lastElement rest
      else if Ascii.eqb c "/" then rest
      else path
  end.

Definition Base (path : string) : string :=
  if String.eqb path EmptyString then "."
  else
    let path := lastElement (stripTrailingSeparators path) in
    if String.eqb path EmptyString then "/" else path.

(** One element of a path being cleaned.  [kept] holds the elements kept
    so far, last first: an empty element and [.] are dropped, [..] takes
    back the last element kept, unless there is none or it is [..]
    itself; then it is kept in a relative path and dropped in a rooted
    one. *)
Definition cleanElement (rooted : bool) (kept : list string) (elem : string)
  : list string :=
  if String.eqb elem "" || String.eqb elem "." then kept
  else if String.eqb elem ".." then
    match kept with
    | last :: before =>
        if String.eqb last ".." then elem :: kept else before
    | [] => if rooted then [] else [elem]
    end
  else elem :: kept.

Fixpoint joinElements (elems : list string) : string :=
  match elems with
  | [] => EmptyString
  | [elem] => elem
  | elem :: rest => (elem ++ "/" ++ joinElements rest)%string
  end.

(** [filepath.Clean]: the shortest path that names the same file by
    the spelling alone. *)
Definition Clean (path : string) : string :=
  if String.eqb path "" then "."
  else
    let rooted := strings.HasPrefix path "/" in
    let kept := fold_left (cleanElement rooted) (strings.Split path "/") [] in
    let cleaned := joinElements (rev kept) in
    if rooted then ("/" ++ cleaned)%string
    else if String.eqb cleaned "" then "." else cleaned.

(** [filepath.Join] of two elements: empty elements are left out and the
    result is cleaned; it is empty when both are. *)
Definition Join (dir name : string) : string :=
  if negb (String.eqb dir "") then Clean (dir ++ "/" ++ name)
  else if negb (String.eqb name "") then Clean name
  else "".

End filepath.

(** Go's [error] interface.  The two sentinel errors of [path/filepath]
    are recognized by identity; any other error is known by its message. *)
Inductive error : Type :=
| SkipDir
| SkipAll
| errorString (msg : string).

Coercion errorString : string >-> error.

(** ** pkg/compliance/types.go: the result model *)

Definition CheckStatus := string.

Definition StatusPassed : CheckStatus := "passed".
Definition StatusFailed : CheckStatus := "failed".
Definition StatusSkipped : CheckStatus := "skipped".
Definition StatusWarning : CheckStatus := "warning".

Record CheckResult := mkCheckResult {
  RuleID : string;
  RuleName : string;
  Category : string;
  Severity : string;
  Status : CheckStatus;
  Resource : string;
  Message : string;
  Remediation : string
}.

Record CheckOptions := mkCheckOptions {
  Namespace : string;
  Image : string;
  Path : string;
  SkipRules : list string;
  OnlyRules : list string;
  MinSeverity : string
}.

Record Policy := mkPolicy {
  ID : string;
  Name : string;
  PolicyCategory : string;
  PolicySeverity : string;
  Description : string;
  PolicyRemediation : string
}.

Record ReportSummary := mkReportSummary {
  Total : Z;
  Passed : Z;
  Failed : Z;
  Skipped : Z;
  Score : float
}.

Record Report := mkReport {
  Title : string;
  GeneratedAt : Z;
  Summary : ReportSummary;
  Results : list CheckResult
}.

(** ** The result filter ([K8sChecker.filterResults]) *)

(** The table of [meetsMinSeverity]. *)
Definition levels : gmap string Z :=
  {[ "low" := 1%Z; "medium" := 2%Z; "high" := 3%Z; "critical" := 4%Z ]}.

Definition meetsMinSeverity (severity minSeverity : string) : bool :=
  (default 0 (levels !! minSeverity) <=? default 0 (levels !! severity))%Z.

(** The two inner loops of the filter: scan a rule list for [id], setting
    the flag and breaking at the first hit. *)
Fixpoint ruleListed (id : string) (rules : list string) : bool :=
  match rules with
  | [] => false
  | rule :: rest => if String.eqb id rule then true else ruleListed id rest
  end.

(** The body of the outer loop: [false] at each [continue]. *)
Definition keepResult (opts : CheckOptions) (r : CheckResult) : bool :=
  if ruleListed (RuleID r) (SkipRules opts) then false
  else if (0 <? length (OnlyRules opts))%nat
          && negb (ruleListed (RuleID r) (OnlyRules opts)) then false
  else if negb (String.eqb (MinSeverity opts) "")
          && negb (meetsMinSeverity (Severity r) (MinSeverity opts)) then false
  else true.

Definition filterResults (opts : CheckOptions) (results : list CheckResult)
  : list CheckResult :=
  if (length (SkipRules opts) =? 0)%nat
     && (length (OnlyRules opts) =? 0)%nat
     && String.eqb (MinSeverity opts) ""
  then results
  else
    fold_left
      (fun filtered r => if keepResult opts r then filtered ++ [r] else filtered)
      results [].

(** ** The report builder (the summary part of [runReport]) *)

(** [float64(n)] for an [int] [n]. *)
Definition float64 (n : Z) : float :=
  if (0 <=? n)%Z then PrimFloat.of_uint63 (Uint63.of_Z n)
  else PrimFloat.opp (PrimFloat.of_uint63 (Uint63.of_Z (- n))).

(** The [--include-passed=false] pre-filter. *)
Definition dropPassed (results : list CheckResult) : list CheckResult :=
  fold_left
    (fun filtered r =>
       if negb (String.eqb (Status r) StatusPassed) then filtered ++ [r]
       else filtered)
    results [].

(** One iteration of the summary loop: the [switch r.Status]. *)
Definition countStatus (s : ReportSummary) (r : CheckResult) : ReportSummary :=
  if String.eqb (Status r) StatusPassed then
    mkReportSummary (Total s) (Passed s + 1) (Failed s) (Skipped s) (Score s)
  else if String.eqb (Status r) StatusFailed then
    mkReportSummary (Total s) (Passed s) (Failed s + 1) (Skipped s) (Score s)
  else if String.eqb (Status r) StatusSkipped then
    mkReportSummary (Total s) (Passed s) (Failed s) (Skipped s + 1) (Score s)
  else s.

Definition zeroSummary : ReportSummary := mkReportSummary 0 0 0 0 0%float.

Definition computeSummary (results : list CheckResult) : ReportSummary :=
  let s := fold_left countStatus results zeroSummary in
  let total := Z.of_nat (length results) in
  let s := mkReportSummary total (Passed s) (Failed s) (Skipped s) (Score s) in
  if (0 <? Total s)%Z then
    mkReportSummary (Total s) (Passed s) (Failed s) (Skipped s)
      (float64 (Passed s) / float64 (Total s - Skipped s) * 100)%float
  else s.

(** The report as [runReport] builds it from the checkers' results. *)
Definition buildReport (title : string) (now : Z) (includePassed : bool)
    (results : list CheckResult) : Report :=
  let results := if negb includePassed then dropPassed results else results in
  mkReport title now (computeSummary results) results.

(** ** The JUnit renderer ([generateJUnitReport]) *)

(** The double quote and the line feed of the Go raw string literals. *)
Definition dq : string := String (ascii_of_nat 34) EmptyString.
Definition nl : string := String (ascii_of_nat 10) EmptyString.

(** [fmt.Sprintf] with the verb [%d] on an [int]. *)
Definition itoa (n : Z) : string := NilZero.string_of_int (Z.to_int n).

(** The grouping loop:
    [byCategory[r.Category] = append(byCategory[r.Category], r)]. *)
Definition groupByCategory (results : list CheckResult)
  : gmap string (list CheckResult) :=
  fold_left
    (fun byCategory r =>
       <[Category r := default [] (byCategory !! Category r) ++ [r]]> byCategory)
    results ∅.

(** The inner counting loop of a suite. *)
Definition countFailures (results : list CheckResult) : Z :=
  fold_left
    (fun failures r =>
       if String.eqb (Status r) StatusFailed then (failures + 1)%Z else failures)
    results 0%Z.

Definition testsuitesOpen (tests failures : Z) : string :=
  "<?xml version=" ++ dq ++ "1.0" ++ dq ++ " encoding=" ++ dq ++ "UTF-8" ++ dq
  ++ "?>" ++ nl
  ++ "<testsuites name=" ++ dq ++ "Compliance Checks" ++ dq
  ++ " tests=" ++ dq ++ itoa tests ++ dq
  ++ " failures=" ++ dq ++ itoa failures ++ dq
  ++ " time=" ++ dq ++ "0" ++ dq ++ ">" ++ nl.

Definition testsuiteOpen (category : string) (tests failures : Z) : string :=
  "  <testsuite name=" ++ dq ++ category ++ dq
  ++ " tests=" ++ dq ++ itoa tests ++ dq
  ++ " failures=" ++ dq ++ itoa failures ++ dq ++ ">" ++ nl.

Definition testcase (r : CheckResult) : string :=
  "    <testcase name=" ++ dq ++ RuleID r ++ dq
  ++ " classname=" ++ dq ++ Resource r ++ dq ++ ">" ++ nl
  ++ (if String.eqb (Status r) StatusFailed then
        "      <failure message=" ++ dq ++ Message r ++ dq
        ++ " type=" ++ dq ++ Severity r ++ dq ++ ">" ++ Message r
        ++ "</failure>" ++ nl
      else if String.eqb (Status r) StatusSkipped then
        "      <skipped/>" ++ nl
      else "")
  ++ "    </testcase>" ++ nl.

Definition testcases (results : list CheckResult) : string :=
  fold_left (fun xml r => (xml ++ testcase r)%string) results "".

(** One iteration of [for category, results := range byCategory]. *)
Definition testsuite (category : string) (results : list CheckResult) : string :=
  testsuiteOpen category (Z.of_nat (length results)) (countFailures results)
  ++ testcases results
  ++ "  </testsuite>" ++ nl.

(** Go leaves the order in which [range] visits a map unspecified and
    draws it anew at every loop.  [visit] is that choice: the entries of
    the map in the order the loop is given them, each entry once. *)
Definition generateJUnitReport
    (visit : gmap string (list CheckResult) -> list (string * list CheckResult))
    (report : Report) : string :=
  let xml :=
    testsuitesOpen (Total (Summary report)) (Failed (Summary report)) in
  let byCategory := groupByCategory (Results report) in
  let xml :=
    fold_left (fun xml kv => (xml ++ testsuite kv.1 kv.2)%string)
      (visit byCategory) xml in
  (xml ++ "</testsuites>")%string.

(** ** Results of fallible calls *)

Inductive result (A : Type) : Type :=
| Ok (a : A)
| Err (e : error).
Arguments Ok {A} a.
Arguments Err {A} e.

(** [results = append(results, r)] under an [if]. *)
Definition appendIf (cond : bool) (r : CheckResult) (results : list CheckResult)
  : list CheckResult :=
  if cond then results ++ [r] else results.

(** [if err == nil { results = append(results, sub...) }]: the results of a
    sub-check are merged only when it returned no error. *)
Definition merge (results : list CheckResult)
    (sub : list CheckResult * option error) : list CheckResult :=
  match sub.2 with
  | None => results ++ sub.1
  | Some _ => results
  end.

(** ** The cluster: the part of [k8s.io/api] the checker reads *)

Module corev1.

Definition PullPolicy := string.
Definition PullAlways : PullPolicy := "Always".

Record SecurityContext := mkSecurityContext {
  Privileged : option bool;
  RunAsNonRoot : option bool;
  ReadOnlyRootFilesystem : option bool
}.

(** Only the presence of a probe is inspected. *)
Inductive Probe := mkProbe.

(** [ResourceList]: resource name to quantity; [Cpu()] and [Memory()]
    give the zero quantity for an absent name. *)
Definition Cpu (rl : gmap string Z) : Z := default 0%Z (rl !! "cpu").
Definition Memory (rl : gmap string Z) : Z := default 0%Z (rl !! "memory").
Definition IsZero (q : Z) : bool := (q =? 0)%Z.

Record ResourceRequirements := mkResourceRequirements {
  Limits : gmap string Z;
  Requests : gmap string Z
}.

Record Container := mkContainer {
  ContainerName : string;
  ContainerImage : string;
  ImagePullPolicy : PullPolicy;
  ContainerSecurityContext : option SecurityContext;
  LivenessProbe : option Probe;
  ReadinessProbe : option Probe;
  Resources : ResourceRequirements
}.

Record PodSpec := mkPodSpec {
  Containers : list Container;
  HostNetwork : bool;
  HostPID : bool
}.

Record Pod := mkPod {
  PodNamespace : string;
  PodName : string;
  Spec : PodSpec
}.

(** A namespace, a network policy and a cluster role binding, by the
    fields the checker reads. *)
Record NamespaceObj := mkNamespace { NamespaceName : string }.
Inductive NetworkPolicy := mkNetworkPolicy.
Record ClusterRoleBinding := mkClusterRoleBinding {
  BindingName : string;
  RoleRefName : string
}.

End corev1.

(** The answers of the cluster API to the list queries of one run (a
    query repeated during the run is answered the same way). *)
Record Clientset := mkClientset {
  ListPods : string -> result (list corev1.Pod);
  ListNamespaces : result (list corev1.NamespaceObj);
  ListNetworkPolicies : string -> result (list corev1.NetworkPolicy);
  ListClusterRoleBindings : result (list corev1.ClusterRoleBinding)
}.

(** ** The cluster checker ([K8sChecker]) *)

Module K8sChecker.
Import corev1.

(** [p != nil && *p] and [p == nil || !*p] on a [*bool]. *)
Definition isTrue (p : option bool) : bool :=
  match p with Some b => b | None => false end.
Definition nilOrFalse (p : option bool) : bool :=
  match p with Some b => negb b | None => true end.

Definition privileged (c : Container) : bool :=
  match ContainerSecurityContext c with
  | Some sc => isTrue (Privileged sc)
  | None => false
  end.

Definition mayRunAsRoot (c : Container) : bool :=
  match ContainerSecurityContext c with
  | Some sc => nilOrFalse (RunAsNonRoot sc)
  | None => true
  end.

Definition writableRootfs (c : Container) : bool :=
  match ContainerSecurityContext c with
  | Some sc => nilOrFalse (ReadOnlyRootFilesystem sc)
  | None => true
  end.

Definition podSecurityContainer (resource : string)
    (results : list CheckResult) (container : Container) : list CheckResult :=
  let results :=
    if privileged container then
      results ++ [mkCheckResult "K8S-SEC-001" "No Privileged Containers"
        "Kubernetes Security" "critical" StatusFailed resource
        ("Container '" ++ ContainerName container
           ++ "' is running in privileged mode")
        "Set securityContext.privileged to false"]
    else
      results ++ [mkCheckResult "K8S-SEC-001" "No Privileged Containers"
        "Kubernetes Security" "critical" StatusPassed resource
        ("Container '" ++ ContainerName container ++ "' is not privileged")
        ""] in
  let results :=
    appendIf (mayRunAsRoot container)
      (mkCheckResult "K8S-SEC-002" "Run as Non-Root"
        "Kubernetes Security" "high" StatusFailed resource
        ("Container '" ++ ContainerName container ++ "' may run as root")
        "Set securityContext.runAsNonRoot to true") results in
  appendIf (writableRootfs container)
    (mkCheckResult "K8S-SEC-003" "Read-Only Root Filesystem"
      "Kubernetes Security" "medium" StatusFailed resource
      ("Container '" ++ ContainerName container
         ++ "' has writable root filesystem")
      "Set securityContext.readOnlyRootFilesystem to true") results.

Definition podSecurityPod (results : list CheckResult) (pod : Pod)
  : list CheckResult :=
  let resource := (PodNamespace pod ++ "/" ++ PodName pod)%string in
  let results :=
    fold_left (podSecurityContainer resource) (Containers (Spec pod)) results in
  let results :=
    appendIf (HostNetwork (Spec pod))
      (mkCheckResult "K8S-SEC-004" "No Host Network"
        "Kubernetes Security" "high" StatusFailed resource
        "Pod is using host network" "Set hostNetwork to false") results in
  appendIf (HostPID (Spec pod))
    (mkCheckResult "K8S-SEC-005" "No Host PID"
      "Kubernetes Security" "high" StatusFailed resource
      "Pod is using host PID namespace" "Set hostPID to false") results.

Definition checkPodSecurity (cs : Clientset) (opts : CheckOptions)
  : list CheckResult * option error :=
  match ListPods cs (Namespace opts) with
  | Err e => ([], Some e)
  | Ok pods => (fold_left podSecurityPod pods [], None)
  end.

Definition containersContainer (resource : string)
    (results : list CheckResult) (container : Container) : list CheckResult :=
  let results :=
    appendIf (strings.HasSuffix (ContainerImage container) ":latest"
              || negb (strings.Contains (ContainerImage container) ":"))
      (mkCheckResult "K8S-IMG-001" "No Latest Tag"
        "Kubernetes Best Practices" "medium" StatusFailed resource
        ("Container '" ++ ContainerName container
           ++ "' uses latest or no tag: " ++ ContainerImage container)
        "Use specific image tags") results in
  let results :=
    appendIf (String.eqb (ImagePullPolicy container) PullAlways)
      (mkCheckResult "K8S-IMG-002" "Image Pull Policy"
        "Kubernetes Best Practices" "low" StatusPassed resource
        ("Container '" ++ ContainerName container
           ++ "' has ImagePullPolicy: Always")
        "") results in
  let results :=
    appendIf (match LivenessProbe container with None => true | _ => false end)
      (mkCheckResult "K8S-PROBE-001" "Liveness Probe"
        "Kubernetes Best Practices" "medium" StatusFailed resource
        ("Container '" ++ ContainerName container
           ++ "' has no liveness probe")
        "Add a livenessProbe to the container") results in
  appendIf (match ReadinessProbe container with None => true | _ => false end)
    (mkCheckResult "K8S-PROBE-002" "Readiness Probe"
      "Kubernetes Best Practices" "medium" StatusFailed resource
      ("Container '" ++ ContainerName container
         ++ "' has no readiness probe")
      "Add a readinessProbe to the container") results.

Definition containersPod (results : list CheckResult) (pod : Pod)
  : list CheckResult :=
  let resource := (PodNamespace pod ++ "/" ++ PodName pod)%string in
  fold_left (containersContainer resource) (Containers (Spec pod)) results.

Definition checkContainers (cs : Clientset) (opts : CheckOptions)
  : list CheckResult * option error :=
  match ListPods cs (Namespace opts) with
  | Err e => ([], Some e)
  | Ok pods => (fold_left containersPod pods [], None)
  end.

Definition resourceLimitsContainer (resource : string)
    (results : list CheckResult) (container : Container) : list CheckResult :=
  let results :=
    appendIf (IsZero (Cpu (Limits (Resources container))))
      (mkCheckResult "K8S-RES-001" "CPU Limits"
        "Kubernetes Resources" "medium" StatusFailed resource
        ("Container '" ++ ContainerName container ++ "' has no CPU limit")
        "Set resources.limits.cpu") results in
  let results :=
    appendIf (IsZero (Memory (Limits (Resources container))))
      (mkCheckResult "K8S-RES-002" "Memory Limits"
        "Kubernetes Resources" "high" StatusFailed resource
        ("Container '" ++ ContainerName container ++ "' has no memory limit")
        "Set resources.limits.memory") results in
  let results :=
    appendIf (IsZero (Cpu (Requests (Resources container))))
      (mkCheckResult "K8S-RES-003" "CPU Requests"
        "Kubernetes Resources" "low" StatusFailed resource
        ("Container '" ++ ContainerName container ++ "' has no CPU request")
        "Set resources.requests.cpu") results in
  appendIf (IsZero (Memory (Requests (Resources container))))
    (mkCheckResult "K8S-RES-004" "Memory Requests"
      "Kubernetes Resources" "low" StatusFailed resource
      ("Container '" ++ ContainerName container ++ "' has no memory request")
      "Set resources.requests.memory") results.

Definition resourceLimitsPod (results : list CheckResult) (pod : Pod)
  : list CheckResult :=
  let resource := (PodNamespace pod ++ "/" ++ PodName pod)%string in
  fold_left (resourceLimitsContainer resource) (Containers (Spec pod)) results.

Definition checkResourceLimits (cs : Clientset) (opts : CheckOptions)
  : list CheckResult * option error :=
  match ListPods cs (Namespace opts) with
  | Err e => ([], Some e)
  | Ok pods => (fold_left resourceLimitsPod pods [], None)
  end.

Definition networkPoliciesNamespace (cs : Clientset) (opts : CheckOptions)
    (results : list CheckResult) (ns : NamespaceObj) : list CheckResult :=
  if strings.HasPrefix (NamespaceName ns) "kube-" then results
  else if negb (String.eqb (Namespace opts) "")
          && negb (String.eqb (NamespaceName ns) (Namespace opts))
  then results
  else
    match ListNetworkPolicies cs (NamespaceName ns) with
    | Err _ => results
    | Ok policies =>
        if (length policies =? 0)%nat then
          results ++ [mkCheckResult "K8S-NET-001" "Network Policies"
            "Kubernetes Network" "medium" StatusFailed (NamespaceName ns)
            ("Namespace '" ++ NamespaceName ns ++ "' has no NetworkPolicies")
            "Define NetworkPolicies to restrict pod traffic"]
        else
          results ++ [mkCheckResult "K8S-NET-001" "Network Policies"
            "Kubernetes Network" "medium" StatusPassed (NamespaceName ns)
            ("Namespace '" ++ NamespaceName ns ++ "' has "
               ++ itoa (Z.of_nat (length policies)) ++ " NetworkPolicies")
            ""]
    end.

Definition checkNetworkPolicies (cs : Clientset) (opts : CheckOptions)
  : list CheckResult * option error :=
  match ListNamespaces cs with
  | Err e => ([], Some e)
  | Ok namespaces =>
      (fold_left (networkPoliciesNamespace cs opts) namespaces [], None)
  end.

Definition rbacBinding (results : list CheckResult)
    (binding : ClusterRoleBinding) : list CheckResult :=
  if String.eqb (RoleRefName binding) "cluster-admin" then
    if strings.HasPrefix (BindingName binding) "system:" then results
    else
      results ++ [mkCheckResult "K8S-RBAC-001" "Cluster Admin Bindings"
        "Kubernetes RBAC" "high" StatusFailed (BindingName binding)
        ("ClusterRoleBinding '" ++ BindingName binding
           ++ "' grants cluster-admin")
        "Use more restrictive roles"]
  else results.

Definition checkRBAC (cs : Clientset) (opts : CheckOptions)
  : list CheckResult * option error :=
  match ListClusterRoleBindings cs with
  | Err e => ([], Some e)
  | Ok bindings => (fold_left rbacBinding bindings [], None)
  end.

(** [initClient] is the argument [client]: the client set, or the error
    of building it from the kubeconfig. *)
Definition Run (client : result Clientset) (opts : CheckOptions)
  : list CheckResult * option error :=
  match client with
  | Err e => ([], Some e)
  | Ok cs =>
      let results := merge [] (checkPodSecurity cs opts) in
      let results := merge results (checkContainers cs opts) in
      let results := merge results (checkResourceLimits cs opts) in
      let results := merge results (checkNetworkPolicies cs opts) in
      let results := merge results (checkRBAC cs opts) in
      (filterResults opts results, None)
  end.

End K8sChecker.

(** ** The container runtime: the part of the Docker API the checker reads *)

Module docker.

Record RestartPolicy := mkRestartPolicy { RestartPolicyName : string }.

Record HostConfig := mkHostConfig {
  Privileged : bool;
  UsernsMode : string;
  NetworkMode : string;
  PidMode : string;
  CapAdd : list string;
  Memory : Z;
  CPUQuota : Z;
  NanoCPUs : Z;
  RestartPolicyOf : RestartPolicy;
  ReadonlyRootfs : bool
}.

Record HealthConfig := mkHealthConfig { Test : list string }.

(** [ExposedPorts] is a set of ports; it is kept as the list of the
    numbers [port.Int()] gives, in the order the range visits them. *)
Record Config := mkConfig {
  User : string;
  Healthcheck : option HealthConfig;
  ExposedPorts : list Z
}.

(** [HostConfig] and [Config] are pointers: [None] is nil.  [HostConfig]
    is reached through the embedded [*ContainerJSONBase], and is nil here
    also when that pointer is. *)
Record ContainerJSON := mkContainerJSON {
  HostConfigOf : option HostConfig;
  ConfigOf : option Config
}.

Record ContainerSummary := mkContainerSummary {
  ContainerID : string;
  Names : list string
}.

(** [Config] is a pointer: [None] is nil. *)
Record ImageInspect := mkImageInspect {
  RepoTags : list string;
  Size : Z;
  ImageConfig : option Config
}.

(** The answers of the runtime to the three calls of the checker. *)
Record Client := mkClient {
  ContainerList : result (list ContainerSummary);
  ContainerInspect : string -> result ContainerJSON;
  ImageInspectWithRaw : string -> result ImageInspect
}.

End docker.

(** ** The runtime checker ([DockerChecker]) *)

Module DockerChecker.
Import docker.

Fixpoint isDangerousCapIn (cap : string) (dangerous : list string) : bool :=
  match dangerous with
  | [] => false
  | d :: rest => if String.eqb cap d then true else isDangerousCapIn cap rest
  end.

Definition isDangerousCap (cap : string) : bool :=
  isDangerousCapIn cap
    ["SYS_ADMIN"; "SYS_PTRACE"; "NET_ADMIN"; "SYS_MODULE";
     "SYS_RAWIO"; "SYS_BOOT"; "MAC_ADMIN"; "MAC_OVERRIDE"].

Definition runsAsRoot (user : string) : bool :=
  String.eqb user "" || String.eqb user "root" || String.eqb user "0".

(** The rules of one inspected container, with both pointers set. *)
Definition containerRulesOf (name : string) (hc : HostConfig) (cfg : Config)
    (results : list CheckResult) : list CheckResult :=
  let results :=
    if Privileged hc then
      results ++ [mkCheckResult "DOCKER-SEC-001" "No Privileged Containers"
        "Docker Security" "critical" StatusFailed name
        "Container is running in privileged mode" "Remove --privileged flag"]
    else
      results ++ [mkCheckResult "DOCKER-SEC-001" "No Privileged Containers"
        "Docker Security" "critical" StatusPassed name
        "Container is not running in privileged mode" ""] in
  let results :=
    appendIf ((String.eqb (UsernsMode hc) "" || String.eqb (UsernsMode hc) "host")
              && runsAsRoot (User cfg))
      (mkCheckResult "DOCKER-SEC-002" "Non-Root User"
        "Docker Security" "high" StatusFailed name
        "Container is running as root"
        "Use USER directive in Dockerfile or --user flag") results in
  let results :=
    appendIf (String.eqb (NetworkMode hc) "host")
      (mkCheckResult "DOCKER-SEC-003" "No Host Network"
        "Docker Security" "high" StatusFailed name
        "Container is using host network" "Use bridge or custom network")
      results in
  let results :=
    appendIf (String.eqb (PidMode hc) "host")
      (mkCheckResult "DOCKER-SEC-004" "No Host PID"
        "Docker Security" "high" StatusFailed name
        "Container is using host PID namespace" "Remove --pid=host flag")
      results in
  let results :=
    fold_left
      (fun results cap =>
         appendIf (isDangerousCap cap)
           (mkCheckResult "DOCKER-SEC-005" "No Dangerous Capabilities"
             "Docker Security" "high" StatusFailed name
             ("Container has dangerous capability: " ++ cap)
             "Remove unnecessary capabilities") results)
      (CapAdd hc) results in
  let results :=
    appendIf (Memory hc =? 0)%Z
      (mkCheckResult "DOCKER-RES-001" "Memory Limits"
        "Docker Resources" "medium" StatusFailed name
        "Container has no memory limit" "Set --memory flag") results in
  let results :=
    appendIf ((CPUQuota hc =? 0)%Z && (NanoCPUs hc =? 0)%Z)
      (mkCheckResult "DOCKER-RES-002" "CPU Limits"
        "Docker Resources" "low" StatusFailed name
        "Container has no CPU limit" "Set --cpus or --cpu-quota flag")
      results in
  let results :=
    appendIf (String.eqb (RestartPolicyName (RestartPolicyOf hc)) ""
              || String.eqb (RestartPolicyName (RestartPolicyOf hc)) "no")
      (mkCheckResult "DOCKER-CFG-001" "Restart Policy"
        "Docker Configuration" "low" StatusFailed name
        "Container has no restart policy"
        "Set --restart=unless-stopped or similar") results in
  let results :=
    appendIf (match Healthcheck cfg with
              | None => true
              | Some h => (length (Test h) =? 0)%nat
              end)
      (mkCheckResult "DOCKER-CFG-002" "Health Check"
        "Docker Configuration" "medium" StatusFailed name
        "Container has no health check"
        "Add HEALTHCHECK in Dockerfile or --health-cmd flag") results in
  appendIf (negb (ReadonlyRootfs hc))
    (mkCheckResult "DOCKER-SEC-006" "Read-Only Root Filesystem"
      "Docker Security" "medium" StatusFailed name
      "Container has writable root filesystem" "Use --read-only flag")
    results.

(** The rules of one inspected container.  The first test reads
    [inspect.HostConfig.Privileged] and the health check test reads
    [inspect.Config.Healthcheck], neither behind a nil test: a nil
    [HostConfig] or a nil [Config] is a run-time panic, [None]. *)
Definition containerRules (name : string) (inspect : ContainerJSON)
    (results : list CheckResult) : option (list CheckResult) :=
  match HostConfigOf inspect, ConfigOf inspect with
  | Some hc, Some cfg => Some (containerRulesOf name hc cfg results)
  | _, _ => None
  end.

(** [name[1:]] after [strings.HasPrefix(name, "/")]. *)
Definition trimSlash (name : string) : string :=
  if strings.HasPrefix name "/" then
    String.substring 1 (String.length name - 1) name
  else name.

(** The loop over the listed containers.  [cont.Names[0]] on an empty
    [Names] is a run-time panic, as is a nil pointer in the rules:
    [None]. *)
Fixpoint containerLoop (c : Client) (containers : list ContainerSummary)
    (results : list CheckResult) : option (list CheckResult) :=
  match containers with
  | [] => Some results
  | cont :: rest =>
      match Names cont with
      | [] => None
      | name :: _ =>
          let name := trimSlash name in
          match ContainerInspect c (ContainerID cont) with
          | Err _ => containerLoop c rest results
          | Ok inspect =>
              match containerRules name inspect results with
              | None => None
              | Some results => containerLoop c rest results
              end
          end
      end
  end.

Definition checkContainerSecurity (c : Client)
  : option (list CheckResult * option error) :=
  match ContainerList c with
  | Err e => Some ([], Some e)
  | Ok containers =>
      match containerLoop c containers [] with
      | Some results => Some (results, None)
      | None => None
      end
  end.

(** The tag loop of [checkImage]: one result at the first [:latest] tag. *)
Fixpoint latestTag (resource : string) (tags : list string)
    (results : list CheckResult) : list CheckResult :=
  match tags with
  | [] => results
  | tag :: rest =>
      if strings.HasSuffix tag ":latest" then
        results ++ [mkCheckResult "DOCKER-IMG-001" "No Latest Tag"
          "Docker Images" "medium" StatusFailed resource
          "Image uses 'latest' tag" "Use specific version tags"]
      else latestTag resource rest results
  end.

(** The rules of an inspected image whose [Config] is set. *)
Definition imageRules (resource : string) (inspect : ImageInspect)
    (cfg : Config) : list CheckResult * option error :=
  let results := latestTag resource (RepoTags inspect) [] in
  let sizeMB := (Size inspect ÷ (1024 * 1024))%Z in
  let results :=
    appendIf (1000 <? sizeMB)%Z
      (mkCheckResult "DOCKER-IMG-002" "Image Size"
        "Docker Images" "low" StatusFailed resource
        ("Image is large: " ++ itoa sizeMB ++ " MB")
        "Use multi-stage builds or smaller base images") results in
  let results :=
    appendIf (runsAsRoot (User cfg))
      (mkCheckResult "DOCKER-IMG-003" "Non-Root User in Image"
        "Docker Images" "medium" StatusFailed resource
        "Image runs as root by default"
        "Add USER directive in Dockerfile") results in
  let results :=
    fold_left
      (fun results portNum =>
         appendIf (portNum <? 1024)%Z
           (mkCheckResult "DOCKER-IMG-004" "Privileged Ports"
             "Docker Images" "low" StatusFailed resource
             ("Image exposes privileged port: " ++ itoa portNum)
             "Use ports > 1024") results)
      (ExposedPorts cfg) results in
  (results, None).

(** [checkImage] reads [inspect.Config.User] without a nil test: a nil
    [Config] is a run-time panic, [None]. *)
Definition checkImage (c : Client) (imageName : string)
  : option (list CheckResult * option error) :=
  match ImageInspectWithRaw c imageName with
  | Err e => Some ([], Some e)
  | Ok inspect =>
      match ImageConfig inspect with
      | None => None
      | Some cfg => Some (imageRules imageName inspect cfg)
      end
  end.

(** [client] is what [client.NewClientWithOpts] returns.  [None] is a
    run-time panic inside the container loop or the image check. *)
Definition Run (client : result Client) (opts : CheckOptions)
  : option (list CheckResult * option error) :=
  match client with
  | Err e => Some ([], Some e)
  | Ok cli =>
      match checkContainerSecurity cli with
      | None => None
      | Some containerResults =>
          let results := merge [] containerResults in
          if negb (String.eqb (Image opts) "") then
            match checkImage cli (Image opts) with
            | None => None
            | Some imageResults => Some (merge results imageResults, None)
            end
          else Some (results, None)
      end
  end.

End DockerChecker.

(** ** The file system and the decoded YAML documents *)

(** A file-system entry as [os.Lstat] and [os.ReadFile] see it: a
    non-directory with the answer of reading it, or a directory with the
    answer of listing it, each listed name with the answer of [Lstat]. *)
Inductive FsNode : Type :=
| File (content : result string)
| Dir (entries : result (list (string * result FsNode))).

Definition IsDir (info : FsNode) : bool :=
  match info with
  | Dir _ => true
  | File _ => false
  end.

Definition ReadFile (node : FsNode) : result string :=
  match node with
  | File content => content
  | Dir _ => Err "is a directory"
  end.

(** A decoded YAML value, as [yaml.Unmarshal] stores it in an
    [interface{}]. *)
Inductive any : Type :=
| Nil
| Bool (b : bool)
| Str (s : string)
| Int (n : Z)
| Slice (items : list any)
| Map (fields : list (string * any))
| Other.

(** [m[key]] on a [map[string]interface{}]: nil when the key is absent. *)
Fixpoint index (m : list (string * any)) (key : string) : any :=
  match m with
  | [] => Nil
  | (k, v) :: rest => if String.eqb k key then v else index rest key
  end.

Definition isNil (v : any) : bool :=
  match v with Nil => true | _ => false end.

(** The type assertions [v.(string)], [v.(map[string]interface{})] and
    [v.([]interface{})] with the second result dropped. *)
Definition asString (v : any) : string :=
  match v with Str s => s | _ => "" end.
Definition asMap (v : any) : option (list (string * any)) :=
  match v with Map m => Some m | _ => None end.
Definition asSlice (v : any) : list any :=
  match v with Slice l => l | _ => [] end.

Definition getNestedMap (m : list (string * any)) (key : string)
  : option (list (string * any)) :=
  asMap (index m key).

(** ** [filepath.Walk] *)

(** [err == SkipDir] and [err == SkipAll]. *)
Definition isSkipDir (err : error) : bool :=
  match err with SkipDir => true | _ => false end.
Definition isSkipAll (err : error) : bool :=
  match err with SkipAll => true | _ => false end.

Definition errOf {A : Type} (r : result A) : option error :=
  match r with
  | Ok _ => None
  | Err e => Some e
  end.

Section Walk.

(** The state the callback closes over, and [filepath.Join]. *)
Context {S : Type}.
Variable Join : string -> string -> string.
Variable walkFn : string -> option FsNode -> option error -> S -> S * option error.

Fixpoint walk (path : string) (info : FsNode) (st : S) : S * option error :=
  match info with
  | File _ => walkFn path (Some info) None st
  | Dir names =>
      let '(st, err1) := walkFn path (Some info) (errOf names) st in
      match names, err1 with
      | Ok names, None =>
          (fix entries (names : list (string * result FsNode)) (st : S)
             : S * option error :=
             match names with
             | [] => (st, None)
             | (name, lstat) :: rest =>
                 let filename := Join path name in
                 match lstat with
                 | Err e =>
                     let '(st, err) := walkFn filename None (Some e) st in
                     match err with
                     | Some e' =>
                         if negb (isSkipDir e') then (st, err)
                         else entries rest st
                     | None => entries rest st
                     end
                 | Ok fileInfo =>
                     let '(st, err) := walk filename fileInfo st in
                     match err with
                     | Some e' =>
                         if negb (IsDir fileInfo) || negb (isSkipDir e')
                         then (st, err)
                         else entries rest st
                     | None => entries rest st
                     end
                 end
             end) names st
      | _, _ => (st, err1)
      end
  end.

(** [root] is the answer of [os.Lstat] on the root path. *)
Definition Walk (rootPath : string) (root : result FsNode) (st : S)
  : S * option error :=
  let '(st, err) :=
    match root with
    | Err e => walkFn rootPath None (Some e) st
    | Ok info => walk rootPath info st
    end in
  match err with
  | Some e => if isSkipDir e || isSkipAll e then (st, None) else (st, err)
  | None => (st, None)
  end.

End Walk.

(** ** The file checker ([FileChecker]) *)

Module FileChecker.

Section Checker.

Context {unicode : Unicode}.

(** The two library calls left abstract: [filepath.Join] and
  [yaml.Unmarshal] into a [map[string]interface{}]. *)
Variable Join : string -> string -> string.
Variable Unmarshal : string -> result (list (string * any)).

Definition isKubernetesManifest (path : string) (node : FsNode) : bool :=
let ext := strings.ToLower (filepath.Ext path) in
if negb (String.eqb ext ".yaml") && negb (String.eqb ext ".yml") then false
else
  match ReadFile node with
  | Err _ => false
  | Ok content =>
      strings.Contains content "apiVersion:" && strings.Contains content "kind:"
  end.

Definition isDockerfile (path : string) : bool :=
let name := filepath.Base path in
String.eqb name "Dockerfile" || strings.HasPrefix name "Dockerfile.".

Definition isDockerCompose (path : string) : bool :=
let name := strings.ToLower (filepath.Base path) in
String.eqb name "docker-compose.yml" || String.eqb name "docker-compose.yaml"
|| String.eqb name "compose.yml" || String.eqb name "compose.yaml".

Definition floatingTag (image : string) : bool :=
strings.HasSuffix image ":latest" || negb (strings.Contains image ":").

Definition noResourceLimits (resource containerName : string) : CheckResult :=
mkCheckResult "FILE-K8S-002" "Resource Limits" "File Compliance" "medium"
  StatusFailed resource
  ("Container '" ++ containerName ++ "' has no resource limits")
  "Add resources.limits".

(** One iteration of the container loop of a manifest. *)
Definition manifestContainer (resource : string)
  (results : list CheckResult) (c : any) : list CheckResult :=
let container := match asMap c with Some m => m | None => [] end in
let containerName := asString (index container "name") in
let image := asString (index container "image") in
let results :=
  appendIf (floatingTag image)
    (mkCheckResult "FILE-K8S-001" "No Latest Tag" "File Compliance" "medium"
      StatusFailed resource
      ("Container '" ++ containerName ++ "' uses latest or no tag")
      "Use specific image tags") results in
let results :=
  match asMap (index container "resources") with
  | None => results ++ [noResourceLimits resource containerName]
  | Some resources =>
      match asMap (index resources "limits") with
      | None => results ++ [noResourceLimits resource containerName]
      | Some _ => results
      end
  end in
let results :=
  appendIf (match asMap (index container "securityContext") with
            | None => true
            | Some _ => false
            end)
    (mkCheckResult "FILE-K8S-003" "Security Context" "File Compliance" "high"
      StatusFailed resource
      ("Container '" ++ containerName ++ "' has no securityContext")
      "Add securityContext with runAsNonRoot: true") results in
appendIf (isNil (index container "livenessProbe"))
  (mkCheckResult "FILE-K8S-004" "Liveness Probe" "File Compliance" "medium"
    StatusFailed resource
    ("Container '" ++ containerName ++ "' has no livenessProbe")
    "Add livenessProbe") results.

Definition checkKubernetesManifest (path : string) (node : FsNode)
: list CheckResult * option error :=
let resource := path in
match ReadFile node with
| Err e => ([], Some e)
| Ok data =>
    match Unmarshal data with
    | Err e => ([], Some e)
    | Ok manifest =>
        let kind := asString (index manifest "kind") in
        if String.eqb kind "Deployment" || String.eqb kind "Pod"
           || String.eqb kind "StatefulSet" || String.eqb kind "DaemonSet"
        then
          match getNestedMap manifest "spec" with
          | None => ([], None)
          | Some spec =>
              let spec :=
                if negb (String.eqb kind "Pod") then
                  match getNestedMap spec "template" with
                  | Some template => getNestedMap template "spec"
                  | None => Some spec
                  end
                else Some spec in
              match spec with
              | None => ([], None)
              | Some spec =>
                  (fold_left (manifestContainer resource)
                     (asSlice (index spec "containers")) [], None)
              end
          end
        else ([], None)
    end
end.

(** The flags and results of the line loop of [checkDockerfile]. *)
Record DockerfileScan := mkDockerfileScan {
hasUser : bool;
hasHealthcheck : bool;
usesLatest : bool;
scanResults : list CheckResult
}.

Definition dockerfileLine (resource : string) (st : DockerfileScan)
  (line : string) : DockerfileScan :=
let line := strings.TrimSpace line in
let upperLine := strings.ToUpper line in
let hasUser := hasUser st || strings.HasPrefix upperLine "USER " in
let hasHealthcheck :=
  hasHealthcheck st || strings.HasPrefix upperLine "HEALTHCHECK " in
let usesLatest :=
  usesLatest st
  || (strings.HasPrefix upperLine "FROM "
      && (strings.HasSuffix line ":latest" || negb (strings.Contains line ":"))) in
let results := scanResults st in
let results :=
  appendIf (strings.HasPrefix upperLine "ADD "
            && negb (strings.Contains line "http")
            && negb (strings.Contains line ".tar"))
    (mkCheckResult "FILE-DOCKER-001" "Use COPY Instead of ADD"
      "File Compliance" "low" StatusFailed resource
      "Use COPY instead of ADD for local files"
      "Replace ADD with COPY for local files") results in
let results :=
  appendIf ((strings.Contains line "curl" || strings.Contains line "wget")
            && (negb (strings.Contains line "&&")
                || negb (strings.Contains line "rm")))
    (mkCheckResult "FILE-DOCKER-002" "Clean Up Downloads"
      "File Compliance" "low" StatusFailed resource
      "Downloaded files should be cleaned up in same layer"
      "Combine download and cleanup in single RUN command") results in
mkDockerfileScan hasUser hasHealthcheck usesLatest results.

Definition checkDockerfile (path : string) (node : FsNode)
: list CheckResult * option error :=
let resource := path in
match ReadFile node with
| Err e => ([], Some e)
| Ok content =>
    let lines := strings.Split content (ascii_of_nat 10) in
    let st :=
      fold_left (dockerfileLine resource) lines
        (mkDockerfileScan false false false []) in
    let results := scanResults st in
    let results :=
      appendIf (negb (hasUser st))
        (mkCheckResult "FILE-DOCKER-003" "USER Directive"
          "File Compliance" "high" StatusFailed resource
          "Dockerfile has no USER directive"
          "Add USER directive to run as non-root") results in
    let results :=
      appendIf (negb (hasHealthcheck st))
        (mkCheckResult "FILE-DOCKER-004" "HEALTHCHECK Directive"
          "File Compliance" "medium" StatusFailed resource
          "Dockerfile has no HEALTHCHECK" "Add HEALTHCHECK directive")
        results in
    let results :=
      appendIf (usesLatest st)
        (mkCheckResult "FILE-DOCKER-005" "Specific Base Image Tag"
          "File Compliance" "medium" StatusFailed resource
          "Base image uses 'latest' or no tag"
          "Use specific version tag for base image") results in
    (results, None)
end.

(** One iteration of the service loop of a compose file. *)
Definition composeService (resource : string) (results : list CheckResult)
  (entry : string * any) : list CheckResult :=
let serviceName := entry.1 in
let service := match asMap entry.2 with Some m => m | None => [] end in
let results :=
  appendIf (match index service "privileged" with
            | Bool privileged => privileged
            | _ => false
            end)
    (mkCheckResult "FILE-COMPOSE-001" "No Privileged Services"
      "File Compliance" "critical" StatusFailed resource
      ("Service '" ++ serviceName ++ "' is privileged")
      "Remove privileged: true") results in
let results :=
  appendIf (match index service "network_mode" with
            | Str networkMode => String.eqb networkMode "host"
            | _ => false
            end)
    (mkCheckResult "FILE-COMPOSE-002" "No Host Network"
      "File Compliance" "high" StatusFailed resource
      ("Service '" ++ serviceName ++ "' uses host network")
      "Use bridge network") results in
let results :=
  appendIf (isNil (index service "restart") && isNil (index service "deploy"))
    (mkCheckResult "FILE-COMPOSE-003" "Restart Policy"
      "File Compliance" "low" StatusFailed resource
      ("Service '" ++ serviceName ++ "' has no restart policy")
      "Add restart: unless-stopped") results in
appendIf (match index service "image" with
          | Str image => floatingTag image
          | _ => false
          end)
  (mkCheckResult "FILE-COMPOSE-004" "Specific Image Tag"
    "File Compliance" "medium" StatusFailed resource
    ("Service '" ++ serviceName ++ "' uses latest or no tag")
    "Use specific image tag") results.

Definition checkDockerCompose (path : string) (node : FsNode)
: list CheckResult * option error :=
let resource := path in
match ReadFile node with
| Err e => ([], Some e)
| Ok data =>
    match Unmarshal data with
    | Err e => ([], Some e)
    | Ok compose =>
        let services :=
          match asMap (index compose "services") with
          | Some m => m
          | None => []
          end in
        (fold_left (composeService resource) services [], None)
    end
end.

(** The callback given to [filepath.Walk].  [Walk] passes a nil [info]
  only together with an error, so the last case is never reached. *)
Definition visit (path : string) (info : option FsNode) (err : option error)
  (results : list CheckResult) : list CheckResult * option error :=
match err, info with
| Some _, _ => (results, None)
| None, Some info =>
    if IsDir info then (results, None)
    else
      let results :=
        if isKubernetesManifest path info then
          merge results (checkKubernetesManifest path info)
        else results in
      let results :=
        if isDockerfile path then merge results (checkDockerfile path info)
        else results in
      let results :=
        if isDockerCompose path then
          merge results (checkDockerCompose path info)
        else results in
      (results, None)
| None, None => (results, None)
end.

(** [Lstat] is the file system: the answer of [os.Lstat] on a root path. *)
Definition Run (Lstat : string -> result FsNode) (opts : CheckOptions)
: list CheckResult * option error :=
Walk Join visit (Path opts) (Lstat (Path opts)) [].

End Checker.

End FileChecker.

(** ** pkg/compliance/policies.go: the built-in policy catalog *)

Definition GetBuiltinPolicies : list Policy :=
  [
    mkPolicy "K8S-SEC-001" "No Privileged Containers" "Kubernetes Security" "critical"
      "Containers should not run in privileged mode as it grants full host access"
      "Set securityContext.privileged to false";
    mkPolicy "K8S-SEC-002" "Run as Non-Root" "Kubernetes Security" "high"
      "Containers should run as non-root user to limit potential damage"
      "Set securityContext.runAsNonRoot to true and specify runAsUser";
    mkPolicy "K8S-SEC-003" "Read-Only Root Filesystem" "Kubernetes Security" "medium"
      "Container root filesystem should be read-only to prevent modifications"
      "Set securityContext.readOnlyRootFilesystem to true";
    mkPolicy "K8S-SEC-004" "No Host Network" "Kubernetes Security" "high"
      "Pods should not use the host network namespace"
      "Set hostNetwork to false";
    mkPolicy "K8S-SEC-005" "No Host PID" "Kubernetes Security" "high"
      "Pods should not share the host PID namespace"
      "Set hostPID to false";
    mkPolicy "K8S-IMG-001" "No Latest Tag" "Kubernetes Best Practices" "medium"
      "Images should use specific tags instead of 'latest'"
      "Use specific version tags for container images";
    mkPolicy "K8S-PROBE-001" "Liveness Probe" "Kubernetes Best Practices" "medium"
      "Containers should have liveness probes for automatic restart"
      "Add livenessProbe to container spec";
    mkPolicy "K8S-PROBE-002" "Readiness Probe" "Kubernetes Best Practices" "medium"
      "Containers should have readiness probes for traffic management"
      "Add readinessProbe to container spec";
    mkPolicy "K8S-RES-001" "CPU Limits" "Kubernetes Resources" "medium"
      "Containers should have CPU limits to prevent resource starvation"
      "Set resources.limits.cpu";
    mkPolicy "K8S-RES-002" "Memory Limits" "Kubernetes Resources" "high"
      "Containers should have memory limits to prevent OOM issues"
      "Set resources.limits.memory";
    mkPolicy "K8S-NET-001" "Network Policies" "Kubernetes Network" "medium"
      "Namespaces should have NetworkPolicies to restrict traffic"
      "Define NetworkPolicies for the namespace";
    mkPolicy "K8S-RBAC-001" "Cluster Admin Bindings" "Kubernetes RBAC" "high"
      "Avoid granting cluster-admin role to non-system users"
      "Use more restrictive roles";
    mkPolicy "DOCKER-SEC-001" "No Privileged Containers" "Docker Security" "critical"
      "Containers should not run in privileged mode"
      "Remove --privileged flag";
    mkPolicy "DOCKER-SEC-002" "Non-Root User" "Docker Security" "high"
      "Containers should run as non-root user"
      "Use USER directive in Dockerfile or --user flag";
    mkPolicy "DOCKER-SEC-003" "No Host Network" "Docker Security" "high"
      "Containers should not use host network"
      "Use bridge or custom network";
    mkPolicy "DOCKER-SEC-004" "No Host PID" "Docker Security" "high"
      "Containers should not share host PID namespace"
      "Remove --pid=host flag";
    mkPolicy "DOCKER-SEC-005" "No Dangerous Capabilities" "Docker Security" "high"
      "Containers should not have dangerous Linux capabilities"
      "Remove unnecessary --cap-add flags";
    mkPolicy "DOCKER-SEC-006" "Read-Only Root Filesystem" "Docker Security" "medium"
      "Container root filesystem should be read-only"
      "Use --read-only flag";
    mkPolicy "DOCKER-RES-001" "Memory Limits" "Docker Resources" "medium"
      "Containers should have memory limits"
      "Set --memory flag";
    mkPolicy "DOCKER-RES-002" "CPU Limits" "Docker Resources" "low"
      "Containers should have CPU limits"
      "Set --cpus or --cpu-quota flag";
    mkPolicy "DOCKER-CFG-001" "Restart Policy" "Docker Configuration" "low"
      "Containers should have a restart policy"
      "Set --restart=unless-stopped";
    mkPolicy "DOCKER-CFG-002" "Health Check" "Docker Configuration" "medium"
      "Containers should have health checks"
      "Add HEALTHCHECK in Dockerfile or --health-cmd";
    mkPolicy "DOCKER-IMG-001" "No Latest Tag" "Docker Images" "medium"
      "Images should use specific tags"
      "Use specific version tags";
    mkPolicy "DOCKER-IMG-002" "Image Size" "Docker Images" "low"
      "Images should not be excessively large"
      "Use multi-stage builds or smaller base images";
    mkPolicy "DOCKER-IMG-003" "Non-Root User in Image" "Docker Images" "medium"
      "Images should define a non-root user"
      "Add USER directive in Dockerfile";
    mkPolicy "FILE-K8S-001" "No Latest Tag in Manifests" "File Compliance" "medium"
      "Kubernetes manifests should use specific image tags"
      "Use specific version tags";
    mkPolicy "FILE-K8S-002" "Resource Limits in Manifests" "File Compliance" "medium"
      "Kubernetes manifests should define resource limits"
      "Add resources.limits";
    mkPolicy "FILE-K8S-003" "Security Context in Manifests" "File Compliance" "high"
      "Kubernetes manifests should define security context"
      "Add securityContext";
    mkPolicy "FILE-DOCKER-003" "USER in Dockerfile" "File Compliance" "high"
      "Dockerfiles should define a non-root USER"
      "Add USER directive";
    mkPolicy "FILE-DOCKER-004" "HEALTHCHECK in Dockerfile" "File Compliance" "medium"
      "Dockerfiles should define a HEALTHCHECK"
      "Add HEALTHCHECK directive";
    mkPolicy "FILE-COMPOSE-001" "No Privileged in Compose" "File Compliance" "critical"
      "Docker Compose services should not be privileged"
      "Remove privileged: true"
  ].

(** ** cmd/compliance: the check command and the policy listing *)

(** The providers one invocation of the command talks to. *)
Record Providers := mkProviders {
  kubeClient : result Clientset;
  dockerClient : result docker.Client;
  fileSystem : string -> result FsNode
}.

(** The flags of [compliance check]. *)
Record CheckFlags := mkCheckFlags {
  flagSkip : list string;
  flagOnly : list string;
  flagSeverity : string;
  flagNamespace : string;
  flagImage : string;
  flagPath : string;
  flagFailOnWarn : bool
}.

(** The four counters of the summary [displayResults] prints. *)
Record DisplayCounts := mkDisplayCounts {
  displayPassed : Z;
  displayFailed : Z;
  displayWarnings : Z;
  displaySkipped : Z
}.

Module checkcmd.

Section Checks.

Context {unicode : Unicode}.
Variable Join : string -> string -> string.
Variable Unmarshal : string -> result (list (string * any)).

Definition runK8sChecks (p : Providers) (opts : CheckOptions)
  : list CheckResult * option error :=
  K8sChecker.Run (kubeClient p) opts.

Definition runDockerChecks (p : Providers) (opts : CheckOptions)
  : option (list CheckResult * option error) :=
  DockerChecker.Run (dockerClient p) opts.

Definition runFileChecks (p : Providers) (opts : CheckOptions)
  : list CheckResult * option error :=
  FileChecker.Run Join Unmarshal (fileSystem p) opts.

(** The three checkers in turn, each error dropped.  [None] is the panic
    of the runtime checker. *)
Definition runAllChecks (p : Providers) (opts : CheckOptions)
  : option (list CheckResult * option error) :=
  let allResults := [] ++ (runK8sChecks p opts).1 in
  match runDockerChecks p opts with
  | None => None
  | Some dockerResults =>
      let allResults := allResults ++ dockerResults.1 in
      let allResults := allResults ++ (runFileChecks p opts).1 in
      Some (allResults, None)
  end.


(** One iteration of the exit-status loop of [runCheck], on the pair
    [(hasErrors, hasWarnings)]. *)
Definition exitFlagsStep (flags : bool * bool) (r : CheckResult) : bool * bool :=
  if String.eqb (Status r) StatusFailed then
    if String.eqb (Severity r) "critical" || String.eqb (Severity r) "high"
    then (true, flags.2)
    else (flags.1, true)
  else flags.

Definition exitFlags (results : list CheckResult) : bool * bool :=
  fold_left exitFlagsStep results (false, false).

(** The switch of [runCheck] on its first argument [arg]: the options
    are built from the flags, and the checker of the target is run.  [Err]
    is the error of an unknown target; [None] is a panic. *)
Definition runTarget (arg : string) (flags : CheckFlags) (p : Providers)
  : result (option (list CheckResult * option error)) :=
  let target := strings.ToLower arg in
  let opts :=
    mkCheckOptions "" "" "" (flagSkip flags) (flagOnly flags)
      (flagSeverity flags) in
  if String.eqb target "k8s" || String.eqb target "kubernetes" then
    Ok (Some (runK8sChecks p
                (mkCheckOptions (flagNamespace flags) (Image opts) (Path opts)
                   (SkipRules opts) (OnlyRules opts) (MinSeverity opts))))
  else if String.eqb target "docker" then
    Ok (runDockerChecks p
          (mkCheckOptions (Namespace opts) (flagImage flags) (Path opts)
             (SkipRules opts) (OnlyRules opts) (MinSeverity opts)))
  else if String.eqb target "files" || String.eqb target "file" then
    Ok (Some (runFileChecks p
                (mkCheckOptions (Namespace opts) (Image opts) (flagPath flags)
                   (SkipRules opts) (OnlyRules opts) (MinSeverity opts))))
  else if String.eqb target "all" then Ok (runAllChecks p opts)
  else Err (errorString ("unknown target: " ++ target)).

(** [runCheck] without its printing: the error it returns.  [None] is a
    panic. *)
Definition runCheck (arg : string) (flags : CheckFlags) (p : Providers)
  : option (option error) :=
  match runTarget arg flags p with
  | Err e => Some (Some e)
  | Ok None => None
  | Ok (Some (results, Some err)) => Some (Some err)
  | Ok (Some (results, None)) =>
      let '(hasErrors, hasWarnings) := exitFlags results in
      if hasErrors || (flagFailOnWarn flags && hasWarnings)
      then Some (Some (errorString "compliance check failed"))
      else Some None
  end.

End Checks.

(** One iteration of the counting loop of [displayResults]. *)
Definition displayCountsStep (c : DisplayCounts) (r : CheckResult)
  : DisplayCounts :=
  if String.eqb (Status r) StatusPassed then
    mkDisplayCounts (displayPassed c + 1) (displayFailed c)
      (displayWarnings c) (displaySkipped c)
  else if String.eqb (Status r) StatusFailed then
    if String.eqb (Severity r) "high" || String.eqb (Severity r) "critical" then
      mkDisplayCounts (displayPassed c) (displayFailed c + 1)
        (displayWarnings c) (displaySkipped c)
    else
      mkDisplayCounts (displayPassed c) (displayFailed c)
        (displayWarnings c + 1) (displaySkipped c)
  else if String.eqb (Status r) StatusSkipped then
    mkDisplayCounts (displayPassed c) (displayFailed c)
      (displayWarnings c) (displaySkipped c + 1)
  else c.

(** The counters of the summary of [displayResults], and the total it
    prints. *)
Definition displayCounts (results : list CheckResult) : DisplayCounts :=
  fold_left displayCountsStep results (mkDisplayCounts 0 0 0 0).

Definition displayTotal (results : list CheckResult) : Z :=
  let c := displayCounts results in
  (displayPassed c + displayFailed c + displayWarnings c + displaySkipped c)%Z.

(** [truncateString]: [None] is the panic of slicing with a negative
    bound. *)
Definition truncateString (s : string) (maxLen : Z) : option string :=
  if (Z.of_nat (String.length s) <=? maxLen)%Z then Some s
  else if (maxLen - 3 <? 0)%Z then None
  else Some (String.substring 0 (Z.to_nat (maxLen - 3)) s ++ "...")%string.

(** The filter loop of [runPolicies]. *)
Definition selectPolicies (category severity : string) (policies : list Policy)
  : list Policy :=
  if negb (String.eqb category "") || negb (String.eqb severity "") then
    fold_left
      (fun filtered p =>
         if negb (String.eqb category "")
            && negb (String.eqb (PolicyCategory p) category) then filtered
         else if negb (String.eqb severity "")
                 && negb (String.eqb (PolicySeverity p) severity) then filtered
         else filtered ++ [p])
      policies []
  else policies.

End checkcmd.

(** ** pkg/completion: the static completions *)

Module completion.

(** The loop shared by the completions over entries of the form
    [value TAB description]. *)
Definition completeEntries (entries : list string) (toComplete : string)
  : list string :=
  fold_left
    (fun completions entry =>
       let parts := strings.Split entry (ascii_of_nat 9) in
       if strings.HasPrefix (hd "" parts) toComplete
       then completions ++ [entry] else completions)
    entries [].

Definition tab : string := String (ascii_of_nat 9) EmptyString.

Definition ComplianceTargetCompletion (args : list string) (toComplete : string)
  : list string :=
  if (0 <? length args)%nat then []
  else
    completeEntries
      [("k8s" ++ tab ++ "Check Kubernetes resources")%string;
       ("docker" ++ tab ++ "Check Docker images and containers")%string;
       ("files" ++ tab ++ "Check configuration files")%string;
       ("all" ++ tab ++ "Run all available checks")%string]
      toComplete.

Definition SeverityCompletion (toComplete : string) : list string :=
  completeEntries
    [("low" ++ tab ++ "Minimum severity level")%string;
     ("medium" ++ tab ++ "Medium severity level")%string;
     ("high" ++ tab ++ "High severity level")%string;
     ("critical" ++ tab ++ "Critical severity level")%string]
    toComplete.

End completion.

(** ** pkg/docker: the wrapper of the Docker client *)

(** [io.EOF] and [io.ErrUnexpectedEOF]. *)
Definition EOF : error := errorString "EOF".
Definition ErrUnexpectedEOF : error := errorString "unexpected EOF".

Module dockerclient.

(** [strings.TrimPrefix]. *)
Definition TrimPrefix (s prefix : string) : string :=
  if strings.HasPrefix s prefix then
    String.substring (String.length prefix)
      (String.length s - String.length prefix) s
  else s.

Record PortMapping := mkPortMapping {
  IP : string;
  PrivatePort : Z;
  PublicPort : Z;
  PortType : string
}.

(** A container as the API lists it, and as [ListContainers] returns it. *)
Record APIContainer := mkAPIContainer {
  apiID : string;
  apiNames : list string;
  apiImage : string;
  apiCommand : string;
  apiCreated : Z;
  apiStatus : string;
  apiState : string;
  apiPorts : list PortMapping
}.

Record ContainerInfo := mkContainerInfo {
  ContainerID : string;
  ContainerName : string;
  ContainerImage : string;
  Command : string;
  Created : string;
  ContainerStatus : string;
  State : string;
  Health : string;
  Ports : list PortMapping;
  ContainerSize : string
}.

(** An image as the API lists it, and as [ListImages] returns it. *)
Record APIImage := mkAPIImage {
  apiImageID : string;
  apiRepoTags : list string;
  apiRepoDigests : list string;
  apiImageSize : Z;
  apiImageCreated : Z
}.

Record ImageInfo := mkImageInfo {
  ImageID : string;
  Repository : string;
  Tag : string;
  Digest : string;
  ImageCreated : string;
  CreatedAt : Z;
  ImageSize : Z;
  Dangling : bool
}.

Record LogOptions := mkLogOptions {
  Tail : Z;
  Follow : bool;
  Timestamps : bool;
  Since : string;
  Until : string;
  Level : string
}.

Record LogLine := mkLogLine {
  Timestamp : string;
  Stream : string;
  Content : string;
  LineLevel : string
}.

(** The health a container is listed with, read off its status text. *)
Definition healthOf (status : string) : string :=
  if negb (String.eqb status "") && strings.Contains status "(" then
    if strings.Contains status "healthy" then "healthy"
    else if strings.Contains status "unhealthy" then "unhealthy"
    else if strings.Contains status "starting" then "starting"
    else ""
  else "".

Section Listing.

(** [formatTime] of a Unix time reads the clock: it is left abstract. *)
Variable formatTime : Z -> string.

Definition containerInfo (cont : APIContainer) : ContainerInfo :=
  mkContainerInfo (apiID cont)
    (match apiNames cont with
     | name :: _ => TrimPrefix name "/"
     | [] => ""
     end)
    (apiImage cont) (apiCommand cont) (formatTime (apiCreated cont))
    (apiStatus cont) (apiState cont) (healthOf (apiStatus cont))
    (fold_left
       (fun ports port =>
          ports ++ [mkPortMapping (IP port) (PrivatePort port)
                      (PublicPort port) (PortType port)])
       (apiPorts cont) [])
    "".

(** [listed] is the answer of the API to the listing. *)
Definition ListContainers (listed : result (list APIContainer))
  : result (list ContainerInfo) :=
  match listed with
  | Err e => Err e
  | Ok containers =>
      Ok (fold_left (fun result cont => result ++ [containerInfo cont])
            containers [])
  end.

Definition imageInfo (img : APIImage) : ImageInfo :=
  let id := TrimPrefix (apiImageID img) "sha256:" in
  let created := formatTime (apiImageCreated img) in
  let dangling := (length (apiRepoTags img) =? 0)%nat in
  let '(repository, tag) :=
    match apiRepoTags img with
    | repoTag :: _ =>
        let parts := strings.Split repoTag ":" in
        (hd "" parts,
         if (1 <? length parts)%nat then nth 1 parts "" else "")
    | [] => ("<none>", "<none>")
    end in
  mkImageInfo id repository tag
    (match apiRepoDigests img with digest :: _ => digest | [] => "" end)
    created (apiImageCreated img) (apiImageSize img) dangling.

Definition ListImages (listed : result (list APIImage))
  : result (list ImageInfo) :=
  match listed with
  | Err e => Err e
  | Ok images =>
      Ok (fold_left (fun result img => result ++ [imageInfo img]) images [])
  end.

End Listing.

(** The index loop of [matchesLevel]: the positions of the filter and of
    the detected level in the list of levels, -1 when absent. *)
Definition levelIndexes (filter detected : string) (levels : list string)
  : Z * Z :=
  (fold_left
     (fun '(i, (filterIdx, detectedIdx)) l =>
        let filterIdx := if String.eqb l filter then i else filterIdx in
        let detectedIdx := if String.eqb l detected then i else detectedIdx in
        ((i + 1)%Z, (filterIdx, detectedIdx)))
     levels (0%Z, ((-1)%Z, (-1)%Z))).2.

Definition matchesLevel {unicode : Unicode} (detected filter : string) : bool :=
  let filter := strings.ToLower filter in
  let detected := strings.ToLower detected in
  if String.eqb filter detected then true
  else
    let '(filterIdx, detectedIdx) :=
      levelIndexes filter detected ["debug"; "info"; "warn"; "error"] in
    (filterIdx <=? detectedIdx)%Z.

(** The value of a byte. *)
Definition byte (c : ascii) : Z := Z.of_nat (nat_of_ascii c).

(** The payload size of a frame of the multiplexed log stream, from the
    bytes 4 to 7 of its header.  Go's [int] has 64 bits here, so the
    shifts lose nothing. *)
Definition frameSize (b4 b5 b6 b7 : ascii) : Z :=
  Z.lor (Z.lor (Z.lor (Z.shiftl (byte b4) 24) (Z.shiftl (byte b5) 16))
           (Z.shiftl (byte b6) 8))
    (byte b7).

(** [strings.SplitN(s, " ", 2)]: [s] cut at its first space. *)
Fixpoint splitFirstSpace (s : string) : list string :=
  match s with
  | EmptyString => [EmptyString]
  | String c rest =>
      if Ascii.eqb c " " then [EmptyString; rest]
      else
        match splitFirstSpace rest with
        | [only] => [String c only]
        | first :: others => String c first :: others
        | [] => [String c EmptyString]
        end
  end.

Section StreamLogs.

Context {unicode : Unicode}.

(** [MatchString] of the regular expression [pattern] on a text: the
    [regexp] package is not modelled. *)
Variable MatchString : string -> string -> bool.

(** The map of [detectLogLevel], from a level to its pattern. *)
Definition patterns : list (string * string) :=
  [("error", "\b(error|err|fatal|panic|exception)\b");
   ("warn", "\b(warn|warning)\b");
   ("info", "\b(info)\b");
   ("debug", "\b(debug|trace)\b")].

(** [detectLogLevel]: the first level, in the order [visit] in which the
    loop is given the entries of the map, whose pattern matches.  Go
    draws the order anew at every call, so a text that several patterns
    match is not given the same level every time. *)
Definition detectLogLevel (visit : list (string * string)) (content : string)
  : string :=
  let lower := strings.ToLower content in
  match List.find (fun entry => MatchString entry.2 lower) visit with
  | Some entry => entry.1
  | None => ""
  end.

(** What the loop of [StreamLogs] does with one frame: the line handed to
    the callback, if any.  [visit] is the order of the map at this call of
    [detectLogLevel]. *)
Definition frameLine (opts : LogOptions) (visit : list (string * string))
    (streamType : ascii) (content : string) : option LogLine :=
  let content := strings.TrimSpace content in
  let stream := if (byte streamType =? 1)%Z then "stdout" else "stderr" in
  let '(timestamp, content) :=
    if Timestamps opts && (30 <? String.length content)%nat then
      match splitFirstSpace content with
      | [first; second] => (first, second)
      | _ => ("", content)
      end
    else ("", content) in
  let level := detectLogLevel visit content in
  if negb (String.eqb (Level opts) "") && negb (matchesLevel level (Level opts))
  then None
  else Some (mkLogLine timestamp stream content level).

(** The loop of [StreamLogs] on the bytes [data] still to be read, at its
    turn number [turn]: the lines handed to the callback, in order, and
    the error returned.  [visits turn] is the order of the map at that
    turn.  Each turn reads at least the eight bytes of a header, so [fuel]
    turns suffice when [fuel] exceeds the length of [data]. *)
Fixpoint readFrames (fuel : nat) (opts : LogOptions)
    (visits : nat -> list (string * string)) (turn : nat) (data : string)
  : list LogLine * option error :=
  match fuel with
  | O => ([], None)
  | S fuel =>
      match data with
      | EmptyString => ([], None)
      | String streamType
          (String _ (String _ (String _
             (String b4 (String b5 (String b6 (String b7 rest))))))) =>
          let size := Z.to_nat (frameSize b4 b5 b6 b7) in
          if (String.length rest <? size)%nat then
            ([], Some (if (String.length rest =? 0)%nat then EOF
                       else ErrUnexpectedEOF))
          else
            let content := String.substring 0 size rest in
            let rest := String.substring size (String.length rest - size) rest in
            let '(lines, err) := readFrames fuel opts visits (S turn) rest in
            match frameLine opts (visits turn) streamType content with
            | Some line => (line :: lines, err)
            | None => (lines, err)
            end
      | _ => ([], Some ErrUnexpectedEOF)
      end
  end.

(** [logs] is the answer of the runtime: the bytes of the stream, or the
    error of opening it. *)
Definition StreamLogs (logs : result string) (opts : LogOptions)
    (visits : nat -> list (string * string)) : list LogLine * option error :=
  match logs with
  | Err e => ([], Some e)
  | Ok data => readFrames (S (String.length data)) opts visits 0 data
  end.

End StreamLogs.

End dockerclient.

(** * The vocabulary of the properties

    Tests, counts and renderings the statements below are written with,
    and the inputs of the examples. *)

(** ** The filter *)

(** The three controls are all empty: the test of the fast path. *)
Definition noControls (opts : CheckOptions) : bool :=
  (length (SkipRules opts) =? 0)%nat
  && (length (OnlyRules opts) =? 0)%nat
  && String.eqb (MinSeverity opts) "".

(** Scenario E: the same rule_id in both lists, once in the input. *)
Definition scenarioE_result : CheckResult :=
  mkCheckResult "K8S-SEC-002" "Run as Non-Root" "Kubernetes Security" "high"
    StatusFailed "default/web" "Container 'web' may run as root"
    "Set securityContext.runAsNonRoot to true".

Definition scenarioE_opts : CheckOptions :=
  mkCheckOptions "" "" "" ["K8S-SEC-002"] ["K8S-SEC-002"] "".

Definition warningSeverity_result : CheckResult :=
  mkCheckResult "X-001" "Custom" "Custom" "warning" StatusFailed "res" "msg" "".

Definition emptySeverity_result : CheckResult :=
  mkCheckResult "X-002" "Custom" "Custom" "" StatusFailed "res" "msg" "".

Definition minLow_opts : CheckOptions := mkCheckOptions "" "" "" [] [] "low".

(** ** The report *)

Definition isPassed (r : CheckResult) : bool := String.eqb (Status r) StatusPassed.
Definition isFailed (r : CheckResult) : bool := String.eqb (Status r) StatusFailed.
Definition isSkipped (r : CheckResult) : bool := String.eqb (Status r) StatusSkipped.

(** A status the summary loop has no case for. *)
Definition isUncounted (r : CheckResult) : bool :=
  negb (isPassed r) && negb (isFailed r) && negb (isSkipped r).

(** The number of results of a list that pass a test. *)
Definition countOf (p : CheckResult -> bool) (results : list CheckResult) : Z :=
  Z.of_nat (length (List.filter p results)).

(** The score the builder stores for given counts. *)
Definition scoreOf (total passed skipped : Z) : float :=
  if (0 <? total)%Z then (float64 passed / float64 (total - skipped) * 100)%float
  else 0%float.

(** ** The JUnit rendering *)

(** The pieces of a list of strings, one after the other. *)
Definition concatStrings (pieces : list string) : string :=
  fold_right String.append "" pieces.

Definition inCategory (category : string) (r : CheckResult) : bool :=
  String.eqb (Category r) category.

(** The underlying counts of a category: its results, and its failed
    results, in the result list of the report. *)
Definition categoryTests (category : string) (results : list CheckResult) : Z :=
  countOf (inCategory category) results.
Definition categoryFailures (category : string) (results : list CheckResult) : Z :=
  countOf (fun r => inCategory category r && isFailed r) results.

(** The XML text the properties speak of: a value between double quotes,
    the attributes of a start tag, the start tag, and the decimal numeral
    of an integer. *)
Definition quoted (value : string) : string :=
  String (ascii_of_nat 34) (value ++ String (ascii_of_nat 34) EmptyString).

Fixpoint attributes (attrs : list (string * string)) : string :=
  match attrs with
  | [] => EmptyString
  | (name, value) :: rest =>
      (" " ++ name ++ "=" ++ quoted value ++ attributes rest)%string
  end.

Definition startTag (name : string) (attrs : list (string * string)) : string :=
  ("<" ++ name ++ attributes attrs ++ ">")%string.

Definition decimal (n : Z) : string := NilZero.string_of_int (Z.to_int n).

Definition lineFeed : string := String (ascii_of_nat 10) EmptyString.

(** The head of a JUnit document whose [testsuites] element carries the
    given counts, and a [testsuite] element that carries the given counts
    around its test cases. *)
Definition junitHead (tests failures : Z) : string :=
  ("<?xml version=" ++ quoted "1.0" ++ " encoding=" ++ quoted "UTF-8" ++ "?>"
   ++ lineFeed
   ++ startTag "testsuites"
        [("name", "Compliance Checks"); ("tests", decimal tests);
         ("failures", decimal failures); ("time", "0")]
   ++ lineFeed)%string.

Definition junitSuite (category : string) (tests failures : Z) (cases : string)
  : string :=
  ("  "
   ++ startTag "testsuite"
        [("name", category); ("tests", decimal tests);
         ("failures", decimal failures)]
   ++ lineFeed ++ cases ++ "  </testsuite>" ++ lineFeed)%string.

(** The map is visited entry by entry, each entry once. *)
Definition visitsEachOnce
    (visit : gmap string (list CheckResult) -> list (string * list CheckResult))
    (byCategory : gmap string (list CheckResult)) : Prop :=
  Permutation (visit byCategory) (map_to_list byCategory).

(** The categories in the order the renderer visits them. *)
Definition categories
    (visit : gmap string (list CheckResult) -> list (string * list CheckResult))
    (results : list CheckResult) : list string :=
  List.map fst (visit (groupByCategory results)).

(** ** The cluster checker *)

(** The emission pattern of the per-container sub-checks: K8S-SEC-001 is
    emitted passed or failed, K8S-IMG-002 passed only, anything else
    failed only. *)
Definition emission (r : CheckResult) : bool :=
  if String.eqb (RuleID r) "K8S-SEC-001" then isPassed r || isFailed r
  else if String.eqb (RuleID r) "K8S-IMG-002" then isPassed r
  else isFailed r.

(** The results of the three sub-checks that loop over the containers of
    the pods (the first one also holds the two per-pod rules). *)
Definition perContainerResults (cs : Clientset) (opts : CheckOptions)
  : list CheckResult :=
  (K8sChecker.checkPodSecurity cs opts).1
  ++ (K8sChecker.checkContainers cs opts).1
  ++ (K8sChecker.checkResourceLimits cs opts).1.

(** C6 as stated: among the results of a per-container sub-check, only
    K8S-SEC-001 is ever passed. *)
Definition onlyPrivilegedRulePasses (results : list CheckResult) : Prop :=
  forall r, In r results -> Status r = StatusPassed -> RuleID r = "K8S-SEC-001".

(** A cluster of one pod with one container: pinned image, pull policy
    Always, both probes, no security context, no limits or requests. *)
Definition pullAlways_container : corev1.Container :=
  corev1.mkContainer "web" "nginx:1.25" corev1.PullAlways None
    (Some corev1.mkProbe) (Some corev1.mkProbe)
    (corev1.mkResourceRequirements ∅ ∅).

Definition pullAlways_cluster : Clientset :=
  mkClientset
    (fun _ => Ok [corev1.mkPod "default" "web-0"
                    (corev1.mkPodSpec [pullAlways_container] false false)])
    (Ok []) (fun _ => Ok []) (Ok []).

Definition noOptions : CheckOptions := mkCheckOptions "" "" "" [] [] "".

Definition pullAlways_result : CheckResult :=
  mkCheckResult "K8S-IMG-002" "Image Pull Policy" "Kubernetes Best Practices"
    "low" StatusPassed "default/web-0"
    "Container 'web' has ImagePullPolicy: Always" "".

(** ** The catalog, the runtime and the files *)

(** The catalog entries whose id is [id]. *)
Definition policyEntries (id : string) : list Policy :=
  List.filter (fun p => String.eqb (ID p) id) GetBuiltinPolicies.

(** An image that exposes port 80, and a runtime with no container. *)
Definition port80_runtime : docker.Client :=
  docker.mkClient (Ok [])
    (fun _ => Err "No such container")
    (fun _ => Ok (docker.mkImageInspect ["web:1.0"] (50 * 1024 * 1024)
                    (Some (docker.mkConfig "app" None [80%Z])))).

(** The same image in a runtime whose container list fails, and an image
    without a configuration in such a runtime. *)
Definition listless_runtime : docker.Client :=
  docker.mkClient (Err "Cannot connect to the Docker daemon")
    (fun _ => Err "No such container")
    (fun _ => Ok (docker.mkImageInspect ["web:1.0"] (50 * 1024 * 1024)
                    (Some (docker.mkConfig "app" None [80%Z])))).

Definition unconfigured_runtime : docker.Client :=
  docker.mkClient (Err "Cannot connect to the Docker daemon")
    (fun _ => Err "No such container")
    (fun _ => Ok (docker.mkImageInspect ["web:1.0"] (50 * 1024 * 1024) None)).

Definition port80_options : CheckOptions :=
  mkCheckOptions "" "web:1.0" "" [] [] "".

Definition port80_result : CheckResult :=
  mkCheckResult "DOCKER-IMG-004" "Privileged Ports" "Docker Images" "low"
    StatusFailed "web:1.0" "Image exposes privileged port: 80"
    "Use ports > 1024".

(** Case tables for the examples.  Their texts are ASCII, so the tables
    are never consulted: they leave every text as it is. *)
Definition noTables : Unicode := mkUnicode (fun s => s) (fun s => s).

(** A Pod manifest whose container pins its image and sets limits and a
    security context, but no liveness probe: its text, what the decoder
    makes of it, and a directory that holds it. *)
Definition noProbe_text : string :=
  "apiVersion: v1, kind: Pod, one container without livenessProbe".

Definition noProbe_manifest : list (string * any) :=
  [("apiVersion", Str "v1"); ("kind", Str "Pod");
   ("spec",
    Map [("containers",
          Slice [Map [("name", Str "app"); ("image", Str "app:1.0");
                      ("resources", Map [("limits", Map [("cpu", Str "1")])]);
                      ("securityContext", Map [("runAsNonRoot", Bool true)])]])])].

(** Scenario A: a manifest with image myapp:latest and no resources,
    security context or liveness probe. *)
Definition scenarioA_text : string :=
  "apiVersion: v1, kind: Pod, image: myapp:latest, nothing else set".

Definition scenarioA_manifest : list (string * any) :=
  [("apiVersion", Str "v1"); ("kind", Str "Pod");
   ("spec",
    Map [("containers",
          Slice [Map [("name", Str "myapp"); ("image", Str "myapp:latest")]])])].

(** Scenario D: a compose service, privileged, on the host network, image
    redis without a tag, no restart or deploy block. *)
Definition scenarioD_text : string :=
  "services: cache: privileged, network_mode host, image redis".

Definition scenarioD_compose : list (string * any) :=
  [("services",
    Map [("cache",
          Map [("privileged", Bool true); ("network_mode", Str "host");
               ("image", Str "redis")])])].

(** The decoder on the documents of the examples; any other text is
    malformed. *)
Definition decode (data : string) : result (list (string * any)) :=
  if String.eqb data noProbe_text then Ok noProbe_manifest
  else if String.eqb data scenarioA_text then Ok scenarioA_manifest
  else if String.eqb data scenarioD_text then Ok scenarioD_compose
  else Err "yaml: unmarshal error".

Definition noProbe_tree : string -> result FsNode :=
  fun _ => Ok (Dir (Ok [("pod.yaml", Ok (File (Ok noProbe_text)))])).

Definition noProbe_options : CheckOptions :=
  mkCheckOptions "" "" "manifests" [] [] "".

Definition noProbe_result : CheckResult :=
  mkCheckResult "FILE-K8S-004" "Liveness Probe" "File Compliance" "medium"
    StatusFailed "manifests/pod.yaml" "Container 'app' has no livenessProbe"
    "Add livenessProbe".

(** A runtime whose client can be built but that answers no call. *)
Definition unreachable_runtime : docker.Client :=
  docker.mkClient (Err "Cannot connect to the Docker daemon")
    (fun _ => Err "Cannot connect to the Docker daemon")
    (fun _ => Err "Cannot connect to the Docker daemon").

(** Scenario B: a build file with base image ubuntu:22.04, no USER and no
    HEALTHCHECK. *)
Definition scenarioB_text : string :=
  ("FROM ubuntu:22.04" ++ nl ++ "RUN apt-get update" ++ nl
   ++ "CMD [/bin/app]" ++ nl)%string.

Definition severitiesOf (results : list CheckResult)
  : list (string * string * CheckStatus) :=
  List.map (fun r => (RuleID r, Severity r, Status r)) results.

Definition scenarioC_result (severity : string) : CheckResult :=
  mkCheckResult "K8S-SEC-001" "No Privileged Containers" "Kubernetes Security"
    severity StatusFailed "default/web" "Container 'web' is running in privileged mode"
    "Set securityContext.privileged to false".

(** ** Induction on file-system trees *)

Section FsNodeInduction.

Variable P : FsNode -> Prop.

(** [P] holds of every entry of a listing that [Lstat] could reach. *)
Definition allEntries (names : list (string * result FsNode)) : Prop :=
  List.Forall
    (fun entry => match entry.2 with Ok n => P n | Err _ => True end) names.

Hypothesis P_File : forall content, P (File content).
Hypothesis P_Dir_unreadable : forall e, P (Dir (Err e)).
Hypothesis P_Dir : forall names, allEntries names -> P (Dir (Ok names)).

(** Induction on a file-system tree, through the listing of a
    directory. *)
Fixpoint FsNode_tree_ind (n : FsNode) : P n :=
  match n with
  | File content => P_File content
  | Dir (Err e) => P_Dir_unreadable e
  | Dir (Ok names) =>
      P_Dir names
        ((fix entries (l : list (string * result FsNode)) : allEntries l :=
            match l with
            | [] => @List.Forall_nil _ _
            | (name, lstat) :: rest =>
                @List.Forall_cons _ _ (name, lstat) rest
                  (match lstat
                     return match lstat with Ok n => P n | Err _ => True end
                   with
                   | Ok child => FsNode_tree_ind child
                   | Err _ => I
                   end)
                  (entries rest)
            end) names)
  end.

End FsNodeInduction.

(** * Further vocabulary *)

(** The number of results of a list that carry the rule [id]. *)
Definition countRule (id : string) (results : list CheckResult) : nat :=
  length (List.filter (fun r => String.eqb (RuleID r) id) results).

(** The four levels of the severity table. *)
Definition recognizedSeverities : list string :=
  ["low"; "medium"; "high"; "critical"].

(** Options that set a minimum severity in capitals, and nothing else. *)
Definition capitalHigh_opts : CheckOptions :=
  mkCheckOptions "" "" "" [] [] "HIGH".

(** All the containers of a list of pods, each with its pod, in the
    order of the listing. *)
Definition containersOf (pods : list corev1.Pod)
  : list (corev1.Pod * corev1.Container) :=
  flat_map
    (fun pod => List.map (pair pod) (corev1.Containers (corev1.Spec pod)))
    pods.

(** What the privileged-container rule says of a container of a pod:
    failed when the security context of the container sets privileged
    to true, passed otherwise. *)
Definition privilegedResult (pc : corev1.Pod * corev1.Container) : CheckResult :=
  let resource :=
    (corev1.PodNamespace pc.1 ++ "/" ++ corev1.PodName pc.1)%string in
  match corev1.ContainerSecurityContext pc.2 with
  | Some (corev1.mkSecurityContext (Some true) _ _) =>
      mkCheckResult "K8S-SEC-001" "No Privileged Containers"
        "Kubernetes Security" "critical" StatusFailed resource
        ("Container '" ++ corev1.ContainerName pc.2
           ++ "' is running in privileged mode")
        "Set securityContext.privileged to false"
  | _ =>
      mkCheckResult "K8S-SEC-001" "No Privileged Containers"
        "Kubernetes Security" "critical" StatusPassed resource
        ("Container '" ++ corev1.ContainerName pc.2 ++ "' is not privileged")
        ""
  end.

Definition hasRule (id : string) (r : CheckResult) : bool :=
  String.eqb (RuleID r) id.

(** A listed namespace the network policy check gives a result for: its
    name does not start with [kube-], it is the namespace asked for when
    one is, and its policies can be listed. *)
Definition checkedNamespace (cs : Clientset) (opts : CheckOptions)
    (ns : corev1.NamespaceObj) : bool :=
  negb (strings.HasPrefix (corev1.NamespaceName ns) "kube-")
  && (String.eqb (Namespace opts) ""
      || String.eqb (corev1.NamespaceName ns) (Namespace opts))
  && match ListNetworkPolicies cs (corev1.NamespaceName ns) with
     | Ok _ => true
     | Err _ => false
     end.

(** A cluster role binding the RBAC check flags: it grants cluster-admin
    and its name does not start with [system:]. *)
Definition flaggedBinding (binding : corev1.ClusterRoleBinding) : bool :=
  String.eqb (corev1.RoleRefName binding) "cluster-admin"
  && negb (strings.HasPrefix (corev1.BindingName binding) "system:").

(** A cluster with two role bindings to cluster-admin, one of the system. *)
Definition admin_cluster : Clientset :=
  mkClientset (fun _ => Ok [])
    (Ok [corev1.mkNamespace "kube-system"; corev1.mkNamespace "default";
         corev1.mkNamespace "shop"])
    (fun ns => if String.eqb ns "shop" then Ok [corev1.mkNetworkPolicy]
               else if String.eqb ns "default" then Ok []
               else Err "forbidden")
    (Ok [corev1.mkClusterRoleBinding "system:masters" "cluster-admin";
         corev1.mkClusterRoleBinding "ops-team" "cluster-admin";
         corev1.mkClusterRoleBinding "viewers" "view"]).

(** A runtime that lists one container, named, and one that lists a
    container without a name. *)
Definition named_runtime : docker.Client :=
  docker.mkClient (Ok [docker.mkContainerSummary "c1" ["/web"]])
    (fun _ =>
       Ok (docker.mkContainerJSON
             (Some (docker.mkHostConfig false "" "bridge" "" [] 0 0 0
                      (docker.mkRestartPolicy "") false))
             (Some (docker.mkConfig "" None []))))
    (fun _ => Err "No such image").

Definition unnamed_runtime : docker.Client :=
  docker.mkClient (Ok [docker.mkContainerSummary "c1" []])
    (fun _ => Err "No such container") (fun _ => Err "No such image").

(** A runtime whose container is inspected without a host
    configuration. *)
Definition hostless_runtime : docker.Client :=
  docker.mkClient (Ok [docker.mkContainerSummary "c1" ["/web"]])
    (fun _ =>
       Ok (docker.mkContainerJSON None (Some (docker.mkConfig "" None []))))
    (fun _ => Err "No such image").

(** A listed container at which the container loop panics: it has no
    name, or its inspection gives a nil host configuration or a nil
    configuration. *)
Definition panicsAt (cli : docker.Client) (cont : docker.ContainerSummary)
  : Prop :=
  docker.Names cont = []
  \/ exists inspect,
       docker.ContainerInspect cli (docker.ContainerID cont) = Ok inspect
       /\ (docker.HostConfigOf inspect = None
           \/ docker.ConfigOf inspect = None).

(** What the network policy check says of one result: it is a
    K8S-NET-001 result on a listed namespace outside the system ones,
    the one asked for when one is, whose policies could be listed; it is
    failed exactly when there is none. *)
Definition networkResultOk (cs : Clientset) (opts : CheckOptions)
    (namespaces : list corev1.NamespaceObj) (r : CheckResult) : Prop :=
  RuleID r = "K8S-NET-001"
  /\ In (Resource r) (List.map corev1.NamespaceName namespaces)
  /\ strings.HasPrefix (Resource r) "kube-" = false
  /\ (Namespace opts = "" \/ Resource r = Namespace opts)
  /\ exists policies,
       ListNetworkPolicies cs (Resource r) = Ok policies
       /\ (policies = [] -> Status r = StatusFailed)
       /\ (policies <> [] -> Status r = StatusPassed).

(** The result literals of the three checkers: rule id, rule name,
    category, severity, status and remediation of every [CheckResult]
    the source builds; resource and message are filled in per resource. *)
Definition ruleTemplates : list CheckResult :=
  [
    mkCheckResult "K8S-SEC-001" "No Privileged Containers"
      "Kubernetes Security" "critical" StatusFailed "" ""
      "Set securityContext.privileged to false";
    mkCheckResult "K8S-SEC-001" "No Privileged Containers"
      "Kubernetes Security" "critical" StatusPassed "" ""
      "";
    mkCheckResult "K8S-SEC-002" "Run as Non-Root"
      "Kubernetes Security" "high" StatusFailed "" ""
      "Set securityContext.runAsNonRoot to true";
    mkCheckResult "K8S-SEC-003" "Read-Only Root Filesystem"
      "Kubernetes Security" "medium" StatusFailed "" ""
      "Set securityContext.readOnlyRootFilesystem to true";
    mkCheckResult "K8S-SEC-004" "No Host Network"
      "Kubernetes Security" "high" StatusFailed "" ""
      "Set hostNetwork to false";
    mkCheckResult "K8S-SEC-005" "No Host PID"
      "Kubernetes Security" "high" StatusFailed "" ""
      "Set hostPID to false";
    mkCheckResult "K8S-IMG-001" "No Latest Tag"
      "Kubernetes Best Practices" "medium" StatusFailed "" ""
      "Use specific image tags";
    mkCheckResult "K8S-IMG-002" "Image Pull Policy"
      "Kubernetes Best Practices" "low" StatusPassed "" ""
      "";
    mkCheckResult "K8S-PROBE-001" "Liveness Probe"
      "Kubernetes Best Practices" "medium" StatusFailed "" ""
      "Add a livenessProbe to the container";
    mkCheckResult "K8S-PROBE-002" "Readiness Probe"
      "Kubernetes Best Practices" "medium" StatusFailed "" ""
      "Add a readinessProbe to the container";
    mkCheckResult "K8S-RES-001" "CPU Limits"
      "Kubernetes Resources" "medium" StatusFailed "" ""
      "Set resources.limits.cpu";
    mkCheckResult "K8S-RES-002" "Memory Limits"
      "Kubernetes Resources" "high" StatusFailed "" ""
      "Set resources.limits.memory";
    mkCheckResult "K8S-RES-003" "CPU Requests"
      "Kubernetes Resources" "low" StatusFailed "" ""
      "Set resources.requests.cpu";
    mkCheckResult "K8S-RES-004" "Memory Requests"
      "Kubernetes Resources" "low" StatusFailed "" ""
      "Set resources.requests.memory";
    mkCheckResult "K8S-NET-001" "Network Policies"
      "Kubernetes Network" "medium" StatusFailed "" ""
      "Define NetworkPolicies to restrict pod traffic";
    mkCheckResult "K8S-NET-001" "Network Policies"
      "Kubernetes Network" "medium" StatusPassed "" ""
      "";
    mkCheckResult "K8S-RBAC-001" "Cluster Admin Bindings"
      "Kubernetes RBAC" "high" StatusFailed "" ""
      "Use more restrictive roles";
    mkCheckResult "DOCKER-SEC-001" "No Privileged Containers"
      "Docker Security" "critical" StatusFailed "" ""
      "Remove --privileged flag";
    mkCheckResult "DOCKER-SEC-001" "No Privileged Containers"
      "Docker Security" "critical" StatusPassed "" ""
      "";
    mkCheckResult "DOCKER-SEC-002" "Non-Root User"
      "Docker Security" "high" StatusFailed "" ""
      "Use USER directive in Dockerfile or --user flag";
    mkCheckResult "DOCKER-SEC-003" "No Host Network"
      "Docker Security" "high" StatusFailed "" ""
      "Use bridge or custom network";
    mkCheckResult "DOCKER-SEC-004" "No Host PID"
      "Docker Security" "high" StatusFailed "" ""
      "Remove --pid=host flag";
    mkCheckResult "DOCKER-SEC-005" "No Dangerous Capabilities"
      "Docker Security" "high" StatusFailed "" ""
      "Remove unnecessary capabilities";
    mkCheckResult "DOCKER-RES-001" "Memory Limits"
      "Docker Resources" "medium" StatusFailed "" ""
      "Set --memory flag";
    mkCheckResult "DOCKER-RES-002" "CPU Limits"
      "Docker Resources" "low" StatusFailed "" ""
      "Set --cpus or --cpu-quota flag";
    mkCheckResult "DOCKER-CFG-001" "Restart Policy"
      "Docker Configuration" "low" StatusFailed "" ""
      "Set --restart=unless-stopped or similar";
    mkCheckResult "DOCKER-CFG-002" "Health Check"
      "Docker Configuration" "medium" StatusFailed "" ""
      "Add HEALTHCHECK in Dockerfile or --health-cmd flag";
    mkCheckResult "DOCKER-SEC-006" "Read-Only Root Filesystem"
      "Docker Security" "medium" StatusFailed "" ""
      "Use --read-only flag";
    mkCheckResult "DOCKER-IMG-001" "No Latest Tag"
      "Docker Images" "medium" StatusFailed "" ""
      "Use specific version tags";
    mkCheckResult "DOCKER-IMG-002" "Image Size"
      "Docker Images" "low" StatusFailed "" ""
      "Use multi-stage builds or smaller base images";
    mkCheckResult "DOCKER-IMG-003" "Non-Root User in Image"
      "Docker Images" "medium" StatusFailed "" ""
      "Add USER directive in Dockerfile";
    mkCheckResult "DOCKER-IMG-004" "Privileged Ports"
      "Docker Images" "low" StatusFailed "" ""
      "Use ports > 1024";
    mkCheckResult "FILE-K8S-001" "No Latest Tag"
      "File Compliance" "medium" StatusFailed "" ""
      "Use specific image tags";
    mkCheckResult "FILE-K8S-002" "Resource Limits"
      "File Compliance" "medium" StatusFailed "" ""
      "Add resources.limits";
    mkCheckResult "FILE-K8S-003" "Security Context"
      "File Compliance" "high" StatusFailed "" ""
      "Add securityContext with runAsNonRoot: true";
    mkCheckResult "FILE-K8S-004" "Liveness Probe"
      "File Compliance" "medium" StatusFailed "" ""
      "Add livenessProbe";
    mkCheckResult "FILE-DOCKER-001" "Use COPY Instead of ADD"
      "File Compliance" "low" StatusFailed "" ""
      "Replace ADD with COPY for local files";
    mkCheckResult "FILE-DOCKER-002" "Clean Up Downloads"
      "File Compliance" "low" StatusFailed "" ""
      "Combine download and cleanup in single RUN command";
    mkCheckResult "FILE-DOCKER-003" "USER Directive"
      "File Compliance" "high" StatusFailed "" ""
      "Add USER directive to run as non-root";
    mkCheckResult "FILE-DOCKER-004" "HEALTHCHECK Directive"
      "File Compliance" "medium" StatusFailed "" ""
      "Add HEALTHCHECK directive";
    mkCheckResult "FILE-DOCKER-005" "Specific Base Image Tag"
      "File Compliance" "medium" StatusFailed "" ""
      "Use specific version tag for base image";
    mkCheckResult "FILE-COMPOSE-001" "No Privileged Services"
      "File Compliance" "critical" StatusFailed "" ""
      "Remove privileged: true";
    mkCheckResult "FILE-COMPOSE-002" "No Host Network"
      "File Compliance" "high" StatusFailed "" ""
      "Use bridge network";
    mkCheckResult "FILE-COMPOSE-003" "Restart Policy"
      "File Compliance" "low" StatusFailed "" ""
      "Add restart: unless-stopped";
    mkCheckResult "FILE-COMPOSE-004" "Specific Image Tag"
      "File Compliance" "medium" StatusFailed "" ""
      "Use specific image tag"
  ].

(** [r] was built from the literal [t]: all fields but resource and
    message agree. *)
Definition sameTemplate (r t : CheckResult) : bool :=
  String.eqb (RuleID r) (RuleID t) && String.eqb (RuleName r) (RuleName t)
  && String.eqb (Category r) (Category t) && String.eqb (Severity r) (Severity t)
  && String.eqb (Status r) (Status t)
  && String.eqb (Remediation r) (Remediation t).

Definition fromTemplate (r : CheckResult) : bool :=
  existsb (sameTemplate r) ruleTemplates.

(** [r] is a result one of the three checkers returns from some run. *)
Inductive emitted (r : CheckResult) : Prop :=
| emitted_cluster (client : result Clientset) (opts : CheckOptions) :
    In r (K8sChecker.Run client opts).1 -> emitted r
| emitted_runtime (client : result docker.Client) (opts : CheckOptions)
    (results : list CheckResult) (err : option error) :
    DockerChecker.Run client opts = Some (results, err) ->
    In r results -> emitted r
| emitted_files (unicode : Unicode) (Join : string -> string -> string)
    (Unmarshal : string -> result (list (string * any)))
    (Lstat : string -> result FsNode) (opts : CheckOptions) :
    In r (FileChecker.Run Join Unmarshal Lstat opts).1 -> emitted r.

(** A cluster of one pod with a privileged and an unprivileged container,
    and the two results of the privileged-container rule on it. *)
Definition mixed_cluster : Clientset :=
  mkClientset
    (fun _ =>
       Ok [corev1.mkPod "default" "job-0"
             (corev1.mkPodSpec
                [corev1.mkContainer "root" "tool:1" ""
                   (Some (corev1.mkSecurityContext (Some true) None None))
                   None None (corev1.mkResourceRequirements ∅ ∅);
                 pullAlways_container] false false)])
    (Ok []) (fun _ => Ok []) (Ok []).

Definition privileged_failed_result : CheckResult :=
  mkCheckResult "K8S-SEC-001" "No Privileged Containers" "Kubernetes Security"
    "critical" StatusFailed "default/job-0"
    "Container 'root' is running in privileged mode"
    "Set securityContext.privileged to false".

Definition privileged_passed_result : CheckResult :=
  mkCheckResult "K8S-SEC-001" "No Privileged Containers" "Kubernetes Security"
    "critical" StatusPassed "default/job-0"
    "Container 'web' is not privileged" "".

(** The catalog entry of a rule agrees with a result literal: same
    severity and category, and same name unless the rule is a FILE- rule. *)
Definition agreesWithCatalog (t : CheckResult) : bool :=
  forallb
    (fun p =>
       if String.eqb (ID p) (RuleID t) then
         String.eqb (PolicySeverity p) (Severity t)
         && String.eqb (PolicyCategory p) (Category t)
         && (strings.HasPrefix (RuleID t) "FILE-"
             || String.eqb (Name p) (RuleName t))
       else true)
    GetBuiltinPolicies.

(** Two result literals of the same rule carry the same name, category
    and severity. *)
Definition sameRuleSameMeta (t1 t2 : CheckResult) : bool :=
  if String.eqb (RuleID t1) (RuleID t2) then
    String.eqb (RuleName t1) (RuleName t2)
    && String.eqb (Category t1) (Category t2)
    && String.eqb (Severity t1) (Severity t2)
  else true.

(** A result literal is passed with no remediation, or failed with one. *)
Definition passedXorRemediation (t : CheckResult) : bool :=
  (String.eqb (Status t) StatusPassed && String.eqb (Remediation t) "")
  || (String.eqb (Status t) StatusFailed
      && negb (String.eqb (Remediation t) "")).

(** The catalog entry of the privileged-container rule. *)
Definition privileged_policy : Policy :=
  mkPolicy "K8S-SEC-001" "No Privileged Containers" "Kubernetes Security"
    "critical"
    "Containers should not run in privileged mode as it grants full host access"
    "Set securityContext.privileged to false".

(** The results of the groups, group after group, in the order the
    renderer visits the categories. *)
Definition groupedResults (results : list CheckResult) : list CheckResult :=
  concat (List.map snd (map_to_list (groupByCategory results))).

Definition sumZ (l : list Z) : Z := fold_right Z.add 0%Z l.

(** ** The check command *)

(** The options [opts] with the three controls of the filter replaced. *)
Definition withControls (skip only : list string) (severity : string)
    (opts : CheckOptions) : CheckOptions :=
  mkCheckOptions (Namespace opts) (Image opts) (Path opts) skip only severity.

(** A failed result of severity critical or high, and a failed result of
    any other severity. *)
Definition failedHigh (r : CheckResult) : bool :=
  isFailed r
  && (String.eqb (Severity r) "critical" || String.eqb (Severity r) "high").

Definition failedOther (r : CheckResult) : bool :=
  isFailed r
  && negb (String.eqb (Severity r) "critical" || String.eqb (Severity r) "high").

(** Providers for the examples: the cluster and the runtime of the
    examples above, and a file system with one manifest in the directory
    [manifests] and, as on Unix, nothing at the empty path. *)
Definition manifests_tree (path : string) : result FsNode :=
  if String.eqb path "manifests"
  then Ok (Dir (Ok [("pod.yaml", Ok (File (Ok noProbe_text)))]))
  else Err "lstat : no such file or directory".

Definition sample_providers : Providers :=
  mkProviders (Ok mixed_cluster) (Ok named_runtime) manifests_tree.

Definition skipPrivileged_opts : CheckOptions :=
  mkCheckOptions "" "" "" ["K8S-SEC-001"] [] "".

(** The value of a completion entry of the form [value TAB description]. *)
Definition completionValue (entry : string) : string :=
  hd "" (strings.Split entry (ascii_of_nat 9)).

(** The test of the filter loop of the policy listing. *)
Definition policySelected (category severity : string) (p : Policy) : bool :=
  (String.eqb category "" || String.eqb (PolicyCategory p) category)
  && (String.eqb severity "" || String.eqb (PolicySeverity p) severity).

(** The targets the check command offers for completion. *)
Definition offeredTargets : list string := ["k8s"; "docker"; "files"; "all"].

(** ** The wrapper of the Docker client *)

(** A container the runtime reports as unhealthy. *)
Definition unhealthy_container : dockerclient.APIContainer :=
  dockerclient.mkAPIContainer "c1" ["/web"] "web:1" "serve" 0
    "Up 2 hours (unhealthy)" "running" [].

(** A clock for the examples. *)
Definition epochText (t : Z) : string := "1970-01-01 00:00".

(** The number of bytes [c] in a text. *)
Fixpoint countByte (c : ascii) (s : string) : nat :=
  match s with
  | EmptyString => 0
  | String a s' => (if Ascii.eqb a c then 1 else 0) + countByte c s'
  end.

(** The pieces of a text put together again around the separator. *)
Fixpoint joinWith (sep : ascii) (pieces : list string) : string :=
  match pieces with
  | [] => EmptyString
  | [piece] => piece
  | piece :: rest => (piece ++ String sep (joinWith sep rest))%string
  end.

(** An image pulled from a registry that is named with its port. *)
Definition registryPort_image : dockerclient.APIImage :=
  dockerclient.mkAPIImage "sha256:0a1b" ["localhost:5000/app:1.0"] [] 1024 0.

(** The levels the log filter ranks, lowest first, and the rank of a
    level among them: -1 for any other text. *)
Definition logLevels : list string := ["debug"; "info"; "warn"; "error"].

Definition levelRank (level : string) : Z :=
  if String.eqb "error" level then 3
  else if String.eqb "warn" level then 2
  else if String.eqb "info" level then 1
  else if String.eqb "debug" level then 0
  else (-1).

(** The frames of the multiplexed log stream: a header of eight bytes,
    the stream type, three zero bytes and the payload size in four bytes,
    highest first, then the payload. *)
Definition byteOf (n : Z) : ascii := ascii_of_nat (Z.to_nat (n mod 256)).

Definition frameHeader (streamType : ascii) (size : Z) : string :=
  String streamType
    (String (byteOf 0) (String (byteOf 0) (String (byteOf 0)
       (String (byteOf (size / 2 ^ 24)) (String (byteOf (size / 2 ^ 16))
          (String (byteOf (size / 2 ^ 8)) (String (byteOf size) EmptyString))))))).

Definition frame (f : ascii * string) : string :=
  (frameHeader f.1 (Z.of_nat (String.length f.2)) ++ f.2)%string.

Definition multiplexed (frames : list (ascii * string)) : string :=
  concatStrings (List.map frame frames).

(** The lines the loop of [StreamLogs] makes of whole frames, the first
    of them read at the turn [turn]. *)
Fixpoint frameLines {unicode : Unicode} (MatchString : string -> string -> bool)
    (opts : dockerclient.LogOptions) (visits : nat -> list (string * string))
    (turn : nat) (frames : list (ascii * string))
  : list dockerclient.LogLine :=
  match frames with
  | [] => []
  | f :: rest =>
      match dockerclient.frameLine MatchString opts (visits turn) f.1 f.2 with
      | Some line => [line]
      | None => []
      end ++ frameLines MatchString opts visits (S turn) rest
  end.

(** Options that ask for every line; a matcher for the examples, which
    finds the pattern of warn in a text that holds [warn]; and the map
    visited in the order it is written. *)
Definition allLines : dockerclient.LogOptions :=
  dockerclient.mkLogOptions 100 false false "" "" "".

Definition warnMatch (pattern text : string) : bool :=
  String.eqb pattern "\b(warn|warning)\b" && strings.Contains text "warn".

Definition asWritten (turn : nat) : list (string * string) :=
  dockerclient.patterns.

Definition stdout_frame : ascii * string := (ascii_of_nat 1, "ready" ++ nl)%string.
Definition stderr_frame : ascii * string := (ascii_of_nat 2, "warn: disk")%string.

(** A frame whose payload is set between no-break spaces (U+00A0). *)
Definition padded_frame : ascii * string :=
  (ascii_of_nat 1,
   String (ascii_of_nat 194) (String (ascii_of_nat 160) "done")
   ++ String (ascii_of_nat 194) (String (ascii_of_nat 160) EmptyString))%string.

(** ** The build files *)

(** A line that starts with the directive, whatever its case and its
    indentation. *)
Definition directiveLine {unicode : Unicode} (directive line : string) : bool :=
  strings.HasPrefix (strings.ToUpper (strings.TrimSpace line)) directive.

(** A build file that sets the user to root. *)
Definition userRoot_text : string :=
  ("FROM ubuntu:22.04" ++ nl ++ "user root" ++ nl)%string.

(** * Properties *)

(** ** Loops that append under a condition *)

Section Loops.

Context {A : Type}.

(** A [for ... range] loop that appends the elements passing a test
    computes a filter of its input, after what was already collected. *)
Lemma fold_left_keep (keep : A -> bool) (l acc : list A) :
  fold_left (fun acc x => if keep x then acc ++ [x] else acc) l acc
  = acc ++ List.filter keep l.
Proof.
  revert acc. induction l as [|x l IH]; intros acc; simpl.
  - now rewrite app_nil_r.
  - rewrite IH. destruct (keep x); [|reflexivity].
    now rewrite <- app_assoc.
Qed.

Lemma filter_idem (keep : A -> bool) (l : list A) :
  List.filter keep (List.filter keep l) = List.filter keep l.
Proof.
  induction l as [|x l IH]; simpl; [reflexivity|].
  destruct (keep x) eqn:Hx; simpl; [|exact IH].
  rewrite Hx, IH. reflexivity.
Qed.

Lemma filter_filter (f g : A -> bool) (l : list A) :
  List.filter f (List.filter g l) = List.filter (fun x => g x && f x) l.
Proof.
  induction l as [|x l IH]; simpl; [reflexivity|].
  destruct (g x); simpl; [|exact IH].
  destruct (f x); rewrite IH; reflexivity.
Qed.

(** An invariant of every element survives a loop whose body keeps it. *)
Lemma fold_left_Forall {B : Type} (P : A -> Prop) (body : list A -> B -> list A)
    (l : list B) (acc : list A) :
  (forall acc x, List.Forall P acc -> List.Forall P (body acc x)) ->
  List.Forall P acc -> List.Forall P (fold_left body l acc).
Proof.
  intros Hbody. revert acc.
  induction l as [|x l IH]; intros acc Hacc; simpl; auto.
Qed.

End Loops.

(** ** The result filter *)

Lemma ruleListed_In (id : string) (rules : list string) :
  ruleListed id rules = true <-> In id rules.
Proof.
  induction rules as [|rule rest IH]; simpl.
  - split; [discriminate | tauto].
  - destruct (String.eqb id rule) eqn:E.
    + apply String.eqb_eq in E. split; auto.
    + apply String.eqb_neq in E. rewrite IH. split; [tauto|].
      intros [H|H]; [congruence | exact H].
Qed.

Lemma filterResults_filter (opts : CheckOptions) (results : list CheckResult) :
  filterResults opts results
  = if noControls opts then results else List.filter (keepResult opts) results.
Proof.
  unfold filterResults, noControls.
  destruct (_ && _ && _); [reflexivity|].
  apply (fold_left_keep (keepResult opts) results []).
Qed.

Lemma keepResult_noControls (opts : CheckOptions) (r : CheckResult) :
  noControls opts = true -> keepResult opts r = true.
Proof.
  unfold noControls, keepResult. intros H.
  apply andb_prop in H as [H Hmin]. apply andb_prop in H as [Hskip Honly].
  apply Nat.eqb_eq in Hskip, Honly.
  destruct (SkipRules opts); [|discriminate].
  destruct (OnlyRules opts); [|discriminate].
  simpl. now rewrite Hmin.
Qed.

(** Whatever the fast path, the output is the input filtered by the body
    of the loop. *)
Lemma filterResults_keep (opts : CheckOptions) (results : list CheckResult) :
  filterResults opts results = List.filter (keepResult opts) results.
Proof.
  rewrite filterResults_filter.
  destruct (noControls opts) eqn:E; [|reflexivity].
  symmetry. apply forallb_filter_id, forallb_forall.
  intros r _. now apply keepResult_noControls.
Qed.

Lemma levels_unrecognized (severity : string) :
  ~ In severity ["low"; "medium"; "high"; "critical"] ->
  levels !! severity = None.
Proof.
  intros H. unfold levels.
  rewrite !lookup_insert_ne, lookup_singleton_ne;
    [reflexivity | | | |]; intros <-; apply H; simpl; tauto.
Qed.

Lemma levels_recognized (severity : string) :
  In severity ["low"; "medium"; "high"; "critical"] ->
  (1 <= default 0 (levels !! severity))%Z.
Proof.
  simpl. intros [<-|[<-|[<-|[<-|[]]]]]; vm_compute; discriminate.
Qed.

(** C4: a result whose rule_id is in both the skip-list and the only-list
    is dropped by the filter, whatever the input list and the other
    options: the skip test comes first and the only-list cannot bring the
    result back. *)
Theorem filterResults_skip_wins
    (opts : CheckOptions) (results : list CheckResult) (r : CheckResult) :
  In (RuleID r) (SkipRules opts) ->
  In (RuleID r) (OnlyRules opts) ->
  ~ In r (filterResults opts results).
Proof.
  intros Hskip _ Hin.
  rewrite filterResults_keep in Hin. apply filter_In in Hin as [_ Hkeep].
  unfold keepResult in Hkeep.
  apply ruleListed_In in Hskip. rewrite Hskip in Hkeep. discriminate.
Qed.

Lemma filterResults_skip_wins_witness :
  In (RuleID scenarioE_result) (SkipRules scenarioE_opts)
  /\ In (RuleID scenarioE_result) (OnlyRules scenarioE_opts)
  /\ ~ In scenarioE_result (filterResults scenarioE_opts [scenarioE_result]).
Proof.
  split; [simpl; auto|]. split; [simpl; auto|].
  apply (filterResults_skip_wins scenarioE_opts [scenarioE_result] scenarioE_result);
    simpl; auto.
Defined.

Example scenarioE_excluded :
  filterResults scenarioE_opts [scenarioE_result] = [].
Proof. reflexivity. Qed.

(** C8: the filter is idempotent for every result list and every
    combination of skip-list, only-list and minimum severity. *)
Theorem filterResults_idempotent
    (opts : CheckOptions) (results : list CheckResult) :
  filterResults opts (filterResults opts results) = filterResults opts results.
Proof.
  rewrite !filterResults_keep. apply filter_idem.
Qed.

(** C10: with the minimum severity set to one of the four recognized
    levels, a result whose severity is none of them ranks below low and is
    dropped. *)
Theorem filterResults_unrecognized_severity_dropped
    (opts : CheckOptions) (results : list CheckResult) (r : CheckResult) :
  In (MinSeverity opts) ["low"; "medium"; "high"; "critical"] ->
  ~ In (Severity r) ["low"; "medium"; "high"; "critical"] ->
  meetsMinSeverity (Severity r) (MinSeverity opts) = false
  /\ ~ In r (filterResults opts results).
Proof.
  intros Hmin Hsev.
  assert (Hrank : meetsMinSeverity (Severity r) (MinSeverity opts) = false).
  { unfold meetsMinSeverity. rewrite (levels_unrecognized _ Hsev). simpl.
    apply Z.leb_gt. pose proof (levels_recognized _ Hmin). lia. }
  split; [exact Hrank|]. intros Hin.
  rewrite filterResults_keep in Hin. apply filter_In in Hin as [_ Hkeep].
  unfold keepResult in Hkeep. rewrite Hrank in Hkeep.
  assert (Hne : String.eqb (MinSeverity opts) "" = false).
  { apply String.eqb_neq. intros E. rewrite E in Hmin.
    simpl in Hmin. intuition discriminate. }
  rewrite Hne in Hkeep. simpl in Hkeep.
  destruct (ruleListed _ (SkipRules opts)); [discriminate|].
  destruct (_ && _); discriminate.
Qed.

Lemma filterResults_unrecognized_severity_dropped_witness :
  meetsMinSeverity (Severity warningSeverity_result) (MinSeverity minLow_opts) = false
  /\ ~ In warningSeverity_result
       (filterResults minLow_opts [warningSeverity_result; emptySeverity_result]).
Proof.
  apply (filterResults_unrecognized_severity_dropped minLow_opts
           [warningSeverity_result; emptySeverity_result] warningSeverity_result).
  - simpl; auto.
  - simpl. intuition discriminate.
Defined.

Example unrecognized_severities_dropped :
  filterResults minLow_opts [warningSeverity_result; emptySeverity_result] = [].
Proof. vm_compute. reflexivity. Qed.

(** ** The report builder *)

Lemma countOf_cons (p : CheckResult -> bool) (r : CheckResult)
    (results : list CheckResult) :
  countOf p (r :: results)
  = ((if p r then 1 else 0) + countOf p results)%Z.
Proof.
  unfold countOf. simpl. destruct (p r); simpl length; lia.
Qed.

Lemma dropPassed_filter (results : list CheckResult) :
  dropPassed results = List.filter (fun r => negb (isPassed r)) results.
Proof.
  unfold dropPassed.
  apply (fold_left_keep (fun r => negb (isPassed r)) results []).
Qed.

(** The three statuses are distinct strings, so at most one case of the
    switch applies. *)
Lemma status_cases (r : CheckResult) :
  (isPassed r = true /\ isFailed r = false /\ isSkipped r = false)
  \/ (isPassed r = false /\ isFailed r = true /\ isSkipped r = false)
  \/ (isPassed r = false /\ isFailed r = false /\ isSkipped r = true)
  \/ (isPassed r = false /\ isFailed r = false /\ isSkipped r = false).
Proof.
  unfold isPassed, isFailed, isSkipped.
  destruct (String.eqb (Status r) StatusPassed) eqn:Ep.
  { apply String.eqb_eq in Ep. rewrite Ep. left. auto. }
  destruct (String.eqb (Status r) StatusFailed) eqn:Ef.
  { apply String.eqb_eq in Ef. rewrite Ef. right. left. auto. }
  destruct (String.eqb (Status r) StatusSkipped); tauto.
Qed.

Lemma countStatus_loop (results : list CheckResult) (s : ReportSummary) :
  let s' := fold_left countStatus results s in
  Total s' = Total s
  /\ Passed s' = (Passed s + countOf isPassed results)%Z
  /\ Failed s' = (Failed s + countOf isFailed results)%Z
  /\ Skipped s' = (Skipped s + countOf isSkipped results)%Z
  /\ Score s' = Score s.
Proof.
  revert s. induction results as [|r results IH]; intros s; simpl.
  - unfold countOf; simpl. repeat split; lia.
  - specialize (IH (countStatus s r)). simpl in IH.
    destruct IH as (Ht & Hp & Hf & Hs & Hsc).
    rewrite Ht, Hp, Hf, Hs, Hsc, !countOf_cons.
    unfold countStatus.
    destruct (status_cases r) as [(Ep & Ef & Es)|[(Ep & Ef & Es)|[(Ep & Ef & Es)|(Ep & Ef & Es)]]];
      unfold isPassed, isFailed, isSkipped in *; rewrite Ep, Ef, Es; simpl;
      repeat split; lia.
Qed.

Lemma status_partition (results : list CheckResult) :
  (countOf isPassed results + countOf isFailed results
   + countOf isSkipped results + countOf isUncounted results)%Z
  = Z.of_nat (length results).
Proof.
  induction results as [|r results IH]; [reflexivity|].
  rewrite !countOf_cons. simpl length. rewrite Nat2Z.inj_succ.
  destruct (status_cases r) as [(Ep & Ef & Es)|[(Ep & Ef & Es)|[(Ep & Ef & Es)|(Ep & Ef & Es)]]];
    unfold isUncounted at 1; rewrite Ep, Ef, Es; cbn [negb andb]; lia.
Qed.

Lemma computeSummary_fields (results : list CheckResult) :
  computeSummary results
  = mkReportSummary (Z.of_nat (length results))
      (countOf isPassed results) (countOf isFailed results)
      (countOf isSkipped results)
      (scoreOf (Z.of_nat (length results)) (countOf isPassed results)
         (countOf isSkipped results)).
Proof.
  unfold computeSummary, scoreOf.
  destruct (countStatus_loop results zeroSummary) as (_ & Hp & Hf & Hs & Hsc).
  simpl in Hp, Hf, Hs, Hsc. cbv zeta. simpl Total. simpl Passed. simpl Failed.
  simpl Skipped. simpl Score. rewrite Hp, Hf, Hs, Hsc.
  destruct (0 <? Z.of_nat (length results))%Z; reflexivity.
Qed.


(** An empty result list scores 0: the guard [Total > 0] skips the
    division. *)
Lemma score_empty : Score (computeSummary []) = 0%float.
Proof. reflexivity. Qed.

(** The guard tests [Total > 0], not the denominator: a non-empty list
    of skipped results would pass it and divide 0 by 0.  No checker
    builds a skipped result, so the report command never meets such a
    list (see the section on the report of the report command). *)
Lemma score_all_skipped (results : list CheckResult) :
  results <> [] ->
  List.Forall (fun r => Status r = StatusSkipped) results ->
  let s := computeSummary results in
  (Total s - Skipped s = 0)%Z /\ PrimFloat.is_nan (Score s) = true.
Proof.
  intros Hne Hall. rewrite computeSummary_fields. simpl.
  assert (Hs : countOf isSkipped results = Z.of_nat (length results)
               /\ countOf isPassed results = 0%Z).
  { clear Hne. induction Hall as [|r results Hr _ IH]; [split; reflexivity|].
    destruct IH as [IHs IHp]. rewrite !countOf_cons, IHs, IHp.
    unfold isSkipped, isPassed. rewrite Hr. simpl length. simpl; lia. }
  destruct Hs as [Hs Hp]. unfold scoreOf. rewrite Hs, Hp, Z.sub_diag.
  split; [reflexivity|].
  destruct (0 <? Z.of_nat (length results))%Z eqn:E; [reflexivity|].
  apply Z.ltb_ge in E. destruct results; [congruence | simpl in E; lia].
Qed.

(** On any result list, total is the length of the list, and passed +
    failed + skipped is total less the number of results whose status is
    none of passed, failed, skipped. *)
Lemma summary_counts_any_list
    (title : string) (now : Z) (includePassed : bool)
    (results : list CheckResult) :
  let report := buildReport title now includePassed results in
  let s := Summary report in
  Total s = Z.of_nat (length (Results report))
  /\ (Passed s + Failed s + Skipped s)%Z
     = (Total s - countOf isUncounted (Results report))%Z.
Proof.
  unfold buildReport. cbv zeta. simpl Summary. simpl Results.
  set (rs := if negb includePassed then dropPassed results else results).
  rewrite computeSummary_fields. simpl. split; [reflexivity|].
  pose proof (status_partition rs). lia.
Qed.

(** In particular the three counters add up to total when every status is
    one of the three the switch knows. *)
Corollary summary_counts_three_statuses
    (title : string) (now : Z) (includePassed : bool)
    (results : list CheckResult) :
  List.Forall (fun r => isUncounted r = false) results ->
  let s := Summary (buildReport title now includePassed results) in
  (Passed s + Failed s + Skipped s)%Z = Total s.
Proof.
  intros Hall. unfold buildReport. cbv zeta. simpl Summary.
  set (rs := if negb includePassed then dropPassed results else results).
  assert (Hrs : List.Forall (fun r => isUncounted r = false) rs).
  { subst rs. destruct includePassed; simpl; [exact Hall|].
    rewrite dropPassed_filter. apply List.Forall_forall. intros r Hr.
    apply filter_In in Hr as [Hr _].
    exact (proj1 (List.Forall_forall _ _) Hall r Hr). }
  assert (Hz : countOf isUncounted rs = 0%Z).
  { induction Hrs as [|r l Hr _ IH]; [reflexivity|].
    rewrite countOf_cons, Hr, IH. reflexivity. }
  rewrite computeSummary_fields. simpl.
  pose proof (status_partition rs). lia.
Qed.

(** ** The JUnit renderer *)

Lemma string_app_assoc (s1 s2 s3 : string) :
  ((s1 ++ s2) ++ s3 = s1 ++ (s2 ++ s3))%string.
Proof.
  induction s1 as [|c s1 IH]; [reflexivity|].
  change (String c ((s1 ++ s2) ++ s3) = String c (s1 ++ (s2 ++ s3)))%string.
  f_equal. exact IH.
Qed.

Lemma string_app_empty_r (s : string) : (s ++ "" = s)%string.
Proof.
  induction s as [|c s IH]; [reflexivity|].
  change (String c (s ++ "") = String c s)%string.
  f_equal. exact IH.
Qed.

Lemma append_String (c : ascii) (s t : string) :
  (String c s ++ t = String c (s ++ t))%string.
Proof. reflexivity. Qed.

Lemma append_empty (t : string) : ("" ++ t = t)%string.
Proof. reflexivity. Qed.

(** Both sides are the same text, written with other brackets. *)
Ltac same_text :=
  repeat rewrite ?string_app_assoc, ?append_String, ?append_empty;
  reflexivity.

(** A loop that appends one piece per element writes the pieces in order
    after what was already written. *)
Lemma fold_left_write {A : Type} (piece : A -> string) (l : list A) (xml : string) :
  fold_left (fun xml x => (xml ++ piece x)%string) l xml
  = (xml ++ concatStrings (List.map piece l))%string.
Proof.
  revert xml. induction l as [|x l IH]; intros xml.
  - cbn. now rewrite string_app_empty_r.
  - cbn [fold_left List.map]. rewrite IH.
    unfold concatStrings. cbn [fold_right]. apply string_app_assoc.
Qed.

Lemma group_loop_lookup (results : list CheckResult)
    (byCategory : gmap string (list CheckResult)) (category : string) :
  fold_left
    (fun byCategory r =>
       <[Category r := default [] (byCategory !! Category r) ++ [r]]> byCategory)
    results byCategory !! category
  = match List.filter (inCategory category) results with
    | [] => byCategory !! category
    | rs => Some (default [] (byCategory !! category) ++ rs)
    end.
Proof.
  revert byCategory.
  induction results as [|r results IH]; intros byCategory; [reflexivity|].
  cbn [fold_left List.filter]. rewrite IH. unfold inCategory at 2.
  destruct (String.eqb (Category r) category) eqn:E.
  - apply String.eqb_eq in E. subst category.
    rewrite lookup_insert_eq. cbn [default].
    destruct (List.filter (inCategory (Category r)) results);
      [reflexivity | unfold id; now rewrite <- app_assoc].
  - apply String.eqb_neq in E. now rewrite lookup_insert_ne.
Qed.

Lemma groupByCategory_lookup (results : list CheckResult) (category : string) :
  groupByCategory results !! category
  = match List.filter (inCategory category) results with
    | [] => None
    | rs => Some rs
    end.
Proof.
  unfold groupByCategory. rewrite group_loop_lookup, lookup_empty.
  destruct (List.filter (inCategory category) results); reflexivity.
Qed.

Lemma groupByCategory_entry (results : list CheckResult)
    (category : string) (rs : list CheckResult) :
  In (category, rs) (map_to_list (groupByCategory results)) ->
  rs = List.filter (inCategory category) results /\ rs <> [].
Proof.
  intros Hin. apply list_elem_of_In, elem_of_map_to_list in Hin.
  rewrite groupByCategory_lookup in Hin.
  destruct (List.filter (inCategory category) results); [discriminate|].
  injection Hin as <-. split; [reflexivity | discriminate].
Qed.

Lemma countFailures_countOf (results : list CheckResult) :
  countFailures results = countOf isFailed results.
Proof.
  unfold countFailures.
  assert (H : forall l acc,
             fold_left
               (fun failures r =>
                  if String.eqb (Status r) StatusFailed then (failures + 1)%Z
                  else failures) l acc
             = (acc + countOf isFailed l)%Z).
  { induction l as [|r l IH]; intros acc; simpl.
    - unfold countOf; simpl; lia.
    - rewrite IH, countOf_cons. unfold isFailed at 2.
      destruct (String.eqb (Status r) StatusFailed); lia. }
  rewrite H. lia.
Qed.

(** What the renderer writes for a suite and at the head of the
    document, read as XML. *)
Lemma testsuite_written (category : string) (rs : list CheckResult) :
  testsuite category rs
  = junitSuite category (Z.of_nat (length rs)) (countFailures rs) (testcases rs).
Proof.
  unfold testsuite, testsuiteOpen, junitSuite, startTag, attributes, quoted,
    decimal, itoa, dq, nl, lineFeed.
  same_text.
Qed.

Lemma testsuitesOpen_written (tests failures : Z) :
  testsuitesOpen tests failures = junitHead tests failures.
Proof.
  unfold testsuitesOpen, junitHead, startTag, attributes, quoted, decimal, itoa,
    dq, nl, lineFeed.
  same_text.
Qed.

Lemma testsuite_junitSuite (results : list CheckResult)
    (category : string) (rs : list CheckResult) :
  In (category, rs) (map_to_list (groupByCategory results)) ->
  testsuite category rs
  = junitSuite category (categoryTests category results)
      (categoryFailures category results)
      (testcases (List.filter (inCategory category) results)).
Proof.
  intros Hin. apply groupByCategory_entry in Hin as [-> _].
  rewrite testsuite_written. unfold categoryTests, categoryFailures.
  rewrite countFailures_countOf. unfold countOf.
  rewrite filter_filter. reflexivity.
Qed.

Section Visit.

Variable visit
  : gmap string (list CheckResult) -> list (string * list CheckResult).
Variable results : list CheckResult.
Hypothesis visit_once : visitsEachOnce visit (groupByCategory results).

Lemma visit_In (entry : string * list CheckResult) :
  In entry (visit (groupByCategory results))
  <-> In entry (map_to_list (groupByCategory results)).
Proof.
  split; intros Hin; apply list_elem_of_In; apply list_elem_of_In in Hin.
  - now rewrite <- visit_once.
  - now rewrite visit_once.
Qed.

Lemma categories_NoDup : List.NoDup (categories visit results).
Proof.
  apply NoDup_ListNoDup. unfold categories.
  change (List.map fst (visit (groupByCategory results)))
    with (fst <$> visit (groupByCategory results)).
  rewrite visit_once.
  exact (NoDup_fst_map_to_list (groupByCategory results)).
Qed.

Lemma categories_In (category : string) :
  In category (categories visit results)
  <-> exists r, In r results /\ Category r = category.
Proof.
  unfold categories. rewrite in_map_iff. split.
  - intros ([c rs] & <- & Hin). simpl. apply visit_In in Hin.
    apply groupByCategory_entry in Hin as [-> Hne].
    destruct (List.filter (inCategory c) results) as [|r rs] eqn:E; [congruence|].
    assert (Hr : In r (List.filter (inCategory c) results))
      by (rewrite E; left; reflexivity).
    apply filter_In in Hr as [Hr Hc]. exists r. split; [exact Hr|].
    now apply String.eqb_eq.
  - intros (r & Hr & <-).
    assert (Hf : In r (List.filter (inCategory (Category r)) results)).
    { apply filter_In. split; [exact Hr | apply String.eqb_refl]. }
    destruct (List.filter (inCategory (Category r)) results) as [|r' rs] eqn:E;
      [destruct Hf|].
    exists (Category r, r' :: rs). split; [reflexivity|].
    apply visit_In. apply list_elem_of_In, elem_of_map_to_list.
    now rewrite groupByCategory_lookup, E.
Qed.

End Visit.

(** C5: the JUnit rendering of any report starts with the XML declaration
    and the start tag of testsuites, whose tests attribute is
    summary.total and whose failures attribute is summary.failed, written
    in decimal.  Then comes one testsuite element for each category of the
    results, each category once, in the order the map of categories is
    visited; its tests and failures attributes are the number of results,
    and of failed results, of that category. *)
Theorem generateJUnitReport_counts
    (visit : gmap string (list CheckResult) -> list (string * list CheckResult))
    (report : Report) :
  visitsEachOnce visit (groupByCategory (Results report)) ->
  generateJUnitReport visit report
  = (junitHead (Total (Summary report)) (Failed (Summary report))
     ++ concatStrings
          (List.map
             (fun category =>
                junitSuite category
                  (categoryTests category (Results report))
                  (categoryFailures category (Results report))
                  (testcases
                     (List.filter (inCategory category) (Results report))))
             (categories visit (Results report)))
     ++ "</testsuites>")%string
  /\ List.NoDup (categories visit (Results report))
  /\ (forall category,
        In category (categories visit (Results report))
        <-> exists r, In r (Results report) /\ Category r = category).
Proof.
  intros Honce.
  split; [|split; [now apply categories_NoDup | now apply categories_In]].
  unfold generateJUnitReport. cbv zeta.
  rewrite (fold_left_write (fun kv => testsuite kv.1 kv.2)).
  rewrite string_app_assoc, testsuitesOpen_written. do 2 f_equal.
  unfold categories. rewrite List.map_map. f_equal.
  apply List.map_ext_in. intros [category rs] Hin. simpl.
  apply testsuite_junitSuite. now apply (visit_In visit).
Qed.

Lemma generateJUnitReport_counts_witness :
  let report :=
    buildReport "Compliance Report" 0 true
      [privileged_failed_result; pullAlways_result] in
  visitsEachOnce map_to_list (groupByCategory (Results report))
  /\ generateJUnitReport map_to_list report
     = (junitHead 2 1
        ++ concatStrings
             (List.map
                (fun category =>
                   junitSuite category
                     (categoryTests category (Results report))
                     (categoryFailures category (Results report))
                     (testcases
                        (List.filter (inCategory category) (Results report))))
                (categories map_to_list (Results report)))
        ++ "</testsuites>")%string.
Proof.
  split; [unfold visitsEachOnce; reflexivity|].
  apply (generateJUnitReport_counts map_to_list
           (buildReport "Compliance Report" 0 true
              [privileged_failed_result; pullAlways_result])).
  unfold visitsEachOnce. reflexivity.
Defined.

(** For a report the builder made, the two top-level attributes are the
    length of the result list and the number of its failed results. *)
Corollary generateJUnitReport_built
    (title : string) (now : Z) (includePassed : bool)
    (results : list CheckResult) :
  let report := buildReport title now includePassed results in
  Total (Summary report) = Z.of_nat (length (Results report))
  /\ Failed (Summary report) = countOf isFailed (Results report).
Proof.
  unfold buildReport. cbv zeta. simpl Summary. simpl Results.
  rewrite computeSummary_fields. split; reflexivity.
Qed.

(** ** What the cluster checker emits per container *)

Lemma Forall_snoc {A : Type} (P : A -> Prop) (l : list A) (x : A) :
  List.Forall P l -> P x -> List.Forall P (l ++ [x]).
Proof.
  intros Hl Hx. apply List.Forall_app. split; [exact Hl|]. now constructor.
Qed.

Lemma Forall_appendIf (P : CheckResult -> Prop) (cond : bool) (r : CheckResult)
    (results : list CheckResult) :
  List.Forall P results -> P r -> List.Forall P (appendIf cond r results).
Proof.
  intros Hl Hr. unfold appendIf. destruct cond; [|exact Hl].
  now apply Forall_snoc.
Qed.

(** Closes the goals left by a loop body that only appends literal
    results, for an invariant that is decided by computation. *)
Ltac preserve :=
  repeat first
    [ assumption | reflexivity | apply Forall_appendIf | apply Forall_snoc ].

Lemma perContainerResults_emission (cs : Clientset) (opts : CheckOptions) :
  List.Forall (fun r => emission r = true) (perContainerResults cs opts).
Proof.
  unfold perContainerResults.
  unfold K8sChecker.checkPodSecurity, K8sChecker.checkContainers,
    K8sChecker.checkResourceLimits.
  destruct (ListPods cs (Namespace opts)) as [pods|e]; simpl; [|constructor].
  rewrite !List.Forall_app. repeat split.
  - apply fold_left_Forall; [|constructor]. intros acc pod Hacc.
    unfold K8sChecker.podSecurityPod. cbv zeta.
    do 2 (apply Forall_appendIf; [|reflexivity]).
    apply fold_left_Forall; [|exact Hacc]. clear. intros acc container Hacc.
    unfold K8sChecker.podSecurityContainer. cbv zeta.
    destruct (K8sChecker.privileged container); preserve.
  - apply fold_left_Forall; [|constructor]. intros acc pod Hacc.
    unfold K8sChecker.containersPod. cbv zeta.
    apply fold_left_Forall; [|exact Hacc]. clear. intros acc container Hacc.
    unfold K8sChecker.containersContainer. cbv zeta. preserve.
  - apply fold_left_Forall; [|constructor]. intros acc pod Hacc.
    unfold K8sChecker.resourceLimitsPod. cbv zeta.
    apply fold_left_Forall; [|exact Hacc]. clear. intros acc container Hacc.
    unfold K8sChecker.resourceLimitsContainer. cbv zeta. preserve.
Qed.

Example checkContainers_pullAlways :
  K8sChecker.checkContainers pullAlways_cluster noOptions
  = ([pullAlways_result], None).
Proof. vm_compute. reflexivity. Qed.

(** C6, as stated, fails: the image-pull-policy rule K8S-IMG-002 of
    checkContainers emits a passed result for a container whose pull
    policy is Always. *)
Lemma per_container_passed_counterexample :
  ~ onlyPrivilegedRulePasses
      (K8sChecker.checkContainers pullAlways_cluster noOptions).1.
Proof.
  rewrite checkContainers_pullAlways. intros H.
  specialize (H pullAlways_result (or_introl eq_refl) eq_refl).
  discriminate H.
Qed.

(** C6 (amended): every result of the per-container sub-checks is either
    a K8S-SEC-001 result, passed or failed, or a K8S-IMG-002 result, which
    is passed, or a result of another rule, which is failed. *)
Theorem per_container_emission
    (cs : Clientset) (opts : CheckOptions) (r : CheckResult) :
  In r (perContainerResults cs opts) ->
  (RuleID r = "K8S-SEC-001"
   /\ (Status r = StatusPassed \/ Status r = StatusFailed))
  \/ (RuleID r = "K8S-IMG-002" /\ Status r = StatusPassed)
  \/ (RuleID r <> "K8S-SEC-001" /\ RuleID r <> "K8S-IMG-002"
      /\ Status r = StatusFailed).
Proof.
  intros Hin.
  pose proof (proj1 (List.Forall_forall _ _)
                (perContainerResults_emission cs opts) r Hin) as He.
  unfold emission, isPassed, isFailed in He.
  destruct (String.eqb (RuleID r) "K8S-SEC-001") eqn:E1.
  { left. apply String.eqb_eq in E1. split; [exact E1|].
    apply orb_prop in He as [He|He]; apply String.eqb_eq in He; auto. }
  destruct (String.eqb (RuleID r) "K8S-IMG-002") eqn:E2.
  { right. left. apply String.eqb_eq in E2, He. auto. }
  right. right. apply String.eqb_neq in E1, E2. apply String.eqb_eq in He. auto.
Qed.

Lemma per_container_emission_witness :
  In pullAlways_result (perContainerResults pullAlways_cluster noOptions)
  /\ ((RuleID pullAlways_result = "K8S-SEC-001"
       /\ (Status pullAlways_result = StatusPassed
           \/ Status pullAlways_result = StatusFailed))
      \/ (RuleID pullAlways_result = "K8S-IMG-002"
          /\ Status pullAlways_result = StatusPassed)
      \/ (RuleID pullAlways_result <> "K8S-SEC-001"
          /\ RuleID pullAlways_result <> "K8S-IMG-002"
          /\ Status pullAlways_result = StatusFailed)).
Proof.
  assert (Hin : In pullAlways_result
                  (perContainerResults pullAlways_cluster noOptions)).
  { vm_compute. tauto. }
  split; [exact Hin|].
  exact (per_container_emission pullAlways_cluster noOptions
           pullAlways_result Hin).
Defined.

(** K8S-SEC-001 does emit both: a failed result for a privileged
    container, a passed one otherwise. *)
Example privileged_rule_emits_both :
  let sc := corev1.mkSecurityContext (Some true) None None in
  let privileged :=
    corev1.mkContainer "root" "tool:1" "" (Some sc) None None
      (corev1.mkResourceRequirements ∅ ∅) in
  List.map (fun r => (RuleID r, Status r))
    (fold_left (K8sChecker.podSecurityContainer "default/p")
       [privileged; pullAlways_container] [])
  = [("K8S-SEC-001", StatusFailed); ("K8S-SEC-002", StatusFailed);
     ("K8S-SEC-003", StatusFailed);
     ("K8S-SEC-001", StatusPassed); ("K8S-SEC-002", StatusFailed);
     ("K8S-SEC-003", StatusFailed)].
Proof. vm_compute. reflexivity. Qed.

(** ** The policy catalog against what the checkers emit *)

(** No id is listed twice in the catalog. *)
Lemma GetBuiltinPolicies_ids_distinct :
  List.NoDup (List.map ID GetBuiltinPolicies).
Proof.
  apply NoDup_ListNoDup. apply (bool_decide_unpack _). vm_compute. exact I.
Qed.

(** C2: each of the three checkers emits a rule_id that has no entry in
    the catalog of GetBuiltinPolicies: K8S-IMG-002 from the cluster
    checker, DOCKER-IMG-004 from the runtime checker, FILE-K8S-004 from
    the file checker. *)
Theorem emitted_rule_ids_missing_from_catalog :
  (In pullAlways_result (K8sChecker.Run (Ok pullAlways_cluster) noOptions).1
   /\ policyEntries (RuleID pullAlways_result) = [])
  /\ (DockerChecker.Run (Ok port80_runtime) port80_options
      = Some ([port80_result], None)
      /\ policyEntries (RuleID port80_result) = [])
  /\ (FileChecker.Run (unicode := noTables) filepath.Join decode noProbe_tree
        noProbe_options
      = ([noProbe_result], None)
      /\ policyEntries (RuleID noProbe_result) = []).
Proof.
  repeat split; try (vm_compute; reflexivity).
  vm_compute. tauto.
Qed.

(** The other emitted ids without an entry, each on the literal result
    the checker appends. *)
Example further_ids_missing_from_catalog :
  List.map (fun id => length (policyEntries id))
    ["K8S-RES-003"; "K8S-RES-004"; "FILE-DOCKER-001"; "FILE-DOCKER-002";
     "FILE-DOCKER-005"; "FILE-COMPOSE-002"; "FILE-COMPOSE-003";
     "FILE-COMPOSE-004"]
  = [0; 0; 0; 0; 0; 0; 0; 0]%nat.
Proof. vm_compute. reflexivity. Qed.

(** ** Errors of the runtime checker *)

(** C7, as stated, fails: with the container list unobtainable, Run still
    returns a nil error. *)
Lemma DockerChecker_Run_unreachable_counterexample :
  docker.ContainerList unreachable_runtime
  = Err "Cannot connect to the Docker daemon"
  /\ DockerChecker.Run (Ok unreachable_runtime) noOptions = Some ([], None)
  /\ ~ (exists e, DockerChecker.Run (Ok unreachable_runtime) noOptions
                  = Some ([], Some e)).
Proof.
  split; [reflexivity|]. split; [reflexivity|].
  intros [e H]. vm_compute in H. discriminate H.
Qed.

(** C7 (amended): Run returns an error, and no results, when the client
    cannot be built.  Once it is built, a failure to obtain the container
    list is swallowed: Run returns the nil error and no container result.
    It then returns no result at all when no image is named or the named
    image cannot be inspected, the image results alone when the
    inspection gives an image with a configuration, and panics when the
    inspection gives an image without one. *)
Theorem DockerChecker_Run_errors
    (cli : docker.Client) (opts : CheckOptions) (e : error) :
  docker.ContainerList cli = Err e ->
  (forall e', DockerChecker.Run (Err e') opts = Some ([], Some e'))
  /\ (Image opts = "" -> DockerChecker.Run (Ok cli) opts = Some ([], None))
  /\ (forall e',
        docker.ImageInspectWithRaw cli (Image opts) = Err e' ->
        DockerChecker.Run (Ok cli) opts = Some ([], None))
  /\ (forall inspect,
        Image opts <> "" ->
        docker.ImageInspectWithRaw cli (Image opts) = Ok inspect ->
        DockerChecker.Run (Ok cli) opts
        = match docker.ImageConfig inspect with
          | None => None
          | Some cfg =>
              Some ((DockerChecker.imageRules (Image opts) inspect cfg).1, None)
          end).
Proof.
  intros Hlist. split; [reflexivity|].
  unfold DockerChecker.Run, DockerChecker.checkContainerSecurity,
    DockerChecker.checkImage.
  rewrite Hlist. unfold merge at 1. cbn [fst snd].
  split; [|split].
  - intros ->. reflexivity.
  - intros e' ->. destruct (negb (String.eqb (Image opts) "")); reflexivity.
  - intros inspect Hnamed ->. apply String.eqb_neq in Hnamed. rewrite Hnamed.
    cbn [negb]. destruct (docker.ImageConfig inspect) as [cfg|]; [|reflexivity].
    unfold DockerChecker.imageRules, merge. cbn [fst snd]. reflexivity.
Qed.

Lemma DockerChecker_Run_errors_witness :
  docker.ContainerList unreachable_runtime
  = Err "Cannot connect to the Docker daemon"
  /\ DockerChecker.Run (Ok unreachable_runtime) noOptions = Some ([], None).
Proof.
  split; [reflexivity|].
  apply (DockerChecker_Run_errors unreachable_runtime noOptions
           "Cannot connect to the Docker daemon" eq_refl).
  reflexivity.
Defined.

(** A runtime whose container list fails while the named image is
    inspected: with a configuration the image results are returned, and a
    nil configuration is a panic. *)
Example DockerChecker_Run_image_only :
  DockerChecker.Run (Ok listless_runtime) port80_options
  = Some ([port80_result], None)
  /\ DockerChecker.Run (Ok unconfigured_runtime) port80_options = None.
Proof. split; reflexivity. Qed.

(** Whenever Run returns from a built client, the error is nil. *)
Lemma DockerChecker_Run_built_nil_error
    (cli : docker.Client) (opts : CheckOptions)
    (results : list CheckResult) (err : option error) :
  DockerChecker.Run (Ok cli) opts = Some (results, err) -> err = None.
Proof.
  unfold DockerChecker.Run.
  destruct (DockerChecker.checkContainerSecurity cli); [|discriminate].
  destruct (negb (String.eqb (Image opts) ""));
    [destruct (DockerChecker.checkImage cli (Image opts)); [|discriminate]|];
    intros H; injection H as _ <-; reflexivity.
Qed.

(** ** Errors of the file checker *)

Section WalkErrors.

Context {S : Type}.
Variable Join : string -> string -> string.
Variable walkFn : string -> option FsNode -> option error -> S -> S * option error.

(** The callback never returns an error. *)
Hypothesis walkFn_nil :
  forall path info err st, (walkFn path info err st).2 = None.

(** [Walk] has no error of its own: with such a callback the descent
    returns nil from every tree. *)
Lemma walk_nil_error (info : FsNode) :
  forall path st, (walk Join walkFn path info st).2 = None.
Proof.
  induction info as [content|e|names IH] using FsNode_tree_ind;
    intros path st.
  - apply walkFn_nil.
  - simpl. pose proof (walkFn_nil path (Some (Dir (Err e))) (Some e) st) as H.
    destruct (walkFn path _ _ st) as [st' err1]. simpl in H. subst err1.
    reflexivity.
  - simpl.
    pose proof (walkFn_nil path (Some (Dir (Ok names))) None st) as H.
    destruct (walkFn path _ _ st) as [st' err1]. simpl in H. subst err1.
    clear st. revert st'.
    induction IH as [|[name lstat] rest Hchild _ IHrest]; intros st;
      [reflexivity|].
    simpl in Hchild. destruct lstat as [child|e].
    + specialize (Hchild (Join path name) st).
      destruct (walk Join walkFn (Join path name) child st) as [st' err].
      simpl in Hchild. subst err. apply IHrest.
    + pose proof (walkFn_nil (Join path name) None (Some e) st) as H.
      destruct (walkFn (Join path name) None (Some e) st) as [st' err].
      simpl in H. subst err. apply IHrest.
Qed.

Lemma Walk_nil_error (rootPath : string) (root : result FsNode) (st : S) :
  (Walk Join walkFn rootPath root st).2 = None.
Proof.
  unfold Walk. destruct root as [info|e].
  - pose proof (walk_nil_error info rootPath st) as H.
    destruct (walk Join walkFn rootPath info st) as [st' err].
    simpl in H. subst err. reflexivity.
  - pose proof (walkFn_nil rootPath None (Some e) st) as H.
    destruct (walkFn rootPath None (Some e) st) as [st' err].
    simpl in H. subst err. reflexivity.
Qed.

End WalkErrors.

Lemma visit_nil_error {unicode : Unicode}
    (Unmarshal : string -> result (list (string * any)))
    (path : string) (info : option FsNode) (err : option error)
    (results : list CheckResult) :
  (FileChecker.visit Unmarshal path info err results).2 = None.
Proof.
  unfold FileChecker.visit.
  destruct err; [reflexivity|]. destruct info as [info|]; [|reflexivity].
  destruct (IsDir info); reflexivity.
Qed.

(** What a failed per-file check contributes: nothing. *)
Lemma merge_error (results sub : list CheckResult) (e : error) :
  merge results (sub, Some e) = results.
Proof. reflexivity. Qed.

(** The callback hands back the results it was given, and no error, when
    the walk reports an error for the path and when the file cannot be
    read. *)
Lemma visit_walk_error {unicode : Unicode}
    (Unmarshal : string -> result (list (string * any)))
    (path : string) (info : option FsNode) (e : error)
    (results : list CheckResult) :
  FileChecker.visit Unmarshal path info (Some e) results = (results, None).
Proof. reflexivity. Qed.

Lemma visit_unreadable {unicode : Unicode}
    (Unmarshal : string -> result (list (string * any)))
    (path : string) (e : error) (results : list CheckResult) :
  FileChecker.visit Unmarshal path (Some (File (Err e))) None results
  = (results, None).
Proof.
  unfold FileChecker.visit. cbn [IsDir].
  assert (Hm : FileChecker.isKubernetesManifest path (File (Err e)) = false).
  { unfold FileChecker.isKubernetesManifest. cbn [ReadFile].
    destruct (_ && _); reflexivity. }
  rewrite Hm.
  unfold FileChecker.checkDockerfile, FileChecker.checkDockerCompose.
  cbn [ReadFile]. rewrite !merge_error.
  destruct (FileChecker.isDockerfile path), (FileChecker.isDockerCompose path);
    reflexivity.
Qed.

(** A file that cannot be decoded gives no manifest and no compose
    result. *)
Lemma undecodable_no_results (Unmarshal : string -> result (list (string * any)))
    (path data : string) (e : error) (results : list CheckResult) :
  Unmarshal data = Err e ->
  merge results (FileChecker.checkKubernetesManifest Unmarshal path (File (Ok data)))
  = results
  /\ merge results (FileChecker.checkDockerCompose Unmarshal path (File (Ok data)))
     = results.
Proof.
  intros H.
  unfold FileChecker.checkKubernetesManifest, FileChecker.checkDockerCompose.
  cbn [ReadFile]. rewrite H. split; reflexivity.
Qed.

(** C9: for every root path, file system, path joiner and YAML decoder,
    the error FileChecker.Run returns is nil: the callback swallows every
    error of the walk, of reading and of decoding, and a path with a walk
    error or an unreadable file leaves the results as they were. *)
Theorem FileChecker_Run_nil_error {unicode : Unicode}
    (Join : string -> string -> string)
    (Unmarshal : string -> result (list (string * any)))
    (Lstat : string -> result FsNode) (opts : CheckOptions) :
  (FileChecker.Run Join Unmarshal Lstat opts).2 = None
  /\ (forall path info e results,
        FileChecker.visit Unmarshal path info (Some e) results = (results, None))
  /\ (forall path e results,
        FileChecker.visit Unmarshal path (Some (File (Err e))) None results
        = (results, None)).
Proof.
  split; [|split; [apply visit_walk_error | apply visit_unreadable]].
  unfold FileChecker.Run. apply Walk_nil_error.
  intros path info err st. apply visit_nil_error.
Qed.

(** A root that cannot be reached gives no result and no error. *)
Lemma FileChecker_Run_missing_root {unicode : Unicode}
    (Join : string -> string -> string)
    (Unmarshal : string -> result (list (string * any)))
    (Lstat : string -> result FsNode) (opts : CheckOptions) (e : error) :
  Lstat (Path opts) = Err e ->
  FileChecker.Run Join Unmarshal Lstat opts = ([], None).
Proof.
  intros H. unfold FileChecker.Run, Walk. rewrite H. reflexivity.
Qed.

(** Unreadable and undecodable files are passed over: the walk goes on
    and the results of the other files are returned. *)
Example FileChecker_Run_skips_failures :
  let tree :=
    Dir (Ok [("a.yaml", Ok (File (Err "permission denied")));
             ("b.yaml", Ok (File (Ok "apiVersion: broken, kind: none")));
             ("gone", Err "no such file or directory");
             ("locked", Ok (Dir (Err "permission denied")));
             ("pod.yaml", Ok (File (Ok noProbe_text)))]) in
  FileChecker.Run (unicode := noTables) filepath.Join decode (fun _ => Ok tree)
    noProbe_options
  = ([noProbe_result], None).
Proof. vm_compute. reflexivity. Qed.

(** ** The scenarios of the specification, run on the embedding *)

Example scenarioA :
  severitiesOf
    (FileChecker.Run (unicode := noTables) filepath.Join decode
       (fun _ => Ok (Dir (Ok [("app.yaml", Ok (File (Ok scenarioA_text)))])))
       noProbe_options).1
  = [("FILE-K8S-001", "medium", StatusFailed);
     ("FILE-K8S-002", "medium", StatusFailed);
     ("FILE-K8S-003", "high", StatusFailed);
     ("FILE-K8S-004", "medium", StatusFailed)].
Proof. vm_compute. reflexivity. Qed.

Example scenarioB :
  severitiesOf
    (FileChecker.Run (unicode := noTables) filepath.Join decode
       (fun _ => Ok (Dir (Ok [("Dockerfile", Ok (File (Ok scenarioB_text)))])))
       noProbe_options).1
  = [("FILE-DOCKER-003", "high", StatusFailed);
     ("FILE-DOCKER-004", "medium", StatusFailed)].
Proof. vm_compute. reflexivity. Qed.

Example scenarioC :
  filterResults (mkCheckOptions "" "" "" [] [] "high")
    [scenarioC_result "critical"; scenarioC_result "high";
     scenarioC_result "medium"]
  = [scenarioC_result "critical"; scenarioC_result "high"].
Proof. vm_compute. reflexivity. Qed.

Example scenarioD :
  severitiesOf
    (FileChecker.Run (unicode := noTables) filepath.Join decode
       (fun _ => Ok (Dir (Ok [("docker-compose.yml",
                               Ok (File (Ok scenarioD_text)))])))
       noProbe_options).1
  = [("FILE-COMPOSE-001", "critical", StatusFailed);
     ("FILE-COMPOSE-002", "high", StatusFailed);
     ("FILE-COMPOSE-003", "low", StatusFailed);
     ("FILE-COMPOSE-004", "medium", StatusFailed)].
Proof. vm_compute. reflexivity. Qed.

(** * Further properties *)

(** ** The result filter *)

(** X1: a result is in the output of the filter exactly when it is in the
    input, its rule is not on the skip-list, its rule is on the only-list
    when that list is not empty, and its severity meets the minimum when
    one is set. *)
Theorem filterResults_In
    (opts : CheckOptions) (results : list CheckResult) (r : CheckResult) :
  In r (filterResults opts results)
  <-> In r results
      /\ ~ In (RuleID r) (SkipRules opts)
      /\ (OnlyRules opts = [] \/ In (RuleID r) (OnlyRules opts))
      /\ (MinSeverity opts = ""
          \/ meetsMinSeverity (Severity r) (MinSeverity opts) = true).
Proof.
  rewrite filterResults_keep, filter_In. unfold keepResult.
  rewrite <- !ruleListed_In.
  destruct (ruleListed (RuleID r) (SkipRules opts)); [intuition congruence|].
  destruct (OnlyRules opts) as [|only onlys] eqn:Eonly.
  - simpl.
    destruct (String.eqb (MinSeverity opts) "") eqn:Emin.
    + apply String.eqb_eq in Emin. simpl. intuition congruence.
    + apply String.eqb_neq in Emin. simpl.
      destruct (meetsMinSeverity _ _); simpl; intuition congruence.
  - change ((0 <? length (only :: onlys))%nat) with true. cbn [andb].
    destruct (ruleListed (RuleID r) (only :: onlys)); cbn [negb];
      [|intuition congruence].
    destruct (String.eqb (MinSeverity opts) "") eqn:Emin.
    + apply String.eqb_eq in Emin. simpl. intuition congruence.
    + apply String.eqb_neq in Emin. simpl.
      destruct (meetsMinSeverity _ _); simpl; intuition congruence.
Qed.

Lemma filter_sublist {A : Type} (keep : A -> bool) (l : list A) :
  sublist (List.filter keep l) l.
Proof.
  induction l as [|x l IH]; simpl; [constructor|].
  destruct (keep x); now constructor.
Qed.

(** X2: the filter keeps the order of the input and adds nothing: its
    output is a subsequence of its input; with the three controls empty
    it is the input. *)
Theorem filterResults_sublist
    (opts : CheckOptions) (results : list CheckResult) :
  sublist (filterResults opts results) results
  /\ (length (filterResults opts results) <= length results)%nat
  /\ (noControls opts = true -> filterResults opts results = results).
Proof.
  split; [|split].
  - rewrite filterResults_keep. apply filter_sublist.
  - rewrite filterResults_keep. apply List.filter_length_le.
  - intros H. rewrite filterResults_filter, H. reflexivity.
Qed.

(** X3: filtering a concatenation is concatenating the filtered parts, so
    filtering the merged results of several checks is the same as
    filtering each check's results. *)
Theorem filterResults_app
    (opts : CheckOptions) (results1 results2 : list CheckResult) :
  filterResults opts (results1 ++ results2)
  = filterResults opts results1 ++ filterResults opts results2.
Proof.
  rewrite !filterResults_keep. apply List.filter_app.
Qed.

(** X4: a minimum severity that is not one of the four levels of the
    table, as written there in lower case, ranks as 0: every result meets
    it, and with no skip-list and no only-list the filter returns its
    input. *)
Theorem filterResults_unrecognized_minimum
    (opts : CheckOptions) (results : list CheckResult) :
  ~ In (MinSeverity opts) recognizedSeverities ->
  SkipRules opts = [] ->
  OnlyRules opts = [] ->
  (forall severity, meetsMinSeverity severity (MinSeverity opts) = true)
  /\ filterResults opts results = results.
Proof.
  intros Hmin Hskip Honly.
  assert (Hmeets : forall severity,
             meetsMinSeverity severity (MinSeverity opts) = true).
  { intros severity. unfold meetsMinSeverity.
    rewrite (levels_unrecognized _ Hmin). cbn [default].
    apply Z.leb_le. destruct (levels !! severity) as [n|] eqn:E; [|cbn; lia].
    cbn. unfold levels in E.
    destruct (decide (severity = "low")) as [->|]; [vm_compute in E; injection E as <-; lia|].
    destruct (decide (severity = "medium")) as [->|]; [vm_compute in E; injection E as <-; lia|].
    destruct (decide (severity = "high")) as [->|]; [vm_compute in E; injection E as <-; lia|].
    destruct (decide (severity = "critical")) as [->|]; [vm_compute in E; injection E as <-; lia|].
    rewrite !lookup_insert_ne, lookup_singleton_ne in E by congruence.
    discriminate. }
  split; [exact Hmeets|].
  rewrite filterResults_keep. apply forallb_filter_id, forallb_forall.
  intros r _. unfold keepResult. rewrite Hskip, Honly, Hmeets. simpl.
  destruct (negb _); reflexivity.
Qed.

Lemma filterResults_unrecognized_minimum_witness :
  ~ In (MinSeverity capitalHigh_opts) recognizedSeverities
  /\ (forall severity,
        meetsMinSeverity severity (MinSeverity capitalHigh_opts) = true)
  /\ filterResults capitalHigh_opts [emptySeverity_result; warningSeverity_result]
     = [emptySeverity_result; warningSeverity_result].
Proof.
  assert (H : ~ In (MinSeverity capitalHigh_opts) recognizedSeverities).
  { simpl. intuition discriminate. }
  split; [exact H|].
  exact (filterResults_unrecognized_minimum capitalHigh_opts
           [emptySeverity_result; warningSeverity_result] H eq_refl eq_refl).
Defined.

(** ** The cluster checker *)

Lemma countRule_app (id : string) (results1 results2 : list CheckResult) :
  countRule id (results1 ++ results2)
  = (countRule id results1 + countRule id results2)%nat.
Proof.
  unfold countRule. now rewrite List.filter_app, List.length_app.
Qed.

Lemma countRule_appendIf (id : string) (cond : bool) (r : CheckResult)
    (results : list CheckResult) :
  countRule id (appendIf cond r results)
  = (countRule id results
     + if cond && String.eqb (RuleID r) id then 1 else 0)%nat.
Proof.
  unfold appendIf. destruct cond; cbn [andb]; [|lia].
  rewrite countRule_app. unfold countRule at 2. simpl.
  destruct (String.eqb (RuleID r) id); reflexivity.
Qed.

Lemma filter_appendIf (test : CheckResult -> bool) (cond : bool)
    (r : CheckResult) (results : list CheckResult) :
  List.filter test (appendIf cond r results)
  = List.filter test results ++ (if cond && test r then [r] else []).
Proof.
  unfold appendIf. destruct cond; cbn [andb]; [|now rewrite app_nil_r].
  rewrite List.filter_app. cbn [List.filter]. destruct (test r); reflexivity.
Qed.

Lemma podSecurityContainer_privileged (pod : corev1.Pod)
    (containers : list corev1.Container) (acc : list CheckResult) :
  List.filter (hasRule "K8S-SEC-001")
    (fold_left
       (K8sChecker.podSecurityContainer
          (corev1.PodNamespace pod ++ "/" ++ corev1.PodName pod))
       containers acc)
  = List.filter (hasRule "K8S-SEC-001") acc
    ++ List.map privilegedResult (List.map (pair pod) containers).
Proof.
  revert acc. induction containers as [|c containers IH]; intros acc;
    [cbn; now rewrite app_nil_r|].
  cbn [fold_left List.map]. rewrite IH.
  set (tail := List.map privilegedResult (List.map (pair pod) containers)).
  assert (List.filter (hasRule "K8S-SEC-001")
            (K8sChecker.podSecurityContainer
               (corev1.PodNamespace pod ++ "/" ++ corev1.PodName pod) acc c)
          = List.filter (hasRule "K8S-SEC-001") acc ++ [privilegedResult (pod, c)])
    as ->; [|now rewrite <- app_assoc].
  unfold K8sChecker.podSecurityContainer. cbv zeta.
  rewrite !filter_appendIf.
  cbn [hasRule RuleID String.eqb Ascii.eqb Bool.eqb andb].
  rewrite !andb_false_r, !app_nil_r.
  unfold privilegedResult, K8sChecker.privileged, K8sChecker.isTrue.
  cbn [fst snd].
  destruct (corev1.ContainerSecurityContext c) as [[[[|]|] nonRoot readOnly]|];
    cbn [corev1.Privileged]; rewrite List.filter_app; reflexivity.
Qed.

Lemma podSecurityPod_privileged (pods : list corev1.Pod) (acc : list CheckResult) :
  List.filter (hasRule "K8S-SEC-001") (fold_left K8sChecker.podSecurityPod pods acc)
  = List.filter (hasRule "K8S-SEC-001") acc
    ++ List.map privilegedResult (containersOf pods).
Proof.
  revert acc. induction pods as [|pod pods IH]; intros acc;
    [cbn; now rewrite app_nil_r|].
  cbn [fold_left]. rewrite IH. unfold K8sChecker.podSecurityPod. cbv zeta.
  rewrite !filter_appendIf, podSecurityContainer_privileged.
  cbn [hasRule RuleID String.eqb Ascii.eqb Bool.eqb andb].
  rewrite !andb_false_r, !app_nil_r.
  unfold containersOf. cbn [flat_map]. rewrite List.map_app, <- app_assoc.
  reflexivity.
Qed.

(** X5: when the pods can be listed, the K8S-SEC-001 results of the pod
    security check are, in order, one for each container of each listed
    pod: the result names the pod as resource and the container in its
    message, and it is failed when the security context of that
    container sets privileged to true and passed otherwise. *)
Theorem checkPodSecurity_one_per_container
    (cs : Clientset) (opts : CheckOptions) (pods : list corev1.Pod) :
  ListPods cs (Namespace opts) = Ok pods ->
  List.filter (hasRule "K8S-SEC-001") (K8sChecker.checkPodSecurity cs opts).1
  = List.map privilegedResult (containersOf pods).
Proof.
  intros H. unfold K8sChecker.checkPodSecurity. rewrite H. cbn [fst].
  apply (podSecurityPod_privileged pods []).
Qed.

Lemma checkPodSecurity_one_per_container_witness :
  ListPods mixed_cluster (Namespace noOptions)
  = Ok [corev1.mkPod "default" "job-0"
          (corev1.mkPodSpec
             [corev1.mkContainer "root" "tool:1" ""
                (Some (corev1.mkSecurityContext (Some true) None None))
                None None (corev1.mkResourceRequirements ∅ ∅);
              pullAlways_container] false false)]
  /\ List.filter (hasRule "K8S-SEC-001")
       (K8sChecker.checkPodSecurity mixed_cluster noOptions).1
     = [privileged_failed_result; privileged_passed_result].
Proof.
  split; [reflexivity|].
  rewrite (checkPodSecurity_one_per_container mixed_cluster noOptions _ eq_refl).
  reflexivity.
Defined.

(** X6: only a failure to build the client makes the cluster checker
    return an error.  With a client, the error is nil whatever the five
    queries answer, and when all of them fail the result list is empty. *)
Theorem K8sChecker_Run_errors (opts : CheckOptions) :
  (forall e, K8sChecker.Run (Err e) opts = ([], Some e))
  /\ (forall cs, (K8sChecker.Run (Ok cs) opts).2 = None)
  /\ (forall cs e1 e2 e3,
        ListPods cs (Namespace opts) = Err e1 ->
        ListNamespaces cs = Err e2 ->
        ListClusterRoleBindings cs = Err e3 ->
        K8sChecker.Run (Ok cs) opts = ([], None)).
Proof.
  split; [reflexivity|]. split; [reflexivity|].
  intros cs e1 e2 e3 H1 H2 H3.
  unfold K8sChecker.Run, K8sChecker.checkPodSecurity,
    K8sChecker.checkContainers, K8sChecker.checkResourceLimits,
    K8sChecker.checkNetworkPolicies, K8sChecker.checkRBAC.
  rewrite H1, H2, H3. cbn [merge fst snd].
  rewrite filterResults_keep. reflexivity.
Qed.

Lemma rbacBinding_loop (bindings : list corev1.ClusterRoleBinding)
    (acc : list CheckResult) :
  List.map Resource (fold_left K8sChecker.rbacBinding bindings acc)
  = List.map Resource acc
    ++ List.map corev1.BindingName (List.filter flaggedBinding bindings).
Proof.
  revert acc. induction bindings as [|b bindings IH]; intros acc;
    [simpl; now rewrite app_nil_r|].
  cbn [fold_left List.filter]. rewrite IH.
  unfold K8sChecker.rbacBinding, flaggedBinding.
  destruct (String.eqb (corev1.RoleRefName b) "cluster-admin"); cbn [andb];
    [|reflexivity].
  destruct (strings.HasPrefix (corev1.BindingName b) "system:"); cbn [negb];
    [reflexivity|].
  rewrite List.map_app, <- app_assoc. reflexivity.
Qed.

(** X7: when the cluster role bindings can be listed, the RBAC check
    emits one result for each binding that grants cluster-admin and whose
    name does not start with system:, in the order of the listing, and
    none for any other binding. *)
Theorem checkRBAC_flagged
    (cs : Clientset) (opts : CheckOptions)
    (bindings : list corev1.ClusterRoleBinding) :
  ListClusterRoleBindings cs = Ok bindings ->
  List.map Resource (K8sChecker.checkRBAC cs opts).1
  = List.map corev1.BindingName (List.filter flaggedBinding bindings).
Proof.
  intros H. unfold K8sChecker.checkRBAC. rewrite H. cbn [fst].
  apply (rbacBinding_loop bindings []).
Qed.

Lemma checkRBAC_flagged_witness :
  List.map Resource (K8sChecker.checkRBAC admin_cluster noOptions).1
  = List.map corev1.BindingName
      (List.filter flaggedBinding
         [corev1.mkClusterRoleBinding "system:masters" "cluster-admin";
          corev1.mkClusterRoleBinding "ops-team" "cluster-admin";
          corev1.mkClusterRoleBinding "viewers" "view"]).
Proof.
  apply (checkRBAC_flagged admin_cluster noOptions). reflexivity.
Defined.

Lemma networkPolicies_loop (cs : Clientset) (opts : CheckOptions)
    (all namespaces : list corev1.NamespaceObj) (acc : list CheckResult) :
  (forall ns, In ns namespaces -> In ns all) ->
  List.Forall (networkResultOk cs opts all) acc ->
  List.Forall (networkResultOk cs opts all)
    (fold_left (K8sChecker.networkPoliciesNamespace cs opts) namespaces acc)
  /\ (length (fold_left (K8sChecker.networkPoliciesNamespace cs opts)
                namespaces acc)
      <= length acc + length namespaces)%nat.
Proof.
  revert acc. induction namespaces as [|ns namespaces IH]; intros acc Hall Hacc;
    [simpl; split; [exact Hacc | lia]|].
  cbn [fold_left length].
  assert (Hstep :
    List.Forall (networkResultOk cs opts all)
      (K8sChecker.networkPoliciesNamespace cs opts acc ns)
    /\ (length (K8sChecker.networkPoliciesNamespace cs opts acc ns)
        <= S (length acc))%nat).
  { unfold K8sChecker.networkPoliciesNamespace.
    destruct (strings.HasPrefix (corev1.NamespaceName ns) "kube-") eqn:Ek;
      [split; [exact Hacc | lia]|].
    destruct (negb (String.eqb (Namespace opts) "")
              && negb (String.eqb (corev1.NamespaceName ns) (Namespace opts)))
      eqn:En; [split; [exact Hacc | lia]|].
    assert (Hns : Namespace opts = ""
                  \/ corev1.NamespaceName ns = Namespace opts).
    { apply andb_false_iff in En as [En|En]; apply negb_false_iff in En;
        apply String.eqb_eq in En; auto. }
    assert (Hin : In (corev1.NamespaceName ns)
                    (List.map corev1.NamespaceName all)).
    { apply in_map, Hall. left. reflexivity. }
    destruct (ListNetworkPolicies cs (corev1.NamespaceName ns))
      as [policies|e] eqn:Ep; [|split; [exact Hacc | lia]].
    destruct policies as [|p policies]; cbn [length Nat.eqb].
    - split; [|rewrite List.length_app; simpl; lia].
      apply Forall_snoc; [exact Hacc|].
      unfold networkResultOk. cbn [RuleID Resource Status].
      repeat split; try assumption. exists []. rewrite Ep.
      repeat split; congruence.
    - split; [|rewrite List.length_app; simpl; lia].
      apply Forall_snoc; [exact Hacc|].
      unfold networkResultOk. cbn [RuleID Resource Status].
      repeat split; try assumption. exists (p :: policies). rewrite Ep.
      repeat split; congruence. }
  destruct Hstep as [Hok Hlen].
  destruct (IH (K8sChecker.networkPoliciesNamespace cs opts acc ns)) as [IH1 IH2];
    [intros n Hn; apply Hall; right; exact Hn | exact Hok |].
  split; [exact IH1 | lia].
Qed.

Lemma networkPolicies_resources (cs : Clientset) (opts : CheckOptions)
    (namespaces : list corev1.NamespaceObj) (acc : list CheckResult) :
  List.map Resource
    (fold_left (K8sChecker.networkPoliciesNamespace cs opts) namespaces acc)
  = List.map Resource acc
    ++ List.map corev1.NamespaceName
         (List.filter (checkedNamespace cs opts) namespaces).
Proof.
  revert acc. induction namespaces as [|ns namespaces IH]; intros acc;
    [cbn; now rewrite app_nil_r|].
  cbn [fold_left List.filter]. rewrite IH.
  unfold K8sChecker.networkPoliciesNamespace, checkedNamespace.
  destruct (strings.HasPrefix (corev1.NamespaceName ns) "kube-");
    cbn [negb andb]; [reflexivity|].
  destruct (String.eqb (Namespace opts) ""); cbn [negb andb orb].
  - destruct (ListNetworkPolicies cs (corev1.NamespaceName ns)) as [policies|e];
      [|reflexivity].
    destruct (length policies =? 0)%nat;
      rewrite List.map_app, <- app_assoc; reflexivity.
  - destruct (String.eqb (corev1.NamespaceName ns) (Namespace opts));
      cbn [negb]; [|reflexivity].
    destruct (ListNetworkPolicies cs (corev1.NamespaceName ns)) as [policies|e];
      [|reflexivity].
    destruct (length policies =? 0)%nat;
      rewrite List.map_app, <- app_assoc; reflexivity.
Qed.

(** X8: when the namespaces can be listed, the results of the network
    policy check are, in the order of the listing, one for each listed
    namespace whose name does not start with kube-, that is the namespace
    asked for when one is, and whose policies can be listed; there is no
    other result.  Each is a K8S-NET-001 result with the namespace as its
    resource, failed when the namespace has no network policy and passed
    when it has one. *)
Theorem checkNetworkPolicies_results
    (cs : Clientset) (opts : CheckOptions)
    (namespaces : list corev1.NamespaceObj) :
  ListNamespaces cs = Ok namespaces ->
  List.map Resource (K8sChecker.checkNetworkPolicies cs opts).1
  = List.map corev1.NamespaceName
      (List.filter (checkedNamespace cs opts) namespaces)
  /\ List.Forall (networkResultOk cs opts namespaces)
       (K8sChecker.checkNetworkPolicies cs opts).1.
Proof.
  intros H. unfold K8sChecker.checkNetworkPolicies. rewrite H. cbn [fst].
  split; [apply (networkPolicies_resources cs opts namespaces [])|].
  apply (networkPolicies_loop cs opts namespaces namespaces []);
    [auto | constructor].
Qed.

Lemma checkNetworkPolicies_results_witness :
  ListNamespaces admin_cluster
  = Ok [corev1.mkNamespace "kube-system"; corev1.mkNamespace "default";
        corev1.mkNamespace "shop"]
  /\ List.map Resource (K8sChecker.checkNetworkPolicies admin_cluster noOptions).1
     = ["default"; "shop"].
Proof.
  split; [reflexivity|].
  rewrite (proj1 (checkNetworkPolicies_results admin_cluster noOptions _ eq_refl)).
  reflexivity.
Defined.

Example checkNetworkPolicies_admin_cluster :
  List.map (fun r => (Resource r, Status r))
    (K8sChecker.checkNetworkPolicies admin_cluster noOptions).1
  = [("default", StatusFailed); ("shop", StatusPassed)].
Proof. vm_compute. reflexivity. Qed.

(** ** The runtime checker *)

Lemma containerLoop_panics (c : docker.Client)
    (containers : list docker.ContainerSummary) (acc : list CheckResult) :
  DockerChecker.containerLoop c containers acc = None
  <-> List.Exists (panicsAt c) containers.
Proof.
  revert acc. induction containers as [|cont containers IH]; intros acc.
  - split; [discriminate|]. intros H. inversion H.
  - cbn [DockerChecker.containerLoop]. rewrite List.Exists_cons.
    unfold panicsAt at 1.
    destruct (docker.Names cont) as [|name names].
    { split; [intros _; left; left; reflexivity|reflexivity]. }
    destruct (docker.ContainerInspect c (docker.ContainerID cont))
      as [inspect|e].
    + unfold DockerChecker.containerRules.
      destruct (docker.HostConfigOf inspect) as [hc|] eqn:Ehc.
      * destruct (docker.ConfigOf inspect) as [cfg|] eqn:Ecfg.
        -- rewrite IH. split; [intros H; right; exact H|].
           intros [[Hnone|(inspect' & [= <-] & [Hnil|Hnil])]|H];
             [discriminate|congruence|congruence|exact H].
        -- split; [|reflexivity]. intros _. left. right.
           exists inspect. split; [reflexivity|]. right. exact Ecfg.
      * split; [|reflexivity]. intros _. left. right.
        exists inspect. split; [reflexivity|]. left. exact Ehc.
    + rewrite IH. split; [intros H; right; exact H|].
      intros [[Hnone|(inspect' & Hins & _)]|H];
        [discriminate|discriminate|exact H].
Qed.

(** X9: the runtime checker reads the first name of every listed
    container, and the host configuration and the configuration of every
    container it can inspect, without testing that there is one; the
    image check does the same with the configuration of the image.  So
    Run on a built client panics exactly when a listed container has no
    name or is inspected with a nil host configuration or configuration,
    or the image named in the options is inspected with a nil
    configuration.  In every other case it returns, with a nil error. *)
Theorem DockerChecker_Run_panics (cli : docker.Client) (opts : CheckOptions) :
  (DockerChecker.Run (Ok cli) opts = None
   <-> (exists containers,
          docker.ContainerList cli = Ok containers
          /\ List.Exists (panicsAt cli) containers)
       \/ (Image opts <> ""
           /\ exists inspect,
                docker.ImageInspectWithRaw cli (Image opts) = Ok inspect
                /\ docker.ImageConfig inspect = None))
  /\ (DockerChecker.Run (Ok cli) opts <> None ->
      exists results, DockerChecker.Run (Ok cli) opts = Some (results, None)).
Proof.
  split.
  - unfold DockerChecker.Run, DockerChecker.checkContainerSecurity,
      DockerChecker.checkImage.
    destruct (docker.ContainerList cli) as [containers|e].
    + destruct (DockerChecker.containerLoop cli containers []) as [found|] eqn:El.
      * assert (~ List.Exists (panicsAt cli) containers) as Hnone.
        { intros H. apply (containerLoop_panics cli containers []) in H.
          congruence. }
        destruct (String.eqb (Image opts) "") eqn:Ei; cbn [negb].
        -- apply String.eqb_eq in Ei. split; [discriminate|].
           intros [(cs & [= <-] & H)|[Hnamed _]]; [tauto|congruence].
        -- apply String.eqb_neq in Ei.
           destruct (docker.ImageInspectWithRaw cli (Image opts))
             as [inspect|e].
           ++ destruct (docker.ImageConfig inspect) as [cfg|] eqn:Ec.
              ** split; [discriminate|].
                 intros [(cs & [= <-] & H)|(_ & inspect' & [= <-] & Hnil)];
                   [tauto|congruence].
              ** split; [|reflexivity]. intros _. right. split; [exact Ei|].
                 exists inspect. split; [reflexivity|exact Ec].
           ++ split; [discriminate|].
              intros [(cs & [= <-] & H)|(_ & inspect' & Hins & _)];
                [tauto|discriminate].
      * split; [|reflexivity]. intros _. left. exists containers.
        split; [reflexivity|]. now apply (containerLoop_panics cli containers []).
    + destruct (String.eqb (Image opts) "") eqn:Ei; cbn [negb].
      * apply String.eqb_eq in Ei. split; [discriminate|].
        intros [(cs & Hlist & _)|[Hnamed _]]; [discriminate|congruence].
      * apply String.eqb_neq in Ei.
        destruct (docker.ImageInspectWithRaw cli (Image opts)) as [inspect|e'].
        -- destruct (docker.ImageConfig inspect) as [cfg|] eqn:Ec.
           ++ split; [discriminate|].
              intros [(cs & Hlist & _)|(_ & inspect' & [= <-] & Hnil)];
                [discriminate|congruence].
           ++ split; [|reflexivity]. intros _. right. split; [exact Ei|].
              exists inspect. split; [reflexivity|exact Ec].
        -- split; [discriminate|].
           intros [(cs & Hlist & _)|(_ & inspect' & Hins & _)]; discriminate.
  - destruct (DockerChecker.Run (Ok cli) opts) as [[results err]|] eqn:Erun;
      [|congruence].
    intros _. exists results.
    now rewrite (DockerChecker_Run_built_nil_error cli opts results err Erun).
Qed.

(** A container that is inspected goes through the rules of the loop; a
    container inspected with a nil host configuration, or listed without
    a name, is a panic. *)
Example DockerChecker_Run_inspected :
  List.map RuleID
    (default [] (fst <$> DockerChecker.Run (Ok named_runtime) noOptions))
  = ["DOCKER-SEC-001"; "DOCKER-SEC-002"; "DOCKER-RES-001"; "DOCKER-RES-002";
     "DOCKER-CFG-001"; "DOCKER-CFG-002"; "DOCKER-SEC-006"]
  /\ DockerChecker.Run (Ok unnamed_runtime) noOptions = None
  /\ DockerChecker.Run (Ok hostless_runtime) noOptions = None.
Proof. repeat split; reflexivity. Qed.

(** ** What the checkers emit *)

Section WalkInvariant.

Context {S : Type}.
Variable Join : string -> string -> string.
Variable walkFn : string -> option FsNode -> option error -> S -> S * option error.
Variable Inv : S -> Prop.

(** The callback keeps the invariant of the state it closes over. *)
Hypothesis walkFn_keeps :
  forall path info err st, Inv st -> Inv (walkFn path info err st).1.

Lemma walk_keeps (info : FsNode) :
  forall path st, Inv st -> Inv (walk Join walkFn path info st).1.
Proof.
  induction info as [content|e|names IH] using FsNode_tree_ind;
    intros path st Hst.
  - now apply walkFn_keeps.
  - simpl.
    pose proof (walkFn_keeps path (Some (Dir (Err e))) (Some e) st Hst) as H.
    destruct (walkFn path _ _ st) as [st' err1]. exact H.
  - simpl.
    pose proof (walkFn_keeps path (Some (Dir (Ok names))) None st Hst) as H.
    destruct (walkFn path _ _ st) as [st' err1]. cbn [fst] in H.
    destruct err1 as [e1|]; [exact H|].
    clear st Hst. revert st' H.
    induction IH as [|[name lstat] rest Hchild _ IHrest]; intros st Hst;
      [exact Hst|].
    cbn [snd] in Hchild. destruct lstat as [child|e].
    + specialize (Hchild (Join path name) st Hst).
      destruct (walk Join walkFn (Join path name) child st) as [st' err].
      cbn [fst] in Hchild. destruct err as [e'|]; [|now apply IHrest].
      destruct (negb (IsDir child) || negb (isSkipDir e'));
        [exact Hchild | now apply IHrest].
    + pose proof (walkFn_keeps (Join path name) None (Some e) st Hst) as H.
      destruct (walkFn (Join path name) None (Some e) st) as [st' err].
      cbn [fst] in H. destruct err as [e'|]; [|now apply IHrest].
      destruct (negb (isSkipDir e')); [exact H | now apply IHrest].
Qed.

Lemma Walk_keeps (rootPath : string) (root : result FsNode) (st : S) :
  Inv st -> Inv (Walk Join walkFn rootPath root st).1.
Proof.
  intros Hst. unfold Walk. destruct root as [info|e].
  - pose proof (walk_keeps info rootPath st Hst) as H.
    destruct (walk Join walkFn rootPath info st) as [st' err].
    destruct err as [e'|]; [destruct (_ || _)|]; exact H.
  - pose proof (walkFn_keeps rootPath None (Some e) st Hst) as H.
    destruct (walkFn rootPath None (Some e) st) as [st' err].
    destruct err as [e'|]; [destruct (_ || _)|]; exact H.
Qed.

End WalkInvariant.

Section Emission.

(** An invariant of single results that holds of every literal the
    checkers build, whatever the resource and the message. *)
Variable P : CheckResult -> Prop.
Hypothesis P_template :
  forall r, fromTemplate r = true -> P r.

Local Ltac literal := apply P_template; reflexivity.
Local Ltac keeps :=
  repeat first
    [ assumption | literal | apply Forall_appendIf | apply Forall_snoc ].

Lemma merge_Forall (results : list CheckResult)
    (sub : list CheckResult * option error) :
  List.Forall P results -> List.Forall P sub.1 -> List.Forall P (merge results sub).
Proof.
  intros Hr Hs. unfold merge. destruct sub.2; [exact Hr|].
  apply List.Forall_app. split; assumption.
Qed.

Lemma K8sChecker_Run_Forall (client : result Clientset) (opts : CheckOptions) :
  List.Forall P (K8sChecker.Run client opts).1.
Proof.
  unfold K8sChecker.Run. destruct client as [cs|e]; [|constructor].
  cbn [fst]. rewrite filterResults_keep.
  apply List.Forall_forall. intros r Hr. apply filter_In in Hr as [Hr _].
  revert r Hr. apply List.Forall_forall.
  repeat apply merge_Forall; [constructor| | | | |].
  - unfold K8sChecker.checkPodSecurity.
    destruct (ListPods cs (Namespace opts)); [|constructor]. cbn [fst].
    apply fold_left_Forall; [|constructor]. intros acc pod Hacc.
    unfold K8sChecker.podSecurityPod. cbv zeta.
    do 2 (apply Forall_appendIf; [|literal]).
    apply fold_left_Forall; [|exact Hacc]. intros acc' container Hacc'.
    unfold K8sChecker.podSecurityContainer. cbv zeta.
    destruct (K8sChecker.privileged container); keeps.
  - unfold K8sChecker.checkContainers.
    destruct (ListPods cs (Namespace opts)); [|constructor]. cbn [fst].
    apply fold_left_Forall; [|constructor]. intros acc pod Hacc.
    unfold K8sChecker.containersPod. cbv zeta.
    apply fold_left_Forall; [|exact Hacc]. intros acc' container Hacc'.
    unfold K8sChecker.containersContainer. cbv zeta. keeps.
  - unfold K8sChecker.checkResourceLimits.
    destruct (ListPods cs (Namespace opts)); [|constructor]. cbn [fst].
    apply fold_left_Forall; [|constructor]. intros acc pod Hacc.
    unfold K8sChecker.resourceLimitsPod. cbv zeta.
    apply fold_left_Forall; [|exact Hacc]. intros acc' container Hacc'.
    unfold K8sChecker.resourceLimitsContainer. cbv zeta. keeps.
  - unfold K8sChecker.checkNetworkPolicies.
    destruct (ListNamespaces cs); [|constructor]. cbn [fst].
    apply fold_left_Forall; [|constructor]. intros acc ns Hacc.
    unfold K8sChecker.networkPoliciesNamespace.
    destruct (strings.HasPrefix _ _); [exact Hacc|].
    destruct (_ && _); [exact Hacc|].
    destruct (ListNetworkPolicies cs _); [|exact Hacc].
    destruct (_ =? _)%nat; keeps.
  - unfold K8sChecker.checkRBAC.
    destruct (ListClusterRoleBindings cs); [|constructor]. cbn [fst].
    apply fold_left_Forall; [|constructor]. intros acc binding Hacc.
    unfold K8sChecker.rbacBinding.
    destruct (String.eqb _ _); [|exact Hacc].
    destruct (strings.HasPrefix _ _); keeps.
Qed.

Lemma containerLoop_Forall (c : docker.Client)
    (containers : list docker.ContainerSummary) :
  forall acc results,
    List.Forall P acc ->
    DockerChecker.containerLoop c containers acc = Some results ->
    List.Forall P results.
Proof.
  induction containers as [|cont containers IH]; intros acc results Hacc Hrun.
  - injection Hrun as <-. exact Hacc.
  - cbn [DockerChecker.containerLoop] in Hrun.
    destruct (docker.Names cont) as [|name names]; [discriminate|].
    destruct (docker.ContainerInspect c (docker.ContainerID cont)) as [inspect|e];
      [|exact (IH _ _ Hacc Hrun)].
    unfold DockerChecker.containerRules in Hrun.
    destruct (docker.HostConfigOf inspect) as [hc|]; [|discriminate].
    destruct (docker.ConfigOf inspect) as [cfg|]; [|discriminate].
    refine (IH _ _ _ Hrun). clear Hrun.
    unfold DockerChecker.containerRulesOf. cbv zeta.
    do 5 (apply Forall_appendIf; [|literal]).
    apply fold_left_Forall.
    { intros acc' cap Hacc'. keeps. }
    do 3 (apply Forall_appendIf; [|literal]).
    destruct (docker.Privileged _); keeps.
Qed.

Lemma checkImage_Forall (c : docker.Client) (imageName : string)
    (sub : list CheckResult * option error) :
  DockerChecker.checkImage c imageName = Some sub -> List.Forall P sub.1.
Proof.
  unfold DockerChecker.checkImage.
  destruct (docker.ImageInspectWithRaw c imageName) as [inspect|e];
    [|intros [= <-]; constructor].
  destruct (docker.ImageConfig inspect) as [cfg|]; [|discriminate].
  intros [= <-]. unfold DockerChecker.imageRules.
  cbv zeta. cbn [fst].
  apply fold_left_Forall.
  { intros acc port Hacc. keeps. }
  do 2 (apply Forall_appendIf; [|literal]).
  generalize (@nil CheckResult) (List.Forall_nil P).
  induction (docker.RepoTags inspect) as [|tag tags IH]; intros acc Hacc;
    cbn [DockerChecker.latestTag]; [exact Hacc|].
  destruct (strings.HasSuffix tag ":latest"); [keeps | now apply IH].
Qed.

Lemma DockerChecker_Run_Forall (client : result docker.Client)
    (opts : CheckOptions) (results : list CheckResult) (err : option error) :
  DockerChecker.Run client opts = Some (results, err) ->
  List.Forall P results.
Proof.
  unfold DockerChecker.Run. destruct client as [cli|e];
    [|intros H; injection H as <- _; constructor].
  unfold DockerChecker.checkContainerSecurity.
  destruct (docker.ContainerList cli) as [containers|e].
  - destruct (DockerChecker.containerLoop cli containers []) as [found|] eqn:E;
      [|discriminate].
    assert (Hfound : List.Forall P found)
      by exact (containerLoop_Forall cli containers [] found
                  (List.Forall_nil P) E).
    destruct (negb _).
    + destruct (DockerChecker.checkImage cli (Image opts)) as [sub|] eqn:Ei;
        [|discriminate].
      intros H. injection H as <- _.
      apply merge_Forall; [apply merge_Forall; [constructor|exact Hfound]|].
      exact (checkImage_Forall cli (Image opts) sub Ei).
    + intros H. injection H as <- _.
      apply merge_Forall; [constructor|exact Hfound].
  - destruct (negb _).
    + destruct (DockerChecker.checkImage cli (Image opts)) as [sub|] eqn:Ei;
        [|discriminate].
      intros H. injection H as <- _.
      apply merge_Forall; [apply merge_Forall; constructor|].
      exact (checkImage_Forall cli (Image opts) sub Ei).
    + intros H. injection H as <- _. apply merge_Forall; constructor.
Qed.

Lemma FileChecker_Run_Forall {unicode : Unicode}
    (Join : string -> string -> string)
    (Unmarshal : string -> result (list (string * any)))
    (Lstat : string -> result FsNode) (opts : CheckOptions) :
  List.Forall P (FileChecker.Run Join Unmarshal Lstat opts).1.
Proof.
  unfold FileChecker.Run.
  apply (Walk_keeps Join (FileChecker.visit Unmarshal) (List.Forall P));
    [|constructor].
  intros path info err results Hres. unfold FileChecker.visit.
  destruct err; [exact Hres|]. destruct info as [info|]; [|exact Hres].
  destruct (IsDir info); [exact Hres|]. cbv zeta. cbn [fst].
  assert (Hm : List.Forall P (FileChecker.checkKubernetesManifest Unmarshal path info).1).
  { unfold FileChecker.checkKubernetesManifest.
    destruct (ReadFile info); [|constructor].
    destruct (Unmarshal a); [|constructor]. cbv zeta.
    destruct (_ || _); [|constructor].
    destruct (getNestedMap a0 "spec") as [spec|]; [|constructor].
    match goal with
    | |- context [match ?s with Some _ => _ | None => ([], None) end] =>
        destruct s as [spec'|]; [|constructor]
    end.
    cbn [fst]. apply fold_left_Forall; [|constructor].
    intros acc c Hacc. unfold FileChecker.manifestContainer. cbv zeta.
    do 2 (apply Forall_appendIf; [|literal]).
    destruct (asMap (index _ "resources")) as [resources|];
      [destruct (asMap (index resources "limits"))|];
      unfold FileChecker.noResourceLimits; keeps. }
  assert (Hd : List.Forall P (FileChecker.checkDockerfile path info).1).
  { unfold FileChecker.checkDockerfile.
    destruct (ReadFile info) as [content|]; [|constructor]. cbv zeta. cbn [fst].
    do 3 (apply Forall_appendIf; [|literal]).
    generalize (FileChecker.mkDockerfileScan false false false [])
      (List.Forall_nil P : List.Forall P
         (FileChecker.scanResults
            (FileChecker.mkDockerfileScan false false false []))).
    induction (strings.Split content (ascii_of_nat 10)) as [|line lines IH];
      intros st Hst; cbn [fold_left]; [exact Hst|].
    apply IH. unfold FileChecker.dockerfileLine. cbv zeta.
    cbn [FileChecker.scanResults]. keeps. }
  assert (Hc : List.Forall P (FileChecker.checkDockerCompose Unmarshal path info).1).
  { unfold FileChecker.checkDockerCompose.
    destruct (ReadFile info); [|constructor].
    destruct (Unmarshal a); [|constructor]. cbv zeta. cbn [fst].
    apply fold_left_Forall; [|constructor].
    intros acc entry Hacc. unfold FileChecker.composeService. cbv zeta. keeps. }
  destruct (FileChecker.isKubernetesManifest path info),
    (FileChecker.isDockerfile path), (FileChecker.isDockerCompose path);
    repeat apply merge_Forall; assumption.
Qed.

Lemma emitted_P (r : CheckResult) : emitted r -> P r.
Proof.
  intros [client opts Hin|client opts results err Hrun Hin
          |unicode Join Unmarshal Lstat opts Hin].
  - exact (proj1 (List.Forall_forall _ _)
             (K8sChecker_Run_Forall client opts) r Hin).
  - exact (proj1 (List.Forall_forall _ _)
             (DockerChecker_Run_Forall client opts results err Hrun) r Hin).
  - exact (proj1 (List.Forall_forall _ _)
             (FileChecker_Run_Forall Join Unmarshal Lstat opts) r Hin).
Qed.

End Emission.

Lemma fromTemplate_spec (r : CheckResult) :
  fromTemplate r = true ->
  exists t,
    In t ruleTemplates
    /\ RuleID r = RuleID t /\ RuleName r = RuleName t
    /\ Category r = Category t /\ Severity r = Severity t
    /\ Status r = Status t /\ Remediation r = Remediation t.
Proof.
  unfold fromTemplate. intros H. apply existsb_exists in H as (t & Hin & Hsame).
  exists t. split; [exact Hin|]. unfold sameTemplate in Hsame.
  repeat (apply andb_prop in Hsame as [Hsame ?]).
  repeat split; now apply String.eqb_eq.
Qed.

Lemma mixed_cluster_emits :
  emitted privileged_failed_result /\ emitted privileged_passed_result.
Proof.
  split; apply (emitted_cluster _ (Ok mixed_cluster) noOptions);
    vm_compute; tauto.
Qed.

Lemma emitted_template_fields (r : CheckResult) :
  emitted r ->
  exists t,
    In t ruleTemplates
    /\ RuleID r = RuleID t /\ RuleName r = RuleName t
    /\ Category r = Category t /\ Severity r = Severity t
    /\ Status r = Status t /\ Remediation r = Remediation t.
Proof.
  intros H. apply fromTemplate_spec.
  exact (emitted_P (fun r => fromTemplate r = true) (fun r H => H) r H).
Qed.

(** X10: every result a checker returns is built from one of the 45
    result literals of the source: its rule id, rule name, category,
    severity, status and remediation are those of the literal; only the
    resource and the message vary. *)
Theorem emitted_from_template (r : CheckResult) :
  emitted r ->
  exists t,
    In t ruleTemplates
    /\ RuleID r = RuleID t /\ RuleName r = RuleName t
    /\ Category r = Category t /\ Severity r = Severity t
    /\ Status r = Status t /\ Remediation r = Remediation t.
Proof. exact (emitted_template_fields r). Qed.

Lemma emitted_from_template_witness :
  emitted privileged_failed_result
  /\ exists t,
       In t ruleTemplates
       /\ RuleID privileged_failed_result = RuleID t
       /\ RuleName privileged_failed_result = RuleName t
       /\ Category privileged_failed_result = Category t
       /\ Severity privileged_failed_result = Severity t
       /\ Status privileged_failed_result = Status t
       /\ Remediation privileged_failed_result = Remediation t.
Proof.
  split; [exact (proj1 mixed_cluster_emits)|].
  exact (emitted_from_template privileged_failed_result
           (proj1 mixed_cluster_emits)).
Defined.

Lemma template_checked (Q : CheckResult -> bool) (r : CheckResult) :
  forallb Q ruleTemplates = true ->
  (forall t,
     RuleID r = RuleID t -> RuleName r = RuleName t ->
     Category r = Category t -> Severity r = Severity t ->
     Status r = Status t -> Remediation r = Remediation t ->
     Q t = true -> Q r = true) ->
  fromTemplate r = true -> Q r = true.
Proof.
  intros Hall Hext Hr.
  destruct (fromTemplate_spec r Hr) as (t & Hin & H1 & H2 & H3 & H4 & H5 & H6).
  apply (Hext t H1 H2 H3 H4 H5 H6).
  exact (proj1 (forallb_forall Q ruleTemplates) Hall t Hin).
Qed.

Lemma templates_sameRuleSameMeta :
  forallb (fun t1 => forallb (sameRuleSameMeta t1) ruleTemplates) ruleTemplates
  = true.
Proof. vm_compute. reflexivity. Qed.

(** X11: two results the checkers return for the same rule id carry the
    same rule name, the same category and the same severity. *)
Theorem emitted_rule_determines_severity (r1 r2 : CheckResult) :
  emitted r1 -> emitted r2 -> RuleID r1 = RuleID r2 ->
  RuleName r1 = RuleName r2 /\ Category r1 = Category r2
  /\ Severity r1 = Severity r2.
Proof.
  intros H1 H2 Hid.
  destruct (emitted_template_fields r1 H1) as (t1 & Hin1 & A1 & A2 & A3 & A4 & _).
  destruct (emitted_template_fields r2 H2) as (t2 & Hin2 & B1 & B2 & B3 & B4 & _).
  pose proof (proj1 (forallb_forall _ _)
                (proj1 (forallb_forall _ _) templates_sameRuleSameMeta t1 Hin1)
                t2 Hin2) as Hsame.
  unfold sameRuleSameMeta in Hsame.
  assert (Hid' : String.eqb (RuleID t1) (RuleID t2) = true)
    by (apply String.eqb_eq; congruence).
  rewrite Hid' in Hsame.
  apply andb_prop in Hsame as [Hsame Hs]. apply andb_prop in Hsame as [Hn Hc].
  apply String.eqb_eq in Hn, Hc, Hs. repeat split; congruence.
Qed.

Lemma emitted_rule_determines_severity_witness :
  RuleID privileged_failed_result = RuleID privileged_passed_result
  /\ RuleName privileged_failed_result = RuleName privileged_passed_result
  /\ Category privileged_failed_result = Category privileged_passed_result
  /\ Severity privileged_failed_result = Severity privileged_passed_result.
Proof.
  split; [reflexivity|].
  exact (emitted_rule_determines_severity privileged_failed_result
           privileged_passed_result (proj1 mixed_cluster_emits)
           (proj2 mixed_cluster_emits) eq_refl).
Defined.

Lemma templates_agreeWithCatalog :
  forallb agreesWithCatalog ruleTemplates = true.
Proof. vm_compute. reflexivity. Qed.

(** X12: where the catalog has an entry for the rule of a result a
    checker returns, the entry has the severity and the category of the
    result, and also its rule name unless the rule id starts with FILE-. *)
Theorem emitted_agrees_with_catalog (r : CheckResult) (p : Policy) :
  emitted r -> In p GetBuiltinPolicies -> ID p = RuleID r ->
  PolicySeverity p = Severity r /\ PolicyCategory p = Category r
  /\ (strings.HasPrefix (RuleID r) "FILE-" = false -> Name p = RuleName r).
Proof.
  intros Hr Hp Hid.
  destruct (emitted_template_fields r Hr) as (t & Hin & A1 & A2 & A3 & A4 & _).
  pose proof (proj1 (forallb_forall _ _) templates_agreeWithCatalog t Hin) as Ht.
  unfold agreesWithCatalog in Ht.
  pose proof (proj1 (forallb_forall _ _) Ht p Hp) as Hpt. cbv beta in Hpt.
  assert (Hid' : String.eqb (ID p) (RuleID t) = true)
    by (apply String.eqb_eq; congruence).
  rewrite Hid' in Hpt.
  apply andb_prop in Hpt as [Hpt Hname]. apply andb_prop in Hpt as [Hsev Hcat].
  apply String.eqb_eq in Hsev, Hcat. rewrite A2, A3, A4.
  repeat split; [exact Hsev | exact Hcat |].
  rewrite A1. intros Hfile. rewrite Hfile in Hname. cbn [orb] in Hname.
  now apply String.eqb_eq.
Qed.

Lemma emitted_agrees_with_catalog_witness :
  emitted privileged_failed_result
  /\ In privileged_policy GetBuiltinPolicies
  /\ PolicySeverity privileged_policy = Severity privileged_failed_result
  /\ PolicyCategory privileged_policy = Category privileged_failed_result.
Proof.
  assert (Hin : In privileged_policy GetBuiltinPolicies)
    by (left; reflexivity).
  split; [exact (proj1 mixed_cluster_emits)|]. split; [exact Hin|].
  destruct (emitted_agrees_with_catalog privileged_failed_result
              privileged_policy (proj1 mixed_cluster_emits) Hin eq_refl)
    as (Hsev & Hcat & _).
  split; [exact Hsev | exact Hcat].
Defined.

Lemma templates_passedXorRemediation :
  forallb passedXorRemediation ruleTemplates = true.
Proof. vm_compute. reflexivity. Qed.

Lemma emitted_status (r : CheckResult) :
  emitted r ->
  (Status r = StatusPassed /\ Remediation r = "")
  \/ (Status r = StatusFailed /\ Remediation r <> "").
Proof.
  intros Hr.
  destruct (emitted_template_fields r Hr) as (t & Hin & _ & _ & _ & _ & A5 & A6).
  pose proof (proj1 (forallb_forall _ _) templates_passedXorRemediation t Hin)
    as Ht.
  unfold passedXorRemediation in Ht. rewrite A5, A6.
  apply orb_prop in Ht as [Ht|Ht]; apply andb_prop in Ht as [Hs Hrem];
    apply String.eqb_eq in Hs.
  - left. apply String.eqb_eq in Hrem. auto.
  - right. apply negb_true_iff, String.eqb_neq in Hrem. auto.
Qed.

(** X13: no checker returns a skipped or a warning result: every result
    is passed, with no remediation, or failed, with one.  So a report
    built from results of the checkers has skipped = 0 and passed +
    failed = total, and when its total is positive so is the denominator
    total - skipped of its score. *)
Theorem emitted_report_adds_up
    (title : string) (now : Z) (includePassed : bool)
    (results : list CheckResult) :
  List.Forall emitted results ->
  List.Forall
    (fun r => (Status r = StatusPassed /\ Remediation r = "")
              \/ (Status r = StatusFailed /\ Remediation r <> "")) results
  /\ let s := Summary (buildReport title now includePassed results) in
     Skipped s = 0%Z
     /\ (Passed s + Failed s)%Z = Total s
     /\ ((0 < Total s)%Z -> (0 < Total s - Skipped s)%Z).
Proof.
  intros Hall.
  assert (Hstat : List.Forall
            (fun r => (Status r = StatusPassed /\ Remediation r = "")
                      \/ (Status r = StatusFailed /\ Remediation r <> ""))
            results).
  { apply List.Forall_forall. intros r Hr. apply emitted_status.
    exact (proj1 (List.Forall_forall _ _) Hall r Hr). }
  split; [exact Hstat|].
  unfold buildReport. cbv zeta. simpl Summary.
  set (rs := if negb includePassed then dropPassed results else results).
  assert (Hrs : List.Forall
            (fun r => Status r = StatusPassed \/ Status r = StatusFailed) rs).
  { apply List.Forall_forall. intros r Hr.
    assert (Hin : In r results).
    { subst rs. destruct includePassed; simpl in Hr; [exact Hr|].
      rewrite dropPassed_filter in Hr. now apply filter_In in Hr as [Hr _]. }
    destruct (proj1 (List.Forall_forall _ _) Hstat r Hin) as [[H _]|[H _]]; auto. }
  assert (Hz : countOf isSkipped rs = 0%Z /\ countOf isUncounted rs = 0%Z).
  { induction Hrs as [|r l Hr _ IH]; [split; reflexivity|].
    destruct IH as [IH1 IH2]. rewrite !countOf_cons, IH1, IH2.
    unfold isUncounted, isSkipped, isPassed, isFailed.
    destruct Hr as [-> | ->]; split; reflexivity. }
  destruct Hz as [Hs Hu].
  rewrite computeSummary_fields. cbn [Total Passed Failed Skipped].
  pose proof (status_partition rs). rewrite Hs. repeat split; lia.
Qed.

Lemma emitted_report_adds_up_witness :
  List.Forall emitted [privileged_failed_result; privileged_passed_result]
  /\ let s := Summary (buildReport "Compliance Report" 0 false
                         [privileged_failed_result; privileged_passed_result]) in
     Skipped s = 0%Z /\ (Passed s + Failed s)%Z = Total s
     /\ ((0 < Total s)%Z -> (0 < Total s - Skipped s)%Z).
Proof.
  assert (H : List.Forall emitted
                [privileged_failed_result; privileged_passed_result]).
  { repeat constructor; apply mixed_cluster_emits. }
  split; [exact H|].
  exact (proj2 (emitted_report_adds_up "Compliance Report" 0 false
                  [privileged_failed_result; privileged_passed_result] H)).
Defined.

(** ** The report of the report command *)








(** ** The grouping of the JUnit renderer *)

Lemma filter_split_Permutation {A : Type} (p : A -> bool) (l : list A) :
  Permutation (List.filter p l ++ List.filter (fun x => negb (p x)) l) l.
Proof.
  induction l as [|x l IH]; [constructor|]. cbn [List.filter].
  destruct (p x); cbn [negb app].
  - now constructor.
  - etransitivity; [symmetry; apply Permutation_middle|]. now constructor.
Qed.

Lemma flat_map_ext_in' {A B : Type} (f g : A -> list B) (l : list A) :
  (forall x, In x l -> f x = g x) -> flat_map f l = flat_map g l.
Proof.
  induction l as [|x l IH]; intros H; [reflexivity|]. cbn [flat_map].
  rewrite (H x (or_introl eq_refl)), IH; [reflexivity|].
  intros y Hy. apply H. now right.
Qed.

Lemma partition_by_category (keys : list string) :
  forall results,
    List.NoDup keys ->
    (forall r, In r results -> In (Category r) keys) ->
    Permutation
      (flat_map (fun c => List.filter (inCategory c) results) keys) results.
Proof.
  induction keys as [|c keys IH]; intros results Hnd Hcov.
  - destruct results as [|r results]; [constructor|].
    destruct (Hcov r (or_introl eq_refl)).
  - cbn [flat_map]. inversion Hnd as [|c' keys' Hnotin Hnd']; subst.
    set (rest := List.filter (fun r => negb (inCategory c r)) results).
    assert (Hrest :
      flat_map (fun c' => List.filter (inCategory c') results) keys
      = flat_map (fun c' => List.filter (inCategory c') rest) keys).
    { apply flat_map_ext_in'. intros c' Hc'. subst rest.
      rewrite filter_filter. apply List.filter_ext. intros r.
      unfold inCategory.
      destruct (String.eqb (Category r) c') eqn:E1; [|now rewrite andb_false_r].
      destruct (String.eqb (Category r) c) eqn:E2; [|reflexivity].
      apply String.eqb_eq in E1, E2. congruence. }
    rewrite Hrest.
    etransitivity; [|apply (filter_split_Permutation (inCategory c))].
    apply Permutation_app_head. apply IH; [exact Hnd'|].
    intros r Hr. subst rest. apply filter_In in Hr as [Hr Hne].
    destruct (Hcov r Hr) as [Heq|Hin]; [|exact Hin].
    unfold inCategory in Hne. rewrite <- Heq, String.eqb_refl in Hne.
    discriminate.
Qed.

Lemma concat_groups {K A : Type} (f : K -> list A) (l : list (K * list A)) :
  (forall k xs, In (k, xs) l -> xs = f k) ->
  concat (List.map snd l) = flat_map f (List.map fst l).
Proof.
  induction l as [|[k xs] l IH]; intros H; [reflexivity|].
  cbn [List.map concat flat_map fst snd].
  rewrite (H k xs (or_introl eq_refl)), IH; [reflexivity|].
  intros k' xs' Hin. apply H. now right.
Qed.

Lemma map_to_list_once (byCategory : gmap string (list CheckResult)) :
  visitsEachOnce map_to_list byCategory.
Proof. unfold visitsEachOnce. reflexivity. Qed.

(** The groups of the categories, in the order they are visited, hold
    every result once. *)
Lemma categories_Permutation
    (visit : gmap string (list CheckResult) -> list (string * list CheckResult))
    (results : list CheckResult) :
  visitsEachOnce visit (groupByCategory results) ->
  Permutation
    (flat_map (fun c => List.filter (inCategory c) results)
       (categories visit results))
    results.
Proof.
  intros Honce.
  apply partition_by_category; [now apply categories_NoDup|].
  intros r Hr. apply categories_In; [exact Honce|]. exists r. auto.
Qed.

Lemma groupedResults_flat_map (results : list CheckResult) :
  groupedResults results
  = flat_map (fun c => List.filter (inCategory c) results)
      (categories map_to_list results).
Proof.
  unfold groupedResults, categories. apply concat_groups.
  intros c rs Hin. now apply groupByCategory_entry in Hin as [-> _].
Qed.

Lemma groupedResults_Permutation (results : list CheckResult) :
  Permutation (groupedResults results) results.
Proof.
  rewrite groupedResults_flat_map.
  apply categories_Permutation, map_to_list_once.
Qed.

(** X14: the grouping by category of the JUnit renderer loses no result
    and repeats none: the groups, taken one after the other, are a
    permutation of the result list, each group holding the results of its
    category in their original order. *)
Theorem groupByCategory_partition (results : list CheckResult) :
  Permutation (groupedResults results) results
  /\ (forall category rs,
        In (category, rs) (map_to_list (groupByCategory results)) ->
        rs = List.filter (inCategory category) results).
Proof.
  split; [apply groupedResults_Permutation|].
  intros category rs Hin. now apply groupByCategory_entry in Hin as [-> _].
Qed.

Lemma length_filter_Permutation {A : Type} (p : A -> bool) (l l' : list A) :
  Permutation l l' -> length (List.filter p l) = length (List.filter p l').
Proof.
  induction 1 as [|x l l' _ IH|x y l|l l' l'' _ IH1 _ IH2]; cbn [List.filter].
  - reflexivity.
  - destruct (p x); cbn [length]; congruence.
  - destruct (p x), (p y); reflexivity.
  - congruence.
Qed.

Lemma countOf_flat_map (p : CheckResult -> bool)
    (f : string -> list CheckResult) (keys : list string) :
  countOf p (flat_map f keys) = sumZ (List.map (fun c => countOf p (f c)) keys).
Proof.
  induction keys as [|c keys IH]; [reflexivity|].
  cbn [flat_map List.map sumZ fold_right]. fold (sumZ (List.map (fun c => countOf p (f c)) keys)).
  rewrite <- IH. unfold countOf.
  rewrite List.filter_app, List.length_app. lia.
Qed.

(** The counts of the categories add up to the counts of the list. *)
Lemma category_counts_add_up
    (visit : gmap string (list CheckResult) -> list (string * list CheckResult))
    (results : list CheckResult) (p : CheckResult -> bool) :
  visitsEachOnce visit (groupByCategory results) ->
  sumZ (List.map (fun suite : string * list CheckResult => countOf p suite.2)
          (visit (groupByCategory results)))
  = countOf p results.
Proof.
  intros Honce.
  pose proof (categories_Permutation visit results Honce) as Hperm.
  transitivity
    (countOf p
       (flat_map (fun c => List.filter (inCategory c) results)
          (categories visit results))).
  - rewrite countOf_flat_map. unfold categories. rewrite List.map_map.
    f_equal. apply List.map_ext_in. intros [c rs] Hin. cbn [fst snd].
    apply (visit_In visit results Honce) in Hin.
    now apply groupByCategory_entry in Hin as [-> _].
  - unfold countOf. now rewrite (length_filter_Permutation _ _ _ Hperm).
Qed.

(** X15: in the JUnit rendering of a report made by the report builder,
    each suite is written with the length of its group as tests attribute
    and the count of its failure loop as failures attribute; over the
    suites, as they are visited, the numbers written as tests add up to
    the total of the report and the numbers written as failures to its
    failed count, which are the two numbers written at the top. *)
Theorem junit_suites_add_up
    (visit : gmap string (list CheckResult) -> list (string * list CheckResult))
    (title : string) (now : Z) (includePassed : bool)
    (results : list CheckResult) :
  let report := buildReport title now includePassed results in
  let suites := visit (groupByCategory (Results report)) in
  visitsEachOnce visit (groupByCategory (Results report)) ->
  generateJUnitReport visit report
  = (junitHead (Total (Summary report)) (Failed (Summary report))
     ++ concatStrings
          (List.map
             (fun suite : string * list CheckResult =>
                junitSuite suite.1 (Z.of_nat (length suite.2))
                  (countFailures suite.2) (testcases suite.2))
             suites)
     ++ "</testsuites>")%string
  /\ sumZ (List.map
             (fun suite : string * list CheckResult => Z.of_nat (length suite.2))
             suites)
     = Total (Summary report)
  /\ sumZ (List.map
             (fun suite : string * list CheckResult => countFailures suite.2)
             suites)
     = Failed (Summary report).
Proof.
  cbv zeta. unfold buildReport. cbn [Results Summary].
  set (rs := if negb includePassed then dropPassed results else results).
  intros Honce. rewrite computeSummary_fields. cbn [Total Failed].
  split; [|split].
  - unfold generateJUnitReport. cbv zeta. cbn [Results Summary Total Failed].
    rewrite (fold_left_write (fun kv => testsuite kv.1 kv.2)).
    rewrite string_app_assoc, testsuitesOpen_written. do 3 f_equal.
    apply List.map_ext. intros suite. apply testsuite_written.
  - assert (forall l : list CheckResult, List.filter (fun _ => true) l = l)
      as Hall by (intros l; apply forallb_filter_id, forallb_forall; reflexivity).
    transitivity (countOf (fun _ => true) rs);
      [|unfold countOf; now rewrite Hall].
    rewrite <- (category_counts_add_up visit rs (fun _ => true) Honce).
    f_equal. apply List.map_ext. intros suite. unfold countOf.
    now rewrite Hall.
  - rewrite <- (category_counts_add_up visit rs isFailed Honce).
    f_equal. apply List.map_ext. intros suite. apply countFailures_countOf.
Qed.

Lemma junit_suites_add_up_witness :
  let report :=
    buildReport "Compliance Report" 0 true
      [privileged_failed_result; pullAlways_result; port80_result] in
  let suites := map_to_list (groupByCategory (Results report)) in
  visitsEachOnce map_to_list (groupByCategory (Results report))
  /\ List.map (fun suite : string * list CheckResult => Z.of_nat (length suite.2))
       suites
     = [1%Z; 1%Z; 1%Z]
  /\ sumZ (List.map
             (fun suite : string * list CheckResult => countFailures suite.2)
             suites)
     = Failed (Summary report).
Proof.
  split; [apply map_to_list_once|]. split; [vm_compute; reflexivity|].
  apply (junit_suites_add_up map_to_list "Compliance Report" 0 true
           [privileged_failed_result; pullAlways_result; port80_result]).
  apply map_to_list_once.
Defined.

(** ** The check command *)

Lemma filterResults_nil (opts : CheckOptions) : filterResults opts [] = [].
Proof. rewrite filterResults_filter. destruct (noControls opts); reflexivity. Qed.

(** The cluster checker filters what its five checks return; the checks
    themselves read the namespace only. *)
Lemma K8sChecker_Run_raw (client : result Clientset) (opts : CheckOptions) :
  (K8sChecker.Run client opts).1
  = filterResults opts (K8sChecker.Run client (withControls [] [] "" opts)).1.
Proof.
  destruct client as [cs|e]; simpl.
  - reflexivity.
  - symmetry. apply filterResults_nil.
Qed.

(** The runtime checker and the file checker read the image and the
    path of the options only. *)
Lemma DockerChecker_Run_controls (client : result docker.Client)
    (opts : CheckOptions) (skip only : list string) (severity : string) :
  DockerChecker.Run client (withControls skip only severity opts)
  = DockerChecker.Run client opts.
Proof. reflexivity. Qed.

Lemma FileChecker_Run_controls {unicode : Unicode}
    (Join : string -> string -> string)
    (Unmarshal : string -> result (list (string * any)))
    (Lstat : string -> result FsNode)
    (opts : CheckOptions) (skip only : list string) (severity : string) :
  FileChecker.Run Join Unmarshal Lstat (withControls skip only severity opts)
  = FileChecker.Run Join Unmarshal Lstat opts.
Proof. reflexivity. Qed.

(** X16: [runAllChecks] never returns an error.  Its results are the
    results of the cluster checker run without skip list, only list and
    minimum severity, filtered by the three controls; then the results
    the runtime checker returns without the three controls, unfiltered;
    then those of the file checker, unfiltered too: the controls prune the
    cluster results alone.  With the path left empty, as the check
    command and the report leave it, and no file at the empty path, there
    are no file results. *)
Theorem runAllChecks_controls_reach_cluster_only {unicode : Unicode}
    (Join : string -> string -> string)
    (Unmarshal : string -> result (list (string * any)))
    (p : Providers) (opts : CheckOptions)
    (results : list CheckResult) (err : option error) :
  checkcmd.runAllChecks Join Unmarshal p opts = Some (results, err) ->
  let plain := withControls [] [] "" opts in
  err = None
  /\ (exists (runtime : list CheckResult) (runtimeErr : option error),
        DockerChecker.Run (dockerClient p) plain = Some (runtime, runtimeErr)
        /\ results
           = filterResults opts (K8sChecker.Run (kubeClient p) plain).1
             ++ runtime
             ++ (FileChecker.Run Join Unmarshal (fileSystem p) plain).1)
  /\ (forall e : error,
        Path opts = "" -> fileSystem p "" = Err e ->
        (FileChecker.Run Join Unmarshal (fileSystem p) plain).1 = []).
Proof.
  unfold checkcmd.runAllChecks, checkcmd.runK8sChecks, checkcmd.runDockerChecks,
    checkcmd.runFileChecks.
  intros Hrun. cbv zeta. rewrite DockerChecker_Run_controls,
    FileChecker_Run_controls.
  destruct (DockerChecker.Run (dockerClient p) opts) as [[runtime runtimeErr]|];
    [|discriminate].
  injection Hrun as <- <-. split; [reflexivity|]. split.
  - exists runtime, runtimeErr. split; [reflexivity|].
    rewrite (K8sChecker_Run_raw _ opts), <- app_assoc. reflexivity.
  - intros e Hpath Hroot. unfold FileChecker.Run, Walk.
    rewrite Hpath, Hroot. reflexivity.
Qed.

Lemma runAllChecks_controls_reach_cluster_only_witness :
  exists results : list CheckResult,
    checkcmd.runAllChecks (unicode := noTables) filepath.Join decode
      sample_providers skipPrivileged_opts
    = Some (results, None)
    /\ List.map RuleID results
       = ["K8S-SEC-002"; "K8S-SEC-003"; "K8S-SEC-002"; "K8S-SEC-003";
          "K8S-PROBE-001"; "K8S-PROBE-002"; "K8S-IMG-002"; "K8S-RES-001";
          "K8S-RES-002"; "K8S-RES-003"; "K8S-RES-004"; "K8S-RES-001";
          "K8S-RES-002"; "K8S-RES-003"; "K8S-RES-004";
          "DOCKER-SEC-001"; "DOCKER-SEC-002"; "DOCKER-RES-001";
          "DOCKER-RES-002"; "DOCKER-CFG-001"; "DOCKER-CFG-002";
          "DOCKER-SEC-006"]
    /\ (FileChecker.Run (unicode := noTables) filepath.Join decode
          (fileSystem sample_providers)
          (withControls [] [] "" skipPrivileged_opts)).1 = [].
Proof.
  eexists. split; [vm_compute; reflexivity|]. split; [vm_compute; reflexivity|].
  destruct (runAllChecks_controls_reach_cluster_only (unicode := noTables)
              filepath.Join decode sample_providers skipPrivileged_opts _ None
              eq_refl) as (_ & _ & Hfiles).
  apply (Hfiles "lstat : no such file or directory"); reflexivity.
Defined.

(** The exit-status loop raises its first flag at a failed result of
    severity critical or high, its second at any other failed result. *)
Lemma exitFlags_loop (results : list CheckResult) (flags : bool * bool) :
  fold_left checkcmd.exitFlagsStep results flags
  = (flags.1 || existsb failedHigh results,
     flags.2 || existsb failedOther results).
Proof.
  revert flags. induction results as [|r results IH]; intros [a b].
  - simpl. rewrite !orb_false_r. reflexivity.
  - cbn [fold_left existsb]. rewrite IH.
    unfold checkcmd.exitFlagsStep, failedHigh, failedOther, isFailed.
    destruct (String.eqb (Status r) StatusFailed); cbn [andb orb fst snd].
    + destruct (String.eqb (Severity r) "critical" || String.eqb (Severity r) "high");
        cbn [negb fst snd orb]; rewrite ?orb_true_r; reflexivity.
    + reflexivity.
Qed.

Lemma existsb_false_iff {A : Type} (f : A -> bool) (l : list A) :
  existsb f l = false <-> forall x, In x l -> f x = false.
Proof.
  split.
  - intros H x Hx. destruct (f x) eqn:E; [|reflexivity].
    rewrite <- H. symmetry. apply existsb_exists. exists x. auto.
  - intros H. destruct (existsb f l) eqn:E; [|reflexivity].
    apply existsb_exists in E as (x & Hx & Hfx). rewrite (H x Hx) in Hfx.
    discriminate.
Qed.

(** X17: the check command returns no error exactly when the checker of
    its target returned results without an error and every failed result
    among them has a severity other than critical and high, with the
    fail-on-warn flag unset if there is one.  A failed result of severity
    [CRITICAL], in capitals, counts as a warning. *)
Theorem runCheck_succeeds_iff {unicode : Unicode}
    (Join : string -> string -> string)
    (Unmarshal : string -> result (list (string * any)))
    (arg : string) (flags : CheckFlags) (p : Providers) :
  checkcmd.runCheck Join Unmarshal arg flags p = Some None
  <-> exists results : list CheckResult,
        checkcmd.runTarget Join Unmarshal arg flags p = Ok (Some (results, None))
        /\ forall r : CheckResult,
             In r results -> Status r = StatusFailed ->
             Severity r <> "critical" /\ Severity r <> "high"
             /\ flagFailOnWarn flags = false.
Proof.
  unfold checkcmd.runCheck, checkcmd.exitFlags.
  destruct (checkcmd.runTarget Join Unmarshal arg flags p)
    as [[[results [err|]]|]|e].
  - split; [discriminate|]. intros (results' & Heq & _). discriminate.
  - rewrite exitFlags_loop. cbn [fst snd orb].
    split.
    + intros Hexit. exists results. split; [reflexivity|].
      intros r Hr Hfailed.
      destruct (existsb failedHigh results) eqn:Eh; [discriminate|].
      rewrite existsb_false_iff in Eh. specialize (Eh r Hr).
      unfold failedHigh, isFailed in Eh.
      rewrite Hfailed, String.eqb_refl in Eh. cbn [andb] in Eh.
      apply orb_false_elim in Eh as [Ec Eg].
      apply String.eqb_neq in Ec, Eg. split; [exact Ec|]. split; [exact Eg|].
      destruct (flagFailOnWarn flags); [|reflexivity].
      destruct (existsb failedOther results) eqn:Eo; [discriminate|].
      rewrite existsb_false_iff in Eo. specialize (Eo r Hr).
      unfold failedOther, isFailed in Eo.
      rewrite Hfailed, String.eqb_refl in Eo.
      apply String.eqb_neq in Ec, Eg. rewrite Ec, Eg in Eo. discriminate.
    + intros (results' & Heq & Hall). injection Heq as <-.
      assert (existsb failedHigh results = false) as ->.
      { apply existsb_false_iff. intros r Hr. unfold failedHigh, isFailed.
        destruct (String.eqb (Status r) StatusFailed) eqn:Ef; [|reflexivity].
        apply String.eqb_eq in Ef. destruct (Hall r Hr Ef) as (Hc & Hg & _).
        apply String.eqb_neq in Hc, Hg. rewrite Hc, Hg. reflexivity. }
      cbn [orb].
      destruct (flagFailOnWarn flags) eqn:Ew; [|reflexivity].
      assert (existsb failedOther results = false) as ->.
      { apply existsb_false_iff. intros r Hr. unfold failedOther, isFailed.
        destruct (String.eqb (Status r) StatusFailed) eqn:Ef; [|reflexivity].
        apply String.eqb_eq in Ef. destruct (Hall r Hr Ef) as (_ & _ & Hw).
        discriminate. }
      reflexivity.
  - split; [discriminate|]. intros (results' & Heq & _). discriminate.
  - split; [discriminate|]. intros (results' & Heq & _). discriminate.
Qed.

(** The counting loop of the console summary, counter by counter. *)
Lemma displayCounts_loop (results : list CheckResult) (c : DisplayCounts) :
  fold_left checkcmd.displayCountsStep results c
  = mkDisplayCounts
      (displayPassed c + countOf isPassed results)
      (displayFailed c + countOf failedHigh results)
      (displayWarnings c + countOf failedOther results)
      (displaySkipped c + countOf isSkipped results).
Proof.
  revert c. induction results as [|r results IH]; intros c.
  - unfold countOf. simpl. destruct c. simpl. f_equal; lia.
  - cbn [fold_left]. rewrite IH, !countOf_cons.
    unfold checkcmd.displayCountsStep, failedHigh, failedOther.
    rewrite (orb_comm (String.eqb (Severity r) "high")).
    destruct (status_cases r) as [(Ep & Ef & Es)|[(Ep & Ef & Es)|[(Ep & Ef & Es)|(Ep & Ef & Es)]]];
      rewrite Ep, Ef, Es; unfold isPassed, isFailed, isSkipped in Ep, Ef, Es;
      rewrite ?Ep, ?Ef, ?Es; cbn [andb];
      try destruct (String.eqb (Severity r) "critical" || String.eqb (Severity r) "high");
      cbn [negb displayPassed displayFailed displayWarnings displaySkipped];
      f_equal; lia.
Qed.

Lemma failed_split (results : list CheckResult) :
  (countOf failedHigh results + countOf failedOther results)%Z
  = countOf isFailed results.
Proof.
  induction results as [|r results IH]; [reflexivity|].
  rewrite !countOf_cons, <- IH. unfold failedHigh, failedOther.
  destruct (isFailed r); cbn [andb]; [|lia].
  destruct (String.eqb (Severity r) "critical" || String.eqb (Severity r) "high");
    cbn [negb]; lia.
Qed.

(** X18: the counters of the console summary against the summary of the
    report on the same results.  Passed and skipped agree; the console
    splits the failed count of the report into failed (severity critical
    or high) and warnings; and the total the console prints is the total
    of the report less the results whose status is none of passed, failed
    and skipped. *)
Theorem displayResults_against_report (results : list CheckResult) :
  let c := checkcmd.displayCounts results in
  let s := computeSummary results in
  displayPassed c = Passed s
  /\ displaySkipped c = Skipped s
  /\ (displayFailed c + displayWarnings c)%Z = Failed s
  /\ displayFailed c = countOf failedHigh results
  /\ checkcmd.displayTotal results
     = (Total s - countOf isUncounted results)%Z.
Proof.
  unfold checkcmd.displayTotal, checkcmd.displayCounts.
  rewrite displayCounts_loop, computeSummary_fields.
  cbn [displayPassed displayFailed displayWarnings displaySkipped
       Passed Failed Skipped Total].
  pose proof (failed_split results) as Hsplit.
  pose proof (status_partition results) as Hpart.
  repeat split; lia.
Qed.

Lemma string_length_app (s1 s2 : string) :
  String.length (s1 ++ s2) = (String.length s1 + String.length s2)%nat.
Proof.
  induction s1 as [|c s1 IH]; [reflexivity|].
  change (S (String.length (s1 ++ s2)) = S (String.length s1 + String.length s2)).
  now rewrite IH.
Qed.

Lemma substring_length (s : string) (n m : nat) :
  (n + m <= String.length s)%nat -> String.length (String.substring n m s) = m.
Proof.
  revert n m. induction s as [|c s IH]; intros n m Hle.
  - simpl in Hle. assert (n = 0%nat) as -> by lia.
    assert (m = 0%nat) as -> by lia. reflexivity.
  - destruct n as [|n].
    + destruct m as [|m]; [reflexivity|].
      cbn [String.substring String.length]. f_equal. apply IH.
      simpl in Hle. lia.
    + cbn [String.substring]. apply IH. simpl in Hle. lia.
Qed.

(** X19: [truncateString] panics exactly when the bound is below three
    and the text is longer than the bound.  Otherwise the text comes back
    unchanged when it fits, and cut to exactly the bound when it does
    not. *)
Theorem truncateString_bounds (s : string) (maxLen : Z) :
  (checkcmd.truncateString s maxLen = None
   <-> (maxLen < 3 /\ maxLen < Z.of_nat (String.length s))%Z)
  /\ forall t : string,
       checkcmd.truncateString s maxLen = Some t ->
       Z.of_nat (String.length t) = Z.min (Z.of_nat (String.length s)) maxLen
       /\ ((Z.of_nat (String.length s) <= maxLen)%Z -> t = s)
       /\ ((maxLen < Z.of_nat (String.length s))%Z ->
           strings.HasSuffix t "..." = true).
Proof.
  unfold checkcmd.truncateString.
  destruct (Z.of_nat (String.length s) <=? maxLen)%Z eqn:Efit.
  - apply Z.leb_le in Efit. split.
    + split; [discriminate|lia].
    + intros t [= <-]. repeat split; [lia|lia].
  - apply Z.leb_gt in Efit.
    destruct (maxLen - 3 <? 0)%Z eqn:Eneg.
    + apply Z.ltb_lt in Eneg. split; [|discriminate].
      split; [intros _; lia|reflexivity].
    + apply Z.ltb_ge in Eneg. split.
      * split; [discriminate|lia].
      * intros t [= <-].
        assert (String.length (String.substring 0 (Z.to_nat (maxLen - 3)) s)
                = Z.to_nat (maxLen - 3)) as Hlen
          by (apply substring_length; lia).
        split; [rewrite string_length_app, Hlen; simpl String.length; lia|].
        split; [lia|]. intros _.
        unfold strings.HasSuffix. rewrite string_length_app, Hlen.
        simpl String.length.
        replace (Z.to_nat (maxLen - 3) + 3 - 3)%nat with (Z.to_nat (maxLen - 3))
          by lia.
        replace (3 <=? Z.to_nat (maxLen - 3) + 3)%nat with true
          by (symmetry; apply Nat.leb_le; lia).
        cbn [andb]. apply String.eqb_eq.
        revert Hlen.
        generalize (String.substring 0 (Z.to_nat (maxLen - 3)) s).
        intros u <-. induction u as [|c u IH]; [reflexivity|exact IH].
Qed.

Lemma fold_left_ext {A B : Type} (f g : A -> B -> A) (l : list B) (acc : A) :
  (forall acc x, f acc x = g acc x) -> fold_left f l acc = fold_left g l acc.
Proof.
  intros Hfg. revert acc.
  induction l as [|x l IH]; intros acc; [reflexivity|].
  cbn [fold_left]. rewrite Hfg. apply IH.
Qed.

(** The filter loop of the policy listing keeps the policies that pass
    its test, in order. *)
Lemma selectPolicies_filter (category severity : string) (policies : list Policy) :
  checkcmd.selectPolicies category severity policies
  = List.filter (policySelected category severity) policies.
Proof.
  unfold checkcmd.selectPolicies.
  destruct (negb (String.eqb category "") || negb (String.eqb severity "")) eqn:Eset.
  - rewrite <- (app_nil_l (List.filter _ policies)), <- fold_left_keep.
    apply fold_left_ext. intros filtered p. unfold policySelected.
    destruct (String.eqb category ""), (String.eqb (PolicyCategory p) category),
      (String.eqb severity ""), (String.eqb (PolicySeverity p) severity);
      reflexivity.
  - apply orb_false_elim in Eset as [Ec Es].
    apply negb_false_iff in Ec, Es.
    symmetry. apply forallb_filter_id. apply forallb_forall. intros p _.
    unfold policySelected. rewrite Ec, Es. reflexivity.
Qed.

(** X20: the policy listing compares the severity asked for with the
    catalog's as it is written.  With no category asked for, the listing
    is empty exactly when the severity is set and is none of low, medium,
    high and critical; asking for a category as well keeps it empty. *)
Theorem runPolicies_severity_exact (severity : string) :
  (checkcmd.selectPolicies "" severity GetBuiltinPolicies = []
   <-> severity <> "" /\ ~ In severity recognizedSeverities)
  /\ forall category : string,
       checkcmd.selectPolicies "" severity GetBuiltinPolicies = [] ->
       checkcmd.selectPolicies category severity GetBuiltinPolicies = [].
Proof.
  split.
  - split.
    + intros Hempty. split.
      * intros ->. discriminate Hempty.
      * intros Hin. simpl in Hin.
        destruct Hin as [<-|[<-|[<-|[<-|[]]]]]; vm_compute in Hempty;
          discriminate Hempty.
    + intros [Hset Hnot]. rewrite selectPolicies_filter.
      assert (forallb (fun p => bool_decide (In (PolicySeverity p) recognizedSeverities))
                GetBuiltinPolicies = true) as Hcat by (vm_compute; reflexivity).
      rewrite forallb_forall in Hcat.
      induction GetBuiltinPolicies as [|p l IH]; [reflexivity|].
      cbn [List.filter]. unfold policySelected at 1.
      apply String.eqb_neq in Hset. rewrite Hset. cbn [orb andb].
      destruct (String.eqb (PolicySeverity p) severity) eqn:Ep.
      * exfalso. apply String.eqb_eq in Ep. apply Hnot. rewrite <- Ep.
        apply (bool_decide_eq_true_1 _ (Hcat p (or_introl eq_refl))).
      * apply IH. intros q Hq. apply Hcat. right. exact Hq.
  - intros category. rewrite !selectPolicies_filter.
    induction GetBuiltinPolicies as [|p l IH]; [reflexivity|].
    cbn [List.filter].
    destruct (policySelected "" severity p) eqn:Eany; [discriminate|].
    assert (policySelected category severity p = false) as ->; [|exact IH].
    unfold policySelected in *. simpl in Eany. rewrite Eany.
    apply andb_false_r.
Qed.

(** The completion loop keeps the entries whose value starts with the
    typed text. *)
Lemma completeEntries_filter (entries : list string) (toComplete : string) :
  completion.completeEntries entries toComplete
  = List.filter
      (fun entry => strings.HasPrefix (completionValue entry) toComplete) entries.
Proof.
  unfold completion.completeEntries.
  rewrite <- (app_nil_l (List.filter _ entries)), <- fold_left_keep.
  reflexivity.
Qed.

Lemma map_filter_value (test : string -> bool) (entries : list string) :
  List.map completionValue
    (List.filter (fun entry => test (completionValue entry)) entries)
  = List.filter test (List.map completionValue entries).
Proof.
  induction entries as [|entry entries IH]; [reflexivity|].
  cbn [List.filter List.map].
  destruct (test (completionValue entry)); cbn [List.map]; now rewrite IH.
Qed.

(** X21: the values the severity flag is completed with are the
    severities the result filter ranks, those that start with the typed
    text, in the order low, medium, high, critical. *)
Theorem SeverityCompletion_values (toComplete : string) :
  List.map completionValue (completion.SeverityCompletion toComplete)
  = List.filter (fun severity => strings.HasPrefix severity toComplete)
      recognizedSeverities
  /\ List.Forall
       (fun entry => is_Some (levels !! completionValue entry))
       (completion.SeverityCompletion toComplete).
Proof.
  unfold completion.SeverityCompletion.
  rewrite completeEntries_filter. split.
  - rewrite (map_filter_value (fun v => strings.HasPrefix v toComplete)).
    reflexivity.
  - apply List.Forall_forall. intros entry Hin.
    apply List.filter_In in Hin as [Hin _]. simpl in Hin.
    destruct Hin as [<-|[<-|[<-|[<-|[]]]]]; vm_compute; eexists; reflexivity.
Qed.

(** X22: every target the check command offers for completion starts
    with the typed text and is a target the command runs a checker for;
    nothing is offered once the target is given. *)
Theorem ComplianceTargetCompletion_accepted {unicode : Unicode}
    (args : list string) (toComplete : string) :
  List.map completionValue (completion.ComplianceTargetCompletion args toComplete)
  = (if (0 <? length args)%nat then []
     else List.filter (fun target => strings.HasPrefix target toComplete)
            offeredTargets)
  /\ List.Forall
       (fun target =>
          forall (Join : string -> string -> string)
                 (Unmarshal : string -> result (list (string * any)))
                 (flags : CheckFlags) (p : Providers),
          exists run,
            checkcmd.runTarget Join Unmarshal target flags p = Ok run)
       offeredTargets.
Proof.
  split.
  - unfold completion.ComplianceTargetCompletion.
    destruct (0 <? length args)%nat; [reflexivity|].
    rewrite completeEntries_filter.
    rewrite (map_filter_value (fun v => strings.HasPrefix v toComplete)).
    reflexivity.
  - unfold offeredTargets.
    repeat (apply List.Forall_cons; [intros; eexists; reflexivity|]).
    apply List.Forall_nil.
Qed.

Lemma countOf_ext (test test' : CheckResult -> bool) (results : list CheckResult) :
  (forall r, test r = test' r) -> countOf test results = countOf test' results.
Proof.
  intros Hsame. unfold countOf. f_equal. f_equal.
  apply List.filter_ext. exact Hsame.
Qed.

Lemma countOf_none (results : list CheckResult) :
  countOf (fun _ => false) results = 0%Z.
Proof. induction results; [reflexivity|assumption]. Qed.

Lemma countOf_filter (keep test : CheckResult -> bool) (results : list CheckResult) :
  countOf test (List.filter keep results)
  = countOf (fun r => keep r && test r) results.
Proof. unfold countOf. now rewrite filter_filter. Qed.

(** X23: a report built without the passed results holds no passed
    result, so its passed count is zero; its total is the number of
    results that did not pass, and its failed and skipped counts are
    those of the report with the passed results. *)
Theorem buildReport_without_passed
    (title : string) (now : Z) (results : list CheckResult) :
  let report := buildReport title now false results in
  let full := buildReport title now true results in
  List.Forall (fun r => Status r <> StatusPassed) (Results report)
  /\ Passed (Summary report) = 0%Z
  /\ Total (Summary report)
     = (Total (Summary full) - Passed (Summary full))%Z
  /\ Failed (Summary report) = Failed (Summary full)
  /\ Skipped (Summary report) = Skipped (Summary full).
Proof.
  unfold buildReport. cbn [negb Results Summary].
  rewrite !computeSummary_fields, dropPassed_filter.
  cbn [Total Passed Failed Skipped].
  pose proof (status_partition results) as Hall.
  pose proof (status_partition (List.filter (fun r => negb (isPassed r)) results))
    as Hkept.
  rewrite !countOf_filter in *.
  rewrite (countOf_ext (fun r => negb (isPassed r) && isPassed r) (fun _ => false))
    in * by (intros r; destruct (isPassed r); reflexivity).
  rewrite countOf_none in *.
  assert (forall r, negb (isPassed r) && isFailed r = isFailed r) as Hfailed.
  { intros r. destruct (status_cases r) as [(Ep & Ef & Es)|[(Ep & Ef & Es)|[(Ep & Ef & Es)|(Ep & Ef & Es)]]];
      rewrite Ep, Ef; reflexivity. }
  assert (forall r, negb (isPassed r) && isSkipped r = isSkipped r) as Hskipped.
  { intros r. destruct (status_cases r) as [(Ep & Ef & Es)|[(Ep & Ef & Es)|[(Ep & Ef & Es)|(Ep & Ef & Es)]]];
      rewrite Ep, Es; reflexivity. }
  assert (forall r, negb (isPassed r) && isUncounted r = isUncounted r) as Huncounted.
  { intros r. unfold isUncounted. destruct (isPassed r); reflexivity. }
  rewrite (countOf_ext _ _ _ Hfailed), (countOf_ext _ _ _ Hskipped) in *.
  rewrite (countOf_ext _ _ _ Huncounted) in Hkept.
  split; [|split; [|split; [|split]]]; try reflexivity; try lia.
  apply List.Forall_forall. intros r Hr.
  apply List.filter_In in Hr as [_ Hr]. unfold isPassed in Hr.
  intros Hp. rewrite Hp in Hr. discriminate.
Qed.

(** ** The wrapper of the Docker client *)

Lemma prefix_Contains (s substr : string) :
  String.prefix substr s = true -> strings.Contains s substr = true.
Proof.
  destruct s as [|c s]; intros Hp.
  - destruct substr; [reflexivity|discriminate].
  - cbn [strings.Contains]. rewrite Hp. reflexivity.
Qed.

(** A text that contains [c :: substr] contains [substr]. *)
Lemma Contains_tail (s substr : string) (c : ascii) :
  strings.Contains s (String c substr) = true -> strings.Contains s substr = true.
Proof.
  induction s as [|a s IH]; [discriminate|].
  cbn [strings.Contains]. intros H.
  apply orb_true_iff in H as [Hp|Hc].
  - cbn [String.prefix] in Hp.
    destruct (Ascii.ascii_dec c a) as [_|_]; [|discriminate].
    apply orb_true_iff. right. apply prefix_Contains. exact Hp.
  - apply orb_true_iff. right. apply IH. exact Hc.
Qed.

Lemma append_loop_map {A B : Type} (f : A -> B) (l : list A) (acc : list B) :
  fold_left (fun acc x => acc ++ [f x]) l acc = acc ++ List.map f l.
Proof.
  revert acc. induction l as [|x l IH]; intros acc; cbn [fold_left List.map].
  - now rewrite app_nil_r.
  - rewrite IH, <- app_assoc. reflexivity.
Qed.

Lemma healthOf_cases (status : string) :
  (dockerclient.healthOf status = "healthy"
   \/ dockerclient.healthOf status = "starting"
   \/ dockerclient.healthOf status = "")
  /\ (strings.Contains status "(" = true ->
      strings.Contains status "unhealthy" = true ->
      dockerclient.healthOf status = "healthy").
Proof.
  unfold dockerclient.healthOf. split.
  - destruct (negb (String.eqb status "") && strings.Contains status "("); [|auto].
    destruct (strings.Contains status "healthy") eqn:Eh; [auto|].
    destruct (strings.Contains status "unhealthy") eqn:Eu.
    + apply Contains_tail, Contains_tail in Eu. congruence.
    + destruct (strings.Contains status "starting"); auto.
  - intros Hparen Hun. rewrite Hparen.
    destruct (String.eqb status "") eqn:Ee.
    + apply String.eqb_eq in Ee. subst status. discriminate.
    + cbn [negb andb]. apply Contains_tail, Contains_tail in Hun.
      rewrite Hun. reflexivity.
Qed.

(** X24: no container is listed with the health [unhealthy].  The status
    text is searched for [healthy] first, which every text that holds
    [unhealthy] contains; so the health listed is healthy, starting or
    empty, and a container whose status reads [(unhealthy)] is listed as
    healthy. *)
Theorem ListContainers_never_unhealthy
    (formatTime : Z -> string)
    (listed : result (list dockerclient.APIContainer))
    (infos : list dockerclient.ContainerInfo) :
  dockerclient.ListContainers formatTime listed = Ok infos ->
  List.Forall
    (fun info =>
       dockerclient.Health info <> "unhealthy"
       /\ (strings.Contains (dockerclient.ContainerStatus info) "(" = true ->
           strings.Contains (dockerclient.ContainerStatus info) "unhealthy" = true ->
           dockerclient.Health info = "healthy"))
    infos.
Proof.
  unfold dockerclient.ListContainers.
  destruct listed as [containers|e]; [|discriminate].
  intros [= <-]. rewrite append_loop_map, app_nil_l.
  apply List.Forall_forall. intros info Hin.
  apply List.in_map_iff in Hin as (cont & <- & _).
  cbn [dockerclient.Health dockerclient.ContainerStatus dockerclient.containerInfo].
  destruct (healthOf_cases (dockerclient.apiStatus cont)) as [Hcases Hun].
  split; [|exact Hun].
  destruct Hcases as [-> | [-> | ->]]; discriminate.
Qed.

Lemma ListContainers_never_unhealthy_witness :
  exists infos : list dockerclient.ContainerInfo,
    dockerclient.ListContainers epochText (Ok [unhealthy_container]) = Ok infos
    /\ List.map dockerclient.Health infos = ["healthy"]
    /\ List.Forall
         (fun info =>
            dockerclient.Health info <> "unhealthy"
            /\ (strings.Contains (dockerclient.ContainerStatus info) "(" = true ->
                strings.Contains (dockerclient.ContainerStatus info) "unhealthy"
                = true ->
                dockerclient.Health info = "healthy"))
         infos.
Proof.
  eexists. split; [vm_compute; reflexivity|]. split; [reflexivity|].
  apply (ListContainers_never_unhealthy epochText (Ok [unhealthy_container])).
  vm_compute. reflexivity.
Defined.

Lemma Split_cons (s : string) (sep : ascii) :
  exists piece rest, strings.Split s sep = piece :: rest.
Proof.
  destruct s as [|c s]; cbn [strings.Split]; [eauto|].
  destruct (Ascii.eqb c sep); [eauto|].
  destruct (strings.Split s sep); eauto.
Qed.

Lemma Split_pieces (s : string) (sep : ascii) :
  List.Forall (fun piece => countByte sep piece = 0%nat) (strings.Split s sep).
Proof.
  induction s as [|c s IH]; cbn [strings.Split].
  - repeat constructor.
  - destruct (Ascii.eqb c sep) eqn:Ec.
    + constructor; [reflexivity|exact IH].
    + destruct (strings.Split s sep) as [|line rest].
      * repeat constructor. cbn [countByte]. now rewrite Ec.
      * inversion IH as [|? ? Hline Hrest]; subst.
        constructor; [|exact Hrest]. cbn [countByte]. now rewrite Ec.
Qed.

Lemma Split_length (s : string) (sep : ascii) :
  length (strings.Split s sep) = S (countByte sep s).
Proof.
  induction s as [|c s IH]; cbn [strings.Split countByte]; [reflexivity|].
  destruct (Ascii.eqb c sep).
  - cbn [length]. now rewrite IH.
  - destruct (Split_cons s sep) as (line & rest & Hs). rewrite Hs in *.
    cbn [length] in *. cbn [Nat.add]. exact IH.
Qed.

Lemma Split_join (s : string) (sep : ascii) :
  joinWith sep (strings.Split s sep) = s.
Proof.
  induction s as [|c s IH]; cbn [strings.Split]; [reflexivity|].
  destruct (Split_cons s sep) as (line & rest & Hs). rewrite Hs in *.
  destruct (Ascii.eqb c sep) eqn:Ec.
  - apply Ascii.eqb_eq in Ec. subst c.
    change (joinWith sep (EmptyString :: line :: rest))
      with (String sep (joinWith sep (line :: rest))).
    now rewrite IH.
  - destruct rest as [|next rest].
    + cbn [joinWith] in *. now rewrite IH.
    + change (joinWith sep (String c line :: next :: rest))
        with (String c (joinWith sep (line :: next :: rest))).
      now rewrite IH.
Qed.

(** X25: the repository and the tag an image is listed with are the
    first two pieces of its first repo tag cut at every colon.  Neither
    holds a colon; a repo tag with one colon is the repository, a colon
    and the tag; one with no colon gives an empty tag; and one with more
    colons, as when the registry is named with its port, loses what
    follows the second colon. *)
Theorem imageInfo_repository_tag
    (formatTime : Z -> string) (img : dockerclient.APIImage)
    (repoTag : string) (others : list string) :
  dockerclient.apiRepoTags img = repoTag :: others ->
  let info := dockerclient.imageInfo formatTime img in
  countByte ":" (dockerclient.Repository info) = 0%nat
  /\ countByte ":" (dockerclient.Tag info) = 0%nat
  /\ (countByte ":" repoTag = 0%nat ->
      dockerclient.Repository info = repoTag /\ dockerclient.Tag info = "")
  /\ (countByte ":" repoTag = 1%nat ->
      repoTag
      = (dockerclient.Repository info ++ ":" ++ dockerclient.Tag info)%string)
  /\ ((1 < countByte ":" repoTag)%nat ->
      exists dropped : string,
        repoTag
        = (dockerclient.Repository info ++ ":" ++ dockerclient.Tag info
           ++ ":" ++ dropped)%string).
Proof.
  intros Htags. unfold dockerclient.imageInfo. rewrite Htags.
  pose proof (Split_pieces repoTag ":") as Hpieces.
  pose proof (Split_length repoTag ":") as Hlen.
  pose proof (Split_join repoTag ":") as Hjoin.
  destruct (strings.Split repoTag ":") as [|repository [|tag rest]];
    [discriminate Hlen| |];
    cbn [hd nth length Nat.ltb Nat.leb dockerclient.Repository dockerclient.Tag].
  - apply List.Forall_cons_iff in Hpieces as [Hrepo _].
    cbn [joinWith] in Hjoin. cbn [length] in Hlen.
    repeat split; try reflexivity; try (intros; lia); congruence.
  - apply List.Forall_cons_iff in Hpieces as [Hrepo Hrest].
    apply List.Forall_cons_iff in Hrest as [Htag _].
    cbn [length] in Hlen.
    split; [exact Hrepo|]. split; [exact Htag|].
    split; [intros; lia|]. split.
    + intros Hone. destruct rest; [|cbn [length] in Hlen; lia].
      symmetry. exact Hjoin.
    + intros Hmore. destruct rest as [|next rest]; [cbn [length] in Hlen; lia|].
      exists (joinWith ":" (next :: rest)). rewrite <- Hjoin at 1.
      reflexivity.
Qed.

Lemma imageInfo_repository_tag_witness :
  let info := dockerclient.imageInfo epochText registryPort_image in
  dockerclient.apiRepoTags registryPort_image = ["localhost:5000/app:1.0"]
  /\ dockerclient.Repository info = "localhost"
  /\ dockerclient.Tag info = "5000/app"
  /\ exists dropped : string,
       "localhost:5000/app:1.0"
       = (dockerclient.Repository info ++ ":" ++ dockerclient.Tag info
          ++ ":" ++ dropped)%string.
Proof.
  split; [reflexivity|]. split; [reflexivity|]. split; [reflexivity|].
  apply (imageInfo_repository_tag epochText registryPort_image
           "localhost:5000/app:1.0" [] eq_refl).
  vm_compute. lia.
Defined.

(** The index loop of the log filter finds the ranks of its two
    arguments. *)
Lemma levelIndexes_rank (filter detected : string) :
  dockerclient.levelIndexes filter detected logLevels
  = (levelRank filter, levelRank detected).
Proof.
  unfold dockerclient.levelIndexes, logLevels, levelRank. cbn [fold_left snd].
  destruct (String.eqb "error" filter), (String.eqb "warn" filter),
    (String.eqb "info" filter), (String.eqb "debug" filter),
    (String.eqb "error" detected), (String.eqb "warn" detected),
    (String.eqb "info" detected), (String.eqb "debug" detected);
    reflexivity.
Qed.

Lemma levelRank_unranked (level : string) :
  ~ In level logLevels -> levelRank level = (-1)%Z.
Proof.
  intros Hnot. unfold levelRank.
  destruct (String.eqb "error" level) eqn:E3;
    [apply String.eqb_eq in E3; exfalso; apply Hnot; simpl; auto|].
  destruct (String.eqb "warn" level) eqn:E2;
    [apply String.eqb_eq in E2; exfalso; apply Hnot; simpl; auto|].
  destruct (String.eqb "info" level) eqn:E1;
    [apply String.eqb_eq in E1; exfalso; apply Hnot; simpl; auto|].
  destruct (String.eqb "debug" level) eqn:E0;
    [apply String.eqb_eq in E0; exfalso; apply Hnot; simpl; auto|].
  reflexivity.
Qed.

Lemma levelRank_range (level : string) :
  (-1 <= levelRank level <= 3)%Z
  /\ (In level logLevels -> (0 <= levelRank level)%Z).
Proof.
  unfold levelRank. split.
  - destruct (String.eqb "error" level), (String.eqb "warn" level),
      (String.eqb "info" level), (String.eqb "debug" level); lia.
  - intros Hin. simpl in Hin.
    destruct Hin as [<-|[<-|[<-|[<-|[]]]]]; vm_compute; discriminate.
Qed.

Lemma matchesLevel_rank {unicode : Unicode} (detected filter : string) :
  dockerclient.matchesLevel detected filter
  = (String.eqb (strings.ToLower filter) (strings.ToLower detected)
     || (levelRank (strings.ToLower filter)
         <=? levelRank (strings.ToLower detected))%Z).
Proof.
  unfold dockerclient.matchesLevel.
  change ["debug"; "info"; "warn"; "error"] with logLevels.
  rewrite levelIndexes_rank.
  destruct (String.eqb (strings.ToLower filter) (strings.ToLower detected));
    reflexivity.
Qed.

(** X26: the log filter at its edges.  A filter that is none of debug,
    info, warn and error lets every line through; under a filter that is
    one of them a line whose level is none of them is dropped; and a line
    of level error passes every filter. *)
Theorem matchesLevel_edges {unicode : Unicode} :
  (forall detected filter : string,
     ~ In (strings.ToLower filter) logLevels ->
     dockerclient.matchesLevel detected filter = true)
  /\ (forall detected filter : string,
        In (strings.ToLower filter) logLevels ->
        ~ In (strings.ToLower detected) logLevels ->
        dockerclient.matchesLevel detected filter = false)
  /\ (forall filter : string, dockerclient.matchesLevel "error" filter = true).
Proof.
  split; [|split].
  - intros detected filter Hnot. rewrite matchesLevel_rank.
    rewrite (levelRank_unranked _ Hnot).
    destruct (levelRank_range (strings.ToLower detected)) as [[Hlow _] _].
    apply orb_true_iff. right. apply Z.leb_le. exact Hlow.
  - intros detected filter Hin Hnot. rewrite matchesLevel_rank.
    rewrite (levelRank_unranked _ Hnot).
    destruct (levelRank_range (strings.ToLower filter)) as [_ Hranked].
    specialize (Hranked Hin).
    apply orb_false_iff. split.
    + apply String.eqb_neq. intros Heq. apply Hnot. rewrite <- Heq. exact Hin.
    + apply Z.leb_gt. lia.
  - intros filter. rewrite matchesLevel_rank.
    destruct (levelRank_range (strings.ToLower filter)) as [[_ Hhigh] _].
    apply orb_true_iff. right. apply Z.leb_le.
    change (levelRank (strings.ToLower "error")) with 3%Z. exact Hhigh.
Qed.

(** *** The multiplexed log stream *)

Lemma byte_range (c : ascii) : (0 <= dockerclient.byte c < 256)%Z.
Proof.
  unfold dockerclient.byte. pose proof (nat_ascii_bounded c). lia.
Qed.

Lemma byte_byteOf (n : Z) : dockerclient.byte (byteOf n) = (n mod 256)%Z.
Proof.
  unfold dockerclient.byte, byteOf.
  pose proof (Z.mod_pos_bound n 256 ltac:(lia)) as Hn.
  rewrite nat_ascii_embedding by lia. lia.
Qed.

(** Bits that do not overlap add up. *)
Lemma lor_disjoint (a b k : Z) :
  (0 <= k)%Z -> (a mod 2 ^ k = 0)%Z -> (0 <= b < 2 ^ k)%Z ->
  Z.lor a b = (a + b)%Z.
Proof.
  intros Hk Ha Hb.
  assert (Z.land a b = 0%Z) as Hland.
  { apply Z.bits_inj'. intros n Hn. rewrite Z.land_spec, Z.bits_0.
    destruct (Z.lt_ge_cases n k) as [Hlow|Hhigh].
    - rewrite <- (Z.mod_pow2_bits_low a k n) by lia.
      rewrite Ha, Z.bits_0. reflexivity.
    - rewrite <- (Z.mod_small b (2 ^ k)) by lia.
      rewrite Z.mod_pow2_bits_high by lia. apply andb_false_r. }
  pose proof (Z.add_lor_land a b) as Hadd. lia.
Qed.

Lemma frameSize_sum (b4 b5 b6 b7 : ascii) :
  dockerclient.frameSize b4 b5 b6 b7
  = (dockerclient.byte b4 * 2 ^ 24 + dockerclient.byte b5 * 2 ^ 16
     + dockerclient.byte b6 * 2 ^ 8 + dockerclient.byte b7)%Z.
Proof.
  unfold dockerclient.frameSize.
  pose proof (byte_range b4). pose proof (byte_range b5).
  pose proof (byte_range b6). pose proof (byte_range b7).
  rewrite !Z.shiftl_mul_pow2 by lia.
  rewrite (lor_disjoint (dockerclient.byte b4 * 2 ^ 24)
             (dockerclient.byte b5 * 2 ^ 16) 24); [|lia| |lia].
  2:{ replace (dockerclient.byte b4 * 2 ^ 24)%Z
        with (dockerclient.byte b4 * 2 ^ 24 + 0)%Z by lia.
      rewrite Z.add_comm, Z.mod_add by lia. reflexivity. }
  rewrite (lor_disjoint _ (dockerclient.byte b6 * 2 ^ 8) 16); [|lia| |lia].
  2:{ replace (dockerclient.byte b4 * 2 ^ 24 + dockerclient.byte b5 * 2 ^ 16)%Z
        with (0 + (dockerclient.byte b4 * 2 ^ 8 + dockerclient.byte b5) * 2 ^ 16)%Z
        by lia.
      rewrite Z.mod_add by lia. reflexivity. }
  rewrite (lor_disjoint _ (dockerclient.byte b7) 8); [|lia| |lia].
  2:{ replace (dockerclient.byte b4 * 2 ^ 24 + dockerclient.byte b5 * 2 ^ 16
               + dockerclient.byte b6 * 2 ^ 8)%Z
        with (0 + (dockerclient.byte b4 * 2 ^ 16 + dockerclient.byte b5 * 2 ^ 8
                   + dockerclient.byte b6) * 2 ^ 8)%Z by lia.
      rewrite Z.mod_add by lia. reflexivity. }
  reflexivity.
Qed.

(** X27: the payload size read off a frame header is the number its
    bytes 4 to 7 write in base 256, highest byte first: it is never
    negative and stays below 2^32. *)
Theorem frameSize_big_endian (b4 b5 b6 b7 : ascii) :
  dockerclient.frameSize b4 b5 b6 b7
  = (((dockerclient.byte b4 * 256 + dockerclient.byte b5) * 256
      + dockerclient.byte b6) * 256 + dockerclient.byte b7)%Z
  /\ (0 <= dockerclient.frameSize b4 b5 b6 b7 < 2 ^ 32)%Z.
Proof.
  rewrite frameSize_sum.
  pose proof (byte_range b4). pose proof (byte_range b5).
  pose proof (byte_range b6). pose proof (byte_range b7).
  split; lia.
Qed.

Lemma frameSize_header (n : Z) :
  (0 <= n < 2 ^ 32)%Z ->
  dockerclient.frameSize (byteOf (n / 2 ^ 24)) (byteOf (n / 2 ^ 16))
    (byteOf (n / 2 ^ 8)) (byteOf n)
  = n.
Proof.
  intros Hn. rewrite frameSize_sum, !byte_byteOf.
  change (2 ^ 24)%Z with 16777216%Z. change (2 ^ 16)%Z with 65536%Z.
  change (2 ^ 8)%Z with 256%Z. change (2 ^ 32)%Z with 4294967296%Z in Hn.
  Z.div_mod_to_equations. lia.
Qed.

Lemma substring_app_prefix (payload rest : string) :
  String.substring 0 (String.length payload) (payload ++ rest) = payload.
Proof.
  induction payload as [|c payload IH].
  - destruct rest; reflexivity.
  - change (String c (String.substring 0 (String.length payload) (payload ++ rest))
            = String c payload).
    now rewrite IH.
Qed.

Lemma substring_whole (s : string) : String.substring 0 (String.length s) s = s.
Proof.
  rewrite <- (string_app_empty_r s) at 2. apply substring_app_prefix.
Qed.

Lemma substring_app_suffix (payload rest : string) :
  String.substring (String.length payload)
    (String.length (payload ++ rest) - String.length payload) (payload ++ rest)
  = rest.
Proof.
  rewrite string_length_app.
  replace (String.length payload + String.length rest - String.length payload)%nat
    with (String.length rest) by lia.
  induction payload as [|c payload IH]; [apply substring_whole|exact IH].
Qed.

Section Frames.

Context {unicode : Unicode}.
Variable MatchString : string -> string -> bool.
Variable opts : dockerclient.LogOptions.
Variable visits : nat -> list (string * string).

(** One turn of the loop on a whole header. *)
Lemma readFrames_step (fuel turn : nat)
    (streamType p1 p2 p3 b4 b5 b6 b7 : ascii) (rest : string) :
  dockerclient.readFrames MatchString (S fuel) opts visits turn
    (String streamType (String p1 (String p2 (String p3
       (String b4 (String b5 (String b6 (String b7 rest))))))))
  = let size := Z.to_nat (dockerclient.frameSize b4 b5 b6 b7) in
    if (String.length rest <? size)%nat then
      ([], Some (if (String.length rest =? 0)%nat then EOF else ErrUnexpectedEOF))
    else
      let '(lines, err) :=
        dockerclient.readFrames MatchString fuel opts visits (S turn)
          (String.substring size (String.length rest - size) rest) in
      match dockerclient.frameLine MatchString opts (visits turn) streamType
              (String.substring 0 size rest) with
      | Some line => (line :: lines, err)
      | None => (lines, err)
      end.
Proof. reflexivity. Qed.

(** The loop on whole frames followed by [rest]: it makes the lines of
    the frames, then goes on with [rest]. *)
Lemma readFrames_frames (frames : list (ascii * string)) (fuel turn : nat)
    (rest : string) :
  List.Forall (fun f => (Z.of_nat (String.length f.2) < 2 ^ 32)%Z) frames ->
  dockerclient.readFrames MatchString (length frames + fuel) opts visits turn
    (multiplexed frames ++ rest)
  = (frameLines MatchString opts visits turn frames
     ++ (dockerclient.readFrames MatchString fuel opts visits
           (turn + length frames) rest).1,
     (dockerclient.readFrames MatchString fuel opts visits
        (turn + length frames) rest).2).
Proof.
  intros Hsizes. revert turn.
  induction frames as [|[streamType payload] frames IH]; intros turn.
  - change (multiplexed [] ++ rest)%string with rest.
    change (length (@nil (ascii * string)) + fuel)%nat with fuel.
    cbn [length]. rewrite Nat.add_0_r.
    destruct (dockerclient.readFrames MatchString fuel opts visits turn rest).
    reflexivity.
  - apply List.Forall_cons_iff in Hsizes as [Hsize Hsizes].
    specialize (IH Hsizes). cbn [fst snd] in Hsize.
    unfold multiplexed. cbn [List.map concatStrings fold_right].
    fold (concatStrings (List.map frame frames)).
    fold (multiplexed frames).
    unfold frame at 1. cbn [fst snd]. rewrite !string_app_assoc.
    unfold frameHeader. rewrite !append_String, append_empty.
    cbn [length Nat.add].
    rewrite readFrames_step. cbv zeta.
    rewrite frameSize_header by lia. rewrite Nat2Z.id.
    replace (String.length (payload ++ multiplexed frames ++ rest)
             <? String.length payload)%nat with false
      by (symmetry; apply Nat.ltb_ge; rewrite string_length_app; lia).
    rewrite substring_app_prefix, substring_app_suffix, IH.
    replace (S turn + length frames)%nat with (turn + S (length frames))%nat
      by lia.
    cbn [frameLines fst snd].
    destruct (dockerclient.frameLine MatchString opts (visits turn)
                streamType payload);
      reflexivity.
Qed.

Lemma multiplexed_length (frames : list (ascii * string)) :
  (8 * length frames <= String.length (multiplexed frames))%nat.
Proof.
  induction frames as [|f frames IH]; [cbn; lia|].
  unfold multiplexed. cbn [List.map concatStrings fold_right].
  fold (concatStrings (List.map frame frames)). fold (multiplexed frames).
  rewrite string_length_app. unfold frame, frameHeader.
  rewrite !append_String, append_empty.
  cbn [String.length length]. lia.
Qed.

Lemma StreamLogs_frames (frames : list (ascii * string)) (rest : string) :
  List.Forall (fun f => (Z.of_nat (String.length f.2) < 2 ^ 32)%Z) frames ->
  exists fuel : nat,
    dockerclient.StreamLogs MatchString (Ok (multiplexed frames ++ rest)%string)
      opts visits
    = (frameLines MatchString opts visits 0 frames
       ++ (dockerclient.readFrames MatchString (S fuel) opts visits
             (length frames) rest).1,
       (dockerclient.readFrames MatchString (S fuel) opts visits
          (length frames) rest).2).
Proof.
  intros Hsizes. unfold dockerclient.StreamLogs.
  pose proof (multiplexed_length frames) as Hlen.
  exists (String.length (multiplexed frames ++ rest) - length frames)%nat.
  rewrite <- (readFrames_frames frames _ 0 rest Hsizes).
  f_equal. rewrite string_length_app in *. lia.
Qed.

End Frames.

(** With no level and no timestamps asked for, every frame gives its
    line. *)
Lemma frameLines_plain {unicode : Unicode}
    (MatchString : string -> string -> bool) (opts : dockerclient.LogOptions)
    (visits : nat -> list (string * string))
    (frames : list (ascii * string)) (turn : nat) :
  dockerclient.Level opts = "" ->
  dockerclient.Timestamps opts = false ->
  frameLines MatchString opts visits turn frames
  = imap
      (fun i f =>
         dockerclient.mkLogLine ""
           (if (dockerclient.byte f.1 =? 1)%Z then "stdout" else "stderr")
           (strings.TrimSpace f.2)
           (dockerclient.detectLogLevel MatchString (visits (turn + i)%nat)
              (strings.TrimSpace f.2)))
      frames.
Proof.
  intros Hlevel Htimestamps. revert turn.
  induction frames as [|f frames IH]; intros turn; [reflexivity|].
  cbn [frameLines imap]. rewrite IH.
  unfold dockerclient.frameLine. rewrite Hlevel, Htimestamps.
  cbn [andb negb String.eqb app]. rewrite Nat.add_0_r. f_equal.
  apply imap_ext. intros i x _. cbn [compose].
  replace (S turn + i)%nat with (turn + S i)%nat by lia. reflexivity.
Qed.

(** X28: a stream of whole frames gives one line per frame, in order,
    and no error, when neither a level nor timestamps are asked for.  The
    line of a frame has as content its payload without the white space
    around it, as stream stdout when the first header byte is 1 and
    stderr otherwise, and as level what the detector makes of the content
    with the order in which the map of patterns is visited at that
    frame. *)
Theorem StreamLogs_whole_frames {unicode : Unicode}
    (MatchString : string -> string -> bool) (opts : dockerclient.LogOptions)
    (visits : nat -> list (string * string))
    (frames : list (ascii * string)) :
  dockerclient.Level opts = "" ->
  dockerclient.Timestamps opts = false ->
  List.Forall (fun f => (Z.of_nat (String.length f.2) < 2 ^ 32)%Z) frames ->
  dockerclient.StreamLogs MatchString (Ok (multiplexed frames)) opts visits
  = (imap
       (fun turn f =>
          dockerclient.mkLogLine ""
            (if (dockerclient.byte f.1 =? 1)%Z then "stdout" else "stderr")
            (strings.TrimSpace f.2)
            (dockerclient.detectLogLevel MatchString (visits turn)
               (strings.TrimSpace f.2)))
       frames,
     None).
Proof.
  intros Hlevel Htimestamps Hsizes.
  destruct (StreamLogs_frames MatchString opts visits frames "" Hsizes)
    as (fuel & Hrun).
  rewrite string_app_empty_r in Hrun. rewrite Hrun.
  cbn [dockerclient.readFrames fst snd]. rewrite app_nil_r. f_equal.
  now rewrite (frameLines_plain MatchString opts visits frames 0).
Qed.

Lemma StreamLogs_whole_frames_witness :
  dockerclient.Level allLines = ""
  /\ dockerclient.Timestamps allLines = false
  /\ dockerclient.StreamLogs (unicode := noTables) warnMatch
       (Ok (multiplexed [stdout_frame; stderr_frame; padded_frame]))
       allLines asWritten
     = ([dockerclient.mkLogLine "" "stdout" "ready" "";
         dockerclient.mkLogLine "" "stderr" "warn: disk" "warn";
         dockerclient.mkLogLine "" "stdout" "done" ""], None).
Proof.
  split; [reflexivity|]. split; [reflexivity|].
  rewrite (StreamLogs_whole_frames (unicode := noTables) warnMatch allLines
             asWritten [stdout_frame; stderr_frame; padded_frame]
             eq_refl eq_refl).
  - reflexivity.
  - repeat constructor.
Defined.

Lemma substring_prefix_append (header payload : string) (n : nat) :
  String.substring 0 (String.length header + n) (header ++ payload)
  = (header ++ String.substring 0 n payload)%string.
Proof.
  induction header as [|c header IH]; [reflexivity|].
  rewrite !append_String.
  change (String c (String.substring 0 (String.length header + n) (header ++ payload))
          = String c (header ++ String.substring 0 n payload)).
  now rewrite IH.
Qed.

(** X29: a stream cut inside a frame.  The lines of the whole frames
    before the cut are delivered, and the error is [unexpected EOF],
    except that a stream that ends right after a header returns the error
    [EOF], though a stream that ends before a header returns none. *)
Theorem StreamLogs_truncated {unicode : Unicode}
    (MatchString : string -> string -> bool) (opts : dockerclient.LogOptions)
    (visits : nat -> list (string * string))
    (frames : list (ascii * string)) (f : ascii * string) (cut : nat) :
  List.Forall (fun f => (Z.of_nat (String.length f.2) < 2 ^ 32)%Z) frames ->
  (Z.of_nat (String.length f.2) < 2 ^ 32)%Z ->
  (0 < cut < String.length (frame f))%nat ->
  dockerclient.StreamLogs MatchString
    (Ok (multiplexed frames ++ String.substring 0 cut (frame f))%string)
    opts visits
  = (frameLines MatchString opts visits 0 frames,
     Some (if (cut =? 8)%nat then EOF else ErrUnexpectedEOF)).
Proof.
  intros Hsizes Hsize Hcut.
  destruct (StreamLogs_frames MatchString opts visits frames
              (String.substring 0 cut (frame f)) Hsizes) as (fuel & ->).
  destruct f as [streamType payload]. unfold frame in *. cbn [fst snd] in *.
  assert (dockerclient.readFrames MatchString (S fuel) opts visits
            (length frames)
            (String.substring 0 cut
               (frameHeader streamType (Z.of_nat (String.length payload)) ++ payload))
          = ([], Some (if (cut =? 8)%nat then EOF else ErrUnexpectedEOF))) as ->;
    [|cbn [fst snd]; now rewrite app_nil_r].
  destruct (Nat.lt_ge_cases cut 8) as [Hshort|Hlong].
  - unfold frameHeader. rewrite !append_String, append_empty.
    do 8 (destruct cut as [|cut]; [try lia; reflexivity|]). lia.
  - replace cut with (String.length
                        (frameHeader streamType (Z.of_nat (String.length payload)))
                      + (cut - 8))%nat at 1 by (cbn [frameHeader String.length]; lia).
    rewrite substring_prefix_append.
    unfold frameHeader. rewrite !append_String, append_empty.
    rewrite readFrames_step. cbv zeta.
    rewrite string_length_app in Hcut. cbn [frameHeader String.length] in Hcut.
    rewrite frameSize_header by lia. rewrite Nat2Z.id.
    rewrite substring_length by lia.
    replace (cut - 8 <? String.length payload)%nat with true
      by (symmetry; apply Nat.ltb_lt; lia).
    destruct (Nat.eq_dec cut 8) as [->|Hne]; [reflexivity|].
    replace (cut - 8 =? 0)%nat with false by (symmetry; apply Nat.eqb_neq; lia).
    replace (cut =? 8)%nat with false by (symmetry; apply Nat.eqb_neq; lia).
    reflexivity.
Qed.

Lemma StreamLogs_truncated_witness :
  (0 < 8 < String.length (frame stderr_frame))%nat
  /\ dockerclient.StreamLogs (unicode := noTables) warnMatch
       (Ok (multiplexed [stdout_frame]
            ++ String.substring 0 8 (frame stderr_frame))%string)
       allLines asWritten
     = ([dockerclient.mkLogLine "" "stdout" "ready" ""], Some EOF).
Proof.
  split; [vm_compute; lia|].
  rewrite (StreamLogs_truncated (unicode := noTables) warnMatch allLines
             asWritten [stdout_frame] stderr_frame 8).
  - reflexivity.
  - repeat constructor.
  - vm_compute. reflexivity.
  - vm_compute. lia.
Defined.

(** ** The build files *)

(** The line loop of the build file check: its flags remember whether a
    directive was seen, and it adds no result of the file-level rules. *)
Lemma dockerfileLine_loop {unicode : Unicode} (resource : string) (lines : list string)
    (st : FileChecker.DockerfileScan) :
  let st' := fold_left (FileChecker.dockerfileLine resource) lines st in
  FileChecker.hasUser st'
  = (FileChecker.hasUser st || existsb (directiveLine "USER ") lines)
  /\ FileChecker.hasHealthcheck st'
     = (FileChecker.hasHealthcheck st
        || existsb (directiveLine "HEALTHCHECK ") lines)
  /\ forall id : string,
       id <> "FILE-DOCKER-001" -> id <> "FILE-DOCKER-002" ->
       countRule id (FileChecker.scanResults st')
       = countRule id (FileChecker.scanResults st).
Proof.
  revert st. induction lines as [|line lines IH]; intros st.
  - cbn. rewrite !orb_false_r. auto.
  - cbn [fold_left existsb]. cbv zeta in IH.
    destruct (IH (FileChecker.dockerfileLine resource st line)) as (Hu & Hh & Hc).
    rewrite Hu, Hh. unfold FileChecker.dockerfileLine at 1 2.
    cbn [FileChecker.hasUser FileChecker.hasHealthcheck].
    unfold directiveLine at 2 4. rewrite !orb_assoc.
    split; [reflexivity|]. split; [reflexivity|].
    intros id H1 H2. rewrite (Hc id H1 H2).
    unfold FileChecker.dockerfileLine. cbn [FileChecker.scanResults].
    rewrite !countRule_appendIf. cbn [RuleID].
    apply String.eqb_neq in H1, H2. rewrite String.eqb_sym in H1, H2.
    rewrite H1, H2, !andb_false_r. lia.
Qed.

(** X30: a build file that can be read gets the finding FILE-DOCKER-003
    once if no line starts with [USER ], in any case and after any
    indentation, and not at all otherwise, whoever the user is:
    [user root] is enough.  The same holds of FILE-DOCKER-004 and
    [HEALTHCHECK ], and FILE-DOCKER-005 is reported at most once. *)
Theorem checkDockerfile_file_level_findings {unicode : Unicode}
    (path : string) (node : FsNode) (content : string) :
  ReadFile node = Ok content ->
  let lines := strings.Split content (ascii_of_nat 10) in
  let run := FileChecker.checkDockerfile path node in
  run.2 = None
  /\ countRule "FILE-DOCKER-003" run.1
     = (if existsb (directiveLine "USER ") lines then 0 else 1)%nat
  /\ countRule "FILE-DOCKER-004" run.1
     = (if existsb (directiveLine "HEALTHCHECK ") lines then 0 else 1)%nat
  /\ (countRule "FILE-DOCKER-005" run.1 <= 1)%nat.
Proof.
  intros Hread. unfold FileChecker.checkDockerfile. rewrite Hread. cbv zeta.
  cbn [fst snd].
  destruct (dockerfileLine_loop path (strings.Split content (ascii_of_nat 10))
              (FileChecker.mkDockerfileScan false false false []))
    as (Hu & Hh & Hc).
  rewrite !countRule_appendIf. cbn [RuleID].
  rewrite (Hc "FILE-DOCKER-003"), (Hc "FILE-DOCKER-004"), (Hc "FILE-DOCKER-005")
    by discriminate.
  rewrite Hu, Hh. cbn [FileChecker.hasUser FileChecker.hasHealthcheck
                         FileChecker.scanResults orb].
  change (countRule _ []) with 0%nat.
  split; [reflexivity|].
  split; [|split].
  - destruct (existsb (directiveLine "USER ") _); rewrite ?andb_false_r; reflexivity.
  - destruct (existsb (directiveLine "HEALTHCHECK ") _);
      rewrite ?andb_false_r; reflexivity.
  - rewrite !andb_false_r.
    destruct (FileChecker.usesLatest _); cbn; lia.
Qed.

Lemma checkDockerfile_file_level_findings_witness :
  let run :=
    FileChecker.checkDockerfile (unicode := noTables) "Dockerfile"
      (File (Ok userRoot_text)) in
  ReadFile (File (Ok userRoot_text)) = Ok userRoot_text
  /\ existsb (directiveLine (unicode := noTables) "USER ")
       (strings.Split userRoot_text (ascii_of_nat 10)) = true
  /\ countRule "FILE-DOCKER-003" run.1 = 0%nat
  /\ countRule "FILE-DOCKER-004" run.1 = 1%nat.
Proof.
  destruct (checkDockerfile_file_level_findings (unicode := noTables)
              "Dockerfile" (File (Ok userRoot_text)) userRoot_text eq_refl)
    as (_ & Huser & Hhealth & _).
  split; [reflexivity|]. split; [vm_compute; reflexivity|].
  split; [exact Huser|exact Hhealth].
Defined.
